(** * Pump affinity converter: the conversion engine and its tabular reader

    A shallow embedding of the three variant scripts [app_streamlit.py],
    [app_streamlit1.py] and [app_streamlit3.py]: the spreadsheet reader
    [read_uploaded_excel], the affinity-law engine [apply_affinity] and the
    per-diameter export loop of [build_excel_bytes].

    Numbers are IEEE 754 binary64 values, as Python floats and the float64
    columns of a data frame are; they are modelled with the executable
    specification of the standard library ([SpecFloat], precision 53,
    maximal exponent 1024, rounding to nearest even). *)

From Stdlib Require Import ZArith List String Ascii Bool Lia.
From Stdlib Require Import SpecFloat DecimalString DecimalPos.
Import ListNotations.

Local Open Scope Z_scope.

(** ** Binary64 arithmetic *)

Module Float64.

Definition prec : Z := 53.
Definition emax : Z := 1024.

Definition float : Type := spec_float.

Definition mul : float -> float -> float := SFmul prec emax.
Definition div : float -> float -> float := SFdiv prec emax.
Definition opp : float -> float := SFopp.
Definition abs : float -> float := SFabs.
Definition eqb : float -> float -> bool := SFeqb.
Definition ltb : float -> float -> bool := SFltb.

(** The float nearest to an integer, and to a decimal literal
    [m * 10^-k].  Both [m] and [10^k] are below [2^53] at every use, so
    the single rounding of the division is the rounding a decimal
    literal gets when the source is read. *)
Definition of_Z (z : Z) : float := binary_normalize prec emax z 0 false.
Definition of_decimal (m : Z) (k : nat) : float :=
  div (of_Z m) (of_Z (10 ^ Z.of_nat k)).

Definition zero : float := S754_zero false.
Definition one : float := Eval vm_compute in of_Z 1.
Definition nan : float := S754_nan.

Definition is_nan (x : float) : bool :=
  match x with S754_nan => true | _ => false end.
Definition is_inf (x : float) : bool :=
  match x with S754_infinity _ => true | _ => false end.
Definition is_zero (x : float) : bool :=
  match x with S754_zero _ => true | _ => false end.
(** [math.isfinite]: neither an infinity nor a NaN. *)
Definition is_finite (x : float) : bool :=
  match x with S754_zero _ | S754_finite _ _ _ => true | _ => false end.
(** A finite value other than zero, of positive sign. *)
Definition is_pos_finite (x : float) : bool :=
  match x with S754_finite false _ _ => true | _ => false end.

(** The values that are binary64 numbers: canonical mantissa and
    exponent in range. *)
Definition valid (x : float) : bool := valid_binary prec emax x.

End Float64.

Import Float64.


(** ** Python values: exceptions, scalars, strings *)

(** The exceptions the programs can meet.  [ReferenceError] stands for
    the use of a position the object store does not hold, which no
    program here does. *)
Inductive exn : Type :=
| KeyError | IndexError | ValueError | TypeError
| ZeroDivisionError | OverflowError | ReferenceError.

Inductive result (A : Type) : Type :=
| Ok (a : A)
| Raise (e : exn).

Arguments Ok {A} a.
Arguments Raise {A} e.

Definition rbind {A B : Type} (r : result A) (f : A -> result B) : result B :=
  match r with
  | Ok a => f a
  | Raise e => Raise e
  end.

Declare Scope result_scope.
Delimit Scope result_scope with result.
Notation "'let?' x ':=' r 'in' k" := (rbind r (fun x => k))
  (at level 10, x pattern, r at level 100, k at level 200) : result_scope.

Fixpoint map_result {A B : Type} (f : A -> result B) (l : list A)
  : result (list B) :=
  match l with
  | [] => Ok []
  | a :: l' =>
      match f a with
      | Raise e => Raise e
      | Ok b =>
          match map_result f l' with
          | Raise e => Raise e
          | Ok bs => Ok (b :: bs)
          end
      end
  end.

Definition is_ok {A : Type} (r : result A) : bool :=
  match r with Ok _ => true | Raise _ => false end.

Module Py.

(** [a / b] on two Python floats: a zero divisor raises, anything else
    is the IEEE quotient. *)
Definition truediv (a b : float) : result float :=
  if is_zero b then Raise ZeroDivisionError else Ok (div a b).

Section Pow.
(** The C library's [pow], which CPython calls on a finite positive
    base other than 1. *)
Variable libm_pow : float -> float -> float.

(** [iv ** n] for a float [iv] and a positive integer literal [n], as
    CPython's [float_pow] computes it: the special values are sorted
    out first, a negative base is replaced by its absolute value (the
    result is negated when [n] is odd), and a result that overflows
    to an infinity raises [OverflowError]. *)
Definition float_pow (iv : float) (n : positive) : result float :=
  let iw := of_Z (Zpos n) in
  let iw_is_odd := Z.odd (Zpos n) in
  if is_nan iv then Ok iv
  else if is_inf iv then Ok (if iw_is_odd then iv else abs iv)
  else if is_zero iv then Ok (if iw_is_odd then iv else zero)
  else
    let negative := ltb iv zero in
    let negate_result := negative && iw_is_odd in
    let iv := if negative then opp iv else iv in
    if eqb iv one then Ok (if negate_result then opp one else one)
    else
      let ix := libm_pow iv iw in
      if is_inf ix then Raise OverflowError
      else Ok (if negate_result then opp ix else ix).
End Pow.

(** Characters are code points 0-255 (Latin-1), which is what an
    [ascii] holds; [isalpha], [isdigit] and [upper] are Python's on
    that range. *)
Definition ord (c : ascii) : Z := Z.of_N (N_of_ascii c).

Definition between (lo hi n : Z) : bool := (lo <=? n) && (n <=? hi).

Definition isalpha (c : ascii) : bool :=
  let n := ord c in
  between 65 90 n || between 97 122 n
  || (n =? 170) || (n =? 181) || (n =? 186)
  || between 192 214 n || between 216 246 n || between 248 255 n.

Definition isdigit (c : ascii) : bool :=
  let n := ord c in
  between 48 57 n || (n =? 178) || (n =? 179) || (n =? 185).

(** [c.upper()], as the code points of the result: the sharp s becomes
    two letters, the micro sign and y-diaeresis leave Latin-1. *)
Definition upper_char (c : ascii) : list Z :=
  let n := ord c in
  if between 97 122 n then [n - 32]
  else if n =? 181 then [924]
  else if n =? 223 then [83; 83]
  else if between 224 246 n || between 248 254 n then [n - 32]
  else if n =? 255 then [376]
  else [n].

Definition upper (s : list ascii) : list Z := flat_map upper_char s.

(** [ord(s)] on a string: defined on one-character strings only. *)
Definition ord_str (s : list Z) : result Z :=
  match s with
  | [n] => Ok n
  | _ => Raise TypeError
  end.

(** [int(s)] on a string made of [isdigit] characters: the decimal
    value; the empty string and the superscript digits are rejected, and
    so is a string longer than CPython's limit on integer strings. *)
Definition int_max_str_digits : nat := 4300.

Definition int_of_digits (s : list ascii) : result Z :=
  match s with
  | [] => Raise ValueError
  | _ =>
      if forallb (fun c => between 48 57 (ord c)) s
         && (List.length s <=? int_max_str_digits)%nat
      then Ok (fold_left (fun acc c => 10 * acc + (ord c - 48)) s 0)
      else Raise ValueError
  end.

(** [x.is_integer()] and [int(x)] on a float. *)
Definition is_integer (x : float) : bool :=
  match x with
  | S754_zero _ => true
  | S754_finite _ m e =>
      if 0 <=? e then true else (Zpos m mod 2 ^ (- e) =? 0)
  | _ => false
  end.

Definition int_of_float (x : float) : result Z :=
  match x with
  | S754_zero _ => Ok 0
  | S754_finite s m e =>
      Ok (cond_Zopp s (if 0 <=? e then Zpos m * 2 ^ e
                       else Zpos m / 2 ^ (- e)))
  | S754_infinity _ => Raise OverflowError
  | S754_nan => Raise ValueError
  end.

(** [s[:n]] on a string. *)
Definition str_prefix (n : nat) (s : string) : string := substring 0 n s.

(** [str(n)] on an integer. *)
Definition str_of_int (n : Z) : string :=
  NilZero.string_of_int (Z.to_int n).

End Py.

(** ** Data frames *)

Definition Series : Type := list float.

(** A data frame is its ordered columns, each under a label.  The labels
    are unique in every frame the reader and the engine build; only a
    selection with a repeated label ([select]) repeats a column. *)
Definition DataFrame : Type := list (string * Series).

Definition columns (df : DataFrame) : list string := map fst df.

(** [df[k]] *)
Fixpoint getitem (df : DataFrame) (k : string) : result Series :=
  match df with
  | [] => Raise KeyError
  | (k', v) :: df' => if String.eqb k' k then Ok v else getitem df' k
  end.

(** [df[k] = v]: an existing column is replaced where it stands, a new
    one is added after the last. *)
Fixpoint setitem (df : DataFrame) (k : string) (v : Series) : DataFrame :=
  match df with
  | [] => [(k, v)]
  | (k', v') :: df' =>
      if String.eqb k' k then (k', v) :: df'
      else (k', v') :: setitem df' k v
  end.

(** [df[cols]] with a list of labels: one column per entry of the list,
    repeated entries included. *)
Definition select (df : DataFrame) (cols : list string) : result DataFrame :=
  map_result (fun k => let? v := getitem df k in Ok (k, v))%result cols.

(** Element-wise arithmetic on columns of one frame (same index). *)
Definition series_mul_scalar (s : Series) (c : float) : Series :=
  map (fun x => mul x c) s.
Definition scalar_mul_series (c : float) (s : Series) : Series :=
  map (fun x => mul c x) s.
Definition series_mul (a b : Series) : Series :=
  map (fun xy => mul (fst xy) (snd xy)) (combine a b).
Definition series_div (a b : Series) : Series :=
  map (fun xy => div (fst xy) (snd xy)) (combine a b).

(** ** The object store

    Data frames are mutable objects; a program holds references to them.
    The store is the list of all frames allocated so far, a reference is
    a position in it. *)

Definition ref : Type := nat.
Definition heap : Type := list DataFrame.

Definition py (A : Type) : Type := heap -> result A * heap.

Definition ret {A : Type} (a : A) : py A := fun h => (Ok a, h).

Definition bind {A B : Type} (m : py A) (f : A -> py B) : py B :=
  fun h =>
    match m h with
    | (Ok a, h') => f a h'
    | (Raise e, h') => (Raise e, h')
    end.

Definition lift {A : Type} (r : result A) : py A := fun h => (r, h).

Declare Scope py_scope.
Delimit Scope py_scope with py.
Notation "x <- m ;; k" := (bind m (fun x => k))
  (at level 100, m at next level, right associativity) : py_scope.
Notation "m ;; k" := (bind m (fun _ => k))
  (at level 100, right associativity) : py_scope.

Fixpoint list_update {A : Type} (n : nat) (a : A) (l : list A) : list A :=
  match l, n with
  | [], _ => []
  | _ :: l', O => a :: l'
  | x :: l', S n' => x :: list_update n' a l'
  end.

(** [df.copy()] *)
Definition df_copy (r : ref) : py ref :=
  fun h =>
    match nth_error h r with
    | Some t => (Ok (List.length h), h ++ [t])
    | None => (Raise ReferenceError, h)
    end.

(** [r[k]] *)
Definition df_getitem (r : ref) (k : string) : py Series :=
  fun h =>
    match nth_error h r with
    | Some t => (getitem t k, h)
    | None => (Raise ReferenceError, h)
    end.

(** [r[k] = v] *)
Definition df_setitem (r : ref) (k : string) (v : Series) : py unit :=
  fun h =>
    match nth_error h r with
    | Some t => (Ok tt, list_update r (setitem t k v) h)
    | None => (Raise ReferenceError, h)
    end.

(** [for x in l: body(x)] *)
Fixpoint for_each {A : Type} (l : list A) (body : A -> py unit) : py unit :=
  match l with
  | [] => ret tt
  | x :: l' => bind (body x) (fun _ => for_each l' body)
  end.

Fixpoint map_py {A B : Type} (f : A -> py B) (l : list A) : py (list B) :=
  match l with
  | [] => ret []
  | x :: l' =>
      bind (f x) (fun y => bind (map_py f l') (fun ys => ret (y :: ys)))
  end.

(** The frame a reference denotes at this point (what [to_excel] writes,
    what [df[cols]] reads). *)
Definition df_value (r : ref) : py DataFrame :=
  fun h =>
    match nth_error h r with
    | Some t => (Ok t, h)
    | None => (Raise ReferenceError, h)
    end.

(** A method that returns a new frame computed from the frame of [r],
    as [r[cols]] and [r.round(n)] do: the result is a new object of the
    store, and [r] is left as it is. *)
Definition df_new (r : ref) (f : DataFrame -> result DataFrame) : py ref :=
  fun h =>
    match nth_error h r with
    | Some t =>
        match f t with
        | Ok t' => (Ok (List.length h), h ++ [t'])
        | Raise e => (Raise e, h)
        end
    | None => (Raise ReferenceError, h)
    end.

(** ** The affinity engine and the result assembly *)

(** The literals [0.0001409] and [100] of the efficiency formula; the
    first is the binary64 value [0x1.277d1c8b51018p-13]. *)
Definition eff_const : float := Eval vm_compute in of_decimal 1409 7.
Definition hundred : float := Eval vm_compute in of_Z 100.

(** [(0.0001409 * flow * head / power) * 100] on three columns. *)
Definition efficiency (flow head power : Series) : Series :=
  series_mul_scalar
    (series_div (series_mul (scalar_mul_series eff_const flow) head) power)
    hundred.

Section Engine.

(** Library functions the programs call: the C library's [pow], the
    text of a float in an f-string, and the rounding of a float to a
    number of decimal places. *)
Variable libm_pow : float -> float -> float.
Variable float_repr : float -> string.
Variable np_round : Z -> float -> float.

Local Open Scope string_scope.
Local Open Scope py_scope.

Definition float_pow := Py.float_pow libm_pow.

(** [apply_affinity] of [app_streamlit.py]; the one of
    [app_streamlit1.py] is the same text. *)
Definition apply_affinity (df : ref) (D_orig : float)
           (new_dias : list float) : py ref :=
  out <- df_copy df ;;
  for_each new_dias (fun D =>
    ratio <- lift (Py.truediv D D_orig) ;;
    flow <- df_getitem out "Flow_orig" ;;
    df_setitem out ("Flow_D" ++ float_repr D)
               (series_mul_scalar flow ratio) ;;
    head <- df_getitem out "Head_orig" ;;
    r2 <- lift (float_pow ratio 2) ;;
    df_setitem out ("Head_D" ++ float_repr D)
               (series_mul_scalar head r2) ;;
    power <- df_getitem out "Power_orig_kW" ;;
    r3 <- lift (float_pow ratio 3) ;;
    df_setitem out ("Power_kW_D" ++ float_repr D)
               (series_mul_scalar power r3)) ;;
  ret out.

(** [apply_affinity] of [app_streamlit3.py]: other base labels, and an
    efficiency column computed from the three columns just written. *)
Definition apply_affinity3 (df : ref) (D_orig : float)
           (new_dias : list float) : py ref :=
  out <- df_copy df ;;
  for_each new_dias (fun D =>
    ratio <- lift (Py.truediv D D_orig) ;;
    flow <- df_getitem out "Flow_input" ;;
    df_setitem out ("Flow_D" ++ float_repr D)
               (series_mul_scalar flow ratio) ;;
    head <- df_getitem out "Head_m" ;;
    r2 <- lift (float_pow ratio 2) ;;
    df_setitem out ("Head_D" ++ float_repr D)
               (series_mul_scalar head r2) ;;
    power <- df_getitem out "Power_input_kW" ;;
    r3 <- lift (float_pow ratio 3) ;;
    df_setitem out ("Power_kW_D" ++ float_repr D)
               (series_mul_scalar power r3) ;;
    flow' <- df_getitem out ("Flow_D" ++ float_repr D) ;;
    head' <- df_getitem out ("Head_D" ++ float_repr D) ;;
    power' <- df_getitem out ("Power_kW_D" ++ float_repr D) ;;
    df_setitem out ("Efficiency_D" ++ float_repr D)
               (efficiency flow' head' power')) ;;
  ret out.

(** [Series.round] and [DataFrame.round]: new objects, cell by cell. *)
Definition series_round (decimals : Z) (s : Series) : Series :=
  map (np_round decimals) s.
Definition df_round (decimals : Z) (df : DataFrame) : DataFrame :=
  map (fun kv => (fst kv, series_round decimals (snd kv))) df.

(** The column order and the sheet written by the download step of
    [app_streamlit.py]: the base columns, then the three columns of
    each entry of [new_dias]. *)
Definition wide_columns (new_dias : list float) : list string :=
  ["Flow_orig"; "Head_orig"; "Power_orig_kW"]
  ++ flat_map (fun D => ["Flow_D" ++ float_repr D;
                         "Head_D" ++ float_repr D;
                         "Power_kW_D" ++ float_repr D]) new_dias.

(** [r.round(decimals)] and [r[cols]] on a frame of the store. *)
Definition df_round_new (r : ref) (decimals : Z) : py ref :=
  df_new r (fun t => Ok (df_round decimals t)).
Definition df_select (r : ref) (cols : list string) : py ref :=
  df_new r (fun t => select t cols).

(** The download step of [app_streamlit.py]; its result is the frame
    [to_excel] writes. *)
Definition generate (df_in : ref) (orig_dia : float)
           (new_dias : list float) : py DataFrame :=
  df_out <- apply_affinity df_in orig_dia new_dias ;;
  df_out <- df_select df_out (wide_columns new_dias) ;;
  df_out <- df_round_new df_out 6 ;;
  df_value df_out.

(** The name of a diameter's sheet:
    [f"D{int(D) if float(D).is_integer() else D}"[:31]]. *)
Definition sheet_name (D : float) : result string :=
  (let? body := (if Py.is_integer D
                 then let? n := Py.int_of_float D in Ok (Py.str_of_int n)
                 else Ok (float_repr D)) in
   Ok (Py.str_prefix 31 ("D" ++ body)))%result.

(** [build_excel_bytes] of [app_streamlit1.py].  The workbook is
    modelled by the [to_excel] calls made on the writer, in order: the
    sheet name and the frame written. *)
Definition build_excel_bytes (df_orig df_out : ref) (D_orig : float)
           (new_dias : list float) (per_sheet : bool) (decimals : Z)
  : py (list (string * DataFrame)) :=
  if per_sheet then
    rounded <- df_round_new df_orig decimals ;;
    orig <- df_value rounded ;;
    sheets <- map_py (fun D =>
      ratio <- lift (Py.truediv D D_orig) ;;
      temp <- df_copy df_orig ;;
      flow <- df_getitem temp "Flow_orig" ;;
      df_setitem temp ("Flow_D" ++ float_repr D)
                 (series_round decimals (series_mul_scalar flow ratio)) ;;
      head <- df_getitem temp "Head_orig" ;;
      r2 <- lift (float_pow ratio 2) ;;
      df_setitem temp ("Head_D" ++ float_repr D)
                 (series_round decimals (series_mul_scalar head r2)) ;;
      power <- df_getitem temp "Power_orig_kW" ;;
      r3 <- lift (float_pow ratio 3) ;;
      df_setitem temp ("Power_kW_D" ++ float_repr D)
                 (series_round decimals (series_mul_scalar power r3)) ;;
      name <- lift (sheet_name D) ;;
      t <- df_value temp ;;
      ret (name, t)) new_dias ;;
    ret (("original", orig) :: sheets)
  else
    rounded <- df_round_new df_out decimals ;;
    out <- df_value rounded ;;
    ret [("converted", out)].

End Engine.

(** ** The tabular reader *)

(** A cell of the raw frame, by the object it holds: the missing value
    of an empty cell (NaN), a number (a bool counts as 1 or 0), a text,
    or another object, a date or a time. *)
Inductive cell : Type :=
| Blank
| Num (x : float)
| Text (s : string)
| Other.

(** The raw frame of [pd.read_excel(..., header=None)]: [width] columns
    labelled 0, 1, ..., one row per sheet row; a row shorter than the
    width ends in blanks. *)
Record grid : Type := { width : nat; rows : list (list cell) }.

Definition cell_at (g : grid) (r c : nat) : cell :=
  nth c (nth r (rows g) []) Blank.

(** The cells of column [c], top to bottom. *)
Definition column_cells (g : grid) (c : nat) : list cell :=
  map (fun row => nth c row Blank) (rows g).

(** [df_raw.iloc[:, c]] and [df_raw.loc[:, c]]: a column the frame does
    not have raises. *)
Definition iloc_column (g : grid) (c : nat) : result (list cell) :=
  if (c <? width g)%nat then Ok (column_cells g c) else Raise IndexError.
Definition loc_column (g : grid) (c : nat) : result (list cell) :=
  if (c <? width g)%nat then Ok (column_cells g c) else Raise KeyError.

(** [pd.isna]: the missing value and a number that is NaN; a text is
    never missing, whatever it says. *)
Definition isna (v : cell) : bool :=
  match v with
  | Blank => true
  | Num x => is_nan x
  | Text _ => false
  | Other => false
  end.

Definition dropna (s : list cell) : list cell :=
  filter (fun v => negb (isna v)) s.

(** [df_raw.iat[r, c]]: positions count from the end when negative. *)
Definition iat (g : grid) (r c : Z) : result cell :=
  let nr := Z.of_nat (List.length (rows g)) in
  let nc := Z.of_nat (width g) in
  if (- nr <=? r) && (r <? nr) && (- nc <=? c) && (c <? nc)
  then Ok (cell_at g (Z.to_nat (r mod nr)) (Z.to_nat (c mod nc)))
  else Raise IndexError.

(** The position a cell address denotes (the four assignments at the
    head of the [try] block): the letters of the address name the column,
    its digits the row, wherever they stand in the address. *)
Definition cell_position (orig_cell : string) : result (Z * Z) :=
  let chars := list_ascii_of_string orig_cell in
  let col_letter := filter Py.isalpha chars in
  (let? row_number := Py.int_of_digits (filter Py.isdigit chars) in
   let? code := Py.ord_str (Py.upper col_letter) in
   let col_idx := code - Py.ord "A"%char in
   let row_idx := row_number - 1 in
   Ok (row_idx, col_idx))%result.

Section Reader.

(** [float(s)] on a text: a number, NaN for a text such as ["nan"], or
    an exception. *)
Variable py_float : string -> result float.

(** [float(v)]: a missing value is the float NaN, a text is parsed, and
    an object that is neither a number nor a text raises [TypeError]. *)
Definition to_float (v : cell) : result float :=
  match v with
  | Blank => Ok nan
  | Num x => Ok x
  | Text s => py_float s
  | Other => Raise TypeError
  end.

(** [s.astype(float)] on a column of the raw frame. *)
Definition astype_float (s : list cell) : result Series :=
  map_result to_float s.

(** The original diameter read from a cell: the [if orig_cell:] block;
    [except Exception] turns every failure into [None]. *)
Definition read_orig_value (g : grid) (orig_cell : option string)
  : option float :=
  match orig_cell with
  | None => None
  | Some EmptyString => None
  | Some addr =>
      let attempt :=
        (let? pos := cell_position addr in
         let? val := iat g (fst pos) (snd pos) in
         if negb (isna val)
         then let? x := to_float val in Ok (Some x)
         else Ok None)%result in
      match attempt with
      | Ok v => v
      | Raise _ => None
      end
  end.

Definition baseline_frame (flows heads powers : Series) : DataFrame :=
  [("Flow_orig"%string, flows); ("Head_orig"%string, heads);
   ("Power_orig_kW"%string, powers)].

(** [read_uploaded_excel] of [app_streamlit.py] and [app_streamlit1.py]
    (the same text), on the raw frame. *)
Definition read_uploaded_excel (g : grid) (auto_detect : bool)
           (orig_cell : option string)
  : result (DataFrame * option float) :=
  let orig_value := read_orig_value g orig_cell in
  if auto_detect then
    (let? c0 := iloc_column g 0 in
     let? flows := astype_float (dropna (skipn 1 c0)) in
     let? c1 := iloc_column g 1 in
     let? heads := astype_float (dropna (skipn 1 c1)) in
     let? c2 := iloc_column g 2 in
     let? powers := astype_float (dropna (skipn 1 c2)) in
     let n := Nat.min (List.length flows)
                      (Nat.min (List.length heads) (List.length powers)) in
     Ok (baseline_frame (firstn n flows) (firstn n heads) (firstn n powers),
         orig_value))%result
  else
    (let? c0 := loc_column g 0 in
     let? flows := astype_float (firstn 5 (skipn 1 c0)) in
     let? c1 := loc_column g 1 in
     let? heads := astype_float (firstn 5 (skipn 1 c1)) in
     let? c2 := loc_column g 2 in
     let? powers := astype_float (firstn 5 (skipn 1 c2)) in
     Ok (baseline_frame flows heads powers, orig_value))%result.

(** The upload branch of [app_streamlit3.py]: the columns are read from
    the first row on, and the baseline efficiency is added. *)
Definition upload_branch (g : grid) : result DataFrame :=
  (let? c0 := iloc_column g 0 in
   let? flows := astype_float (dropna c0) in
   let? c1 := iloc_column g 1 in
   let? heads := astype_float (dropna c1) in
   let? c2 := iloc_column g 2 in
   let? powers := astype_float (dropna c2) in
   let n := Nat.min (List.length flows)
                    (Nat.min (List.length heads) (List.length powers)) in
   let flows := firstn n flows in
   let heads := firstn n heads in
   let powers := firstn n powers in
   Ok [("Flow_input"%string, flows); ("Head_m"%string, heads);
       ("Power_input_kW"%string, powers);
       ("Efficiency_%"%string, efficiency flows heads powers)])%result.

End Reader.

(** The manual branch of [app_streamlit3.py]: the rows whose three
    values are all zero are dropped, and the baseline efficiency is
    added. *)
Definition nonzero_row (row : float * float * float) : bool :=
  let '(f, h, p) := row in
  negb (eqb f zero) || negb (eqb h zero) || negb (eqb p zero).

Definition manual_branch (manual_data : list (float * float * float))
  : DataFrame :=
  let kept := filter nonzero_row manual_data in
  let flows := map (fun r => fst (fst r)) kept in
  let heads := map (fun r => snd (fst r)) kept in
  let powers := map snd kept in
  [("Flow_input"%string, flows); ("Head_m"%string, heads);
   ("Power_input_kW"%string, powers);
   ("Efficiency_%"%string, efficiency flows heads powers)].

(** ** What the engine computes, as tables

    The columns one target diameter adds, and the table after the whole
    loop; the engine is proved to build exactly these. *)

Definition value_or {A : Type} (d : A) (r : result A) : A :=
  match r with Ok a => a | Raise _ => d end.

Definition set_all (t : DataFrame) (g : list (string * Series)) : DataFrame :=
  fold_left (fun acc kv => setitem acc (fst kv) (snd kv)) g t.

(** Labels the loop writes: they start with one of the four tags. *)
Definition is_derived (k : string) : bool :=
  prefix "Flow_D" k || prefix "Head_D" k || prefix "Power_kW_D" k
  || prefix "Efficiency_D" k.

(** The labels seen so far, each kept at its first position. *)
Definition add_new (acc : list string) (k : string) : list string :=
  if existsb (String.eqb k) acc then acc else acc ++ [k].
Definition first_occurrences (l : list string) : list string :=
  fold_left add_new l [].

Section Tables.

Variable libm_pow : float -> float -> float.
Variable float_repr : float -> string.

Local Open Scope string_scope.

(** Both powers of the ratio exist (no overflow). *)
Definition pow_ok (D_orig D : float) : bool :=
  is_ok (float_pow libm_pow (div D D_orig) 2)
  && is_ok (float_pow libm_pow (div D D_orig) 3).

Definition group_labels (with_eff : bool) (r : string) : list string :=
  ["Flow_D" ++ r; "Head_D" ++ r; "Power_kW_D" ++ r]
  ++ (if with_eff then ["Efficiency_D" ++ r] else []).

Definition derived (with_eff : bool) (D_orig : float)
           (fl hd pw : Series) (D : float) : list (string * Series) :=
  let ratio := div D D_orig in
  let r2 := value_or nan (float_pow libm_pow ratio 2) in
  let r3 := value_or nan (float_pow libm_pow ratio 3) in
  let fl' := series_mul_scalar fl ratio in
  let hd' := series_mul_scalar hd r2 in
  let pw' := series_mul_scalar pw r3 in
  [("Flow_D" ++ float_repr D, fl'); ("Head_D" ++ float_repr D, hd');
   ("Power_kW_D" ++ float_repr D, pw')]
  ++ (if with_eff
      then [("Efficiency_D" ++ float_repr D, efficiency fl' hd' pw')]
      else []).

Definition final_table (with_eff : bool) (D_orig : float)
           (fl hd pw : Series) (new_dias : list float) (t : DataFrame)
  : DataFrame :=
  fold_left (fun acc D => set_all acc (derived with_eff D_orig fl hd pw D))
            new_dias t.

(** Distinct targets of the list have distinct texts, hence distinct
    labels. *)
Definition labels_distinct (new_dias : list float) : Prop :=
  forall D1 D2, In D1 new_dias -> In D2 new_dias ->
                float_repr D1 = float_repr D2 -> D1 = D2.

End Tables.

(** The frame a successful read returns. *)
Definition frame_of (r : result (DataFrame * option float))
  : result DataFrame :=
  match r with
  | Ok (df, _) => Ok df
  | Raise e => Raise e
  end.

(** The value a cell gives in fixed-range mode: a number itself, a
    text what [float] reads in it, a blank cell NaN. *)
Definition cell_value (py_float : string -> result float) (v : cell)
  : float :=
  match v with
  | Num x => x
  | Text s => value_or nan (py_float s)
  | Blank | Other => nan
  end.

(** The row of a sheet that holds one reading, flow, head and power, in
    its first three cells. *)
Definition reading_row (s : float * float * float) : list cell :=
  let '(a, b, c) := s in [Num a; Num b; Num c].

Definition reading_no_nan (s : float * float * float) : bool :=
  let '(a, b, c) := s in
  negb (is_nan a) && negb (is_nan b) && negb (is_nan c).

(** The cells that are no number: a text [float] rejects, and an object
    that is neither a number nor a text. *)
Definition is_nonnum (py_float : string -> result float) (v : cell) : bool :=
  match v with
  | Text s => negb (is_ok (py_float s))
  | Other => true
  | Blank | Num _ => false
  end.

(** A computation is local to the newest object of the store when,
    whatever its outcome, it leaves every older object as it was and
    changes in the newest one only columns under derived labels. *)
Definition local (h : heap) {A : Type} (m : py A) : Prop :=
  forall t, exists r t',
    m (h ++ [t]) = (r, h ++ [t'])
    /\ forall k, is_derived k = false -> getitem t' k = getitem t k.

(** ** The three variants *)

Inductive variant : Type := App | App1 | App3.

Section Variants.

Variable libm_pow : float -> float -> float.
Variable float_repr : float -> string.

Local Open Scope string_scope.

(** The engine each script defines, and the labels of its base
    columns. *)
Definition engine (v : variant) : ref -> float -> list float -> py ref :=
  match v with
  | App | App1 => apply_affinity libm_pow float_repr
  | App3 => apply_affinity3 libm_pow float_repr
  end.

Definition flow_label (v : variant) : string :=
  match v with App | App1 => "Flow_orig" | App3 => "Flow_input" end.
Definition head_label (v : variant) : string :=
  match v with App | App1 => "Head_orig" | App3 => "Head_m" end.
Definition power_label (v : variant) : string :=
  match v with App | App1 => "Power_orig_kW" | App3 => "Power_input_kW" end.

Definition has_efficiency (v : variant) : bool :=
  match v with App | App1 => false | App3 => true end.

End Variants.

(** A column of numbers a reading may hold: finite binary64 values. *)
Definition finite_values (s : Series) : bool :=
  forallb (fun x => is_finite x && valid x) s.

(** ** Concrete inputs

    Instances of the library functions, used to run the model on
    examples.  [pow] squares and cubes by multiplication.  [repr] is
    Python's text of a float on the integer-valued floats below [1e16],
    the infinities, the zeros and NaN; any other value is printed as
    mantissa and binary exponent, which is not Python's shortest decimal
    text.  [round] is numpy's scaling method: multiply by the power of
    ten, round to the nearest integer (ties to even), divide. *)

Module Sample.

Local Open Scope string_scope.

Definition pow (x y : float) : float :=
  if eqb y (of_Z 2) then mul x x
  else if eqb y (of_Z 3) then mul (mul x x) x
  else nan.

Definition repr (x : float) : string :=
  match x with
  | S754_nan => "nan"
  | S754_infinity s => if s then "-inf" else "inf"
  | S754_zero s => if s then "-0.0" else "0.0"
  | S754_finite s m e =>
      match Py.int_of_float x with
      | Ok n =>
          if Py.is_integer x && (Z.abs n <? 10 ^ 16)%Z
          then Py.str_of_int n ++ ".0"
          else (if s then "-" else "") ++ Py.str_of_int (Zpos m)
               ++ "*2**" ++ Py.str_of_int e
      | Raise _ => "nan"
      end
  end.

Definition rint (x : float) : float :=
  match x with
  | S754_finite s m e =>
      if (0 <=? e)%Z then x
      else
        let q := (Zpos m / 2 ^ (- e))%Z in
        let r := (Zpos m mod 2 ^ (- e))%Z in
        let half := (2 ^ (- e - 1))%Z in
        let q' := if (r <? half)%Z then q
                  else if (half <? r)%Z then (q + 1)%Z
                  else if Z.even q then q else (q + 1)%Z in
        if (q' =? 0)%Z then S754_zero s else of_Z (cond_Zopp s q')
  | _ => x
  end.

Definition round (decimals : Z) (x : float) : float :=
  let scale := of_Z (10 ^ decimals) in
  div (rint (mul x scale)) scale.

(** One reading, flow 100, head 20, power 5, as a frame of
    [app_streamlit.py] and as one of [app_streamlit3.py]. *)
Definition baseline : DataFrame :=
  baseline_frame [of_Z 100] [of_Z 20] [of_Z 5].

Definition baseline3 : DataFrame :=
  [("Flow_input", [of_Z 100]); ("Head_m", [of_Z 20]);
   ("Power_input_kW", [of_Z 5]);
   ("Efficiency_%", efficiency [of_Z 100] [of_Z 20] [of_Z 5])].

(** A reading whose power is zero. *)
Definition zero_power3 : DataFrame :=
  [("Flow_input", [of_Z 100]); ("Head_m", [of_Z 20]);
   ("Power_input_kW", [zero])].

Definition row (a b c : Z) : list cell :=
  [Num (of_Z a); Num (of_Z b); Num (of_Z c)].

Definition header : list cell :=
  [Text "Flow"; Text "Head"; Text "Power"; Num (of_Z 200)].

(** Flow column of length 5, head of length 3, power of length 4,
    under a header row that holds the original diameter in D1. *)
Definition ragged : grid :=
  {| width := 4;
     rows := [header;
              row 10 20 30; row 11 21 31; row 12 22 32;
              [Num (of_Z 13); Blank; Num (of_Z 33)];
              [Num (of_Z 14); Blank; Blank]] |}.

(** A text cell in the flow column, below two numbers. *)
Definition with_text : grid :=
  {| width := 4;
     rows := [header; row 10 20 30;
              [Text "stop"; Num (of_Z 21); Num (of_Z 31)];
              row 12 22 32] |}.

(** A text cell that [float] reads as NaN, in the flow column. *)
Definition with_nan_text : grid :=
  {| width := 3;
     rows := [[Text "Flow"; Text "Head"; Text "Power"]; row 10 20 30;
              [Text " nan"; Num (of_Z 21); Num (of_Z 31)];
              row 12 22 32] |}.

(** A blank cell in the flow column, inside rows 1 to 5. *)
Definition with_blank : grid :=
  {| width := 4;
     rows := [header; row 10 20 30; row 11 21 31;
              [Blank; Num (of_Z 22); Num (of_Z 32)];
              row 13 23 33; row 14 24 34] |}.

(** Two rows of numbers and no header row. *)
Definition headless : grid :=
  {| width := 3; rows := [row 1 2 3; row 4 5 6] |}.

End Sample.

(** ** The reader as the specification words it *)

Module Spec.

(** Auto-detect scan: from row 1 downward, values are collected until
    a blank or non-numeric cell or the end of the grid. *)
Fixpoint scan (s : list cell) : Series :=
  match s with
  | Num x :: s' => if is_nan x then [] else x :: scan s'
  | _ => []
  end.

Definition auto_detect (g : grid) : DataFrame :=
  let flows := scan (skipn 1 (column_cells g 0)) in
  let heads := scan (skipn 1 (column_cells g 1)) in
  let powers := scan (skipn 1 (column_cells g 2)) in
  let n := Nat.min (List.length flows)
                   (Nat.min (List.length heads) (List.length powers)) in
  baseline_frame (firstn n flows) (firstn n heads) (firstn n powers).

End Spec.

(** The cells fixed-range mode reads in column [c]: rows 1 to 5. *)
Definition fixed_range (g : grid) (c : nat) : list cell :=
  firstn 5 (skipn 1 (column_cells g c)).

(** ** The rest of the scripts: input parsing, charts and the main flows *)

(** [x <= 0] on floats. *)
Definition le_zero (x : float) : bool := SFleb x zero.

(** A new frame object. *)
Definition alloc (t : DataFrame) : py ref :=
  fun h => (Ok (List.length h), h ++ [t]).

Module PyStr.

(** [c.isspace()] on code points 0-255: what [str.strip()] removes. *)
Definition isspace (c : ascii) : bool :=
  let n := Py.ord c in
  Py.between 9 13 n || Py.between 28 32 n || (n =? 133) || (n =? 160).

Fixpoint lstrip (s : list ascii) : list ascii :=
  match s with
  | c :: s' => if isspace c then lstrip s' else s
  | [] => []
  end.

Definition rstrip (s : list ascii) : list ascii := rev (lstrip (rev s)).

(** [s.strip()] *)
Definition strip (s : list ascii) : list ascii := rstrip (lstrip s).

(** [s.split(sep)] with a one-character separator: the pieces between
    the separators, empty ones included; never an empty list. *)
Fixpoint split (sep : ascii) (s : list ascii) : list (list ascii) :=
  match s with
  | [] => [[]]
  | c :: s' =>
      if Ascii.eqb c sep then [] :: split sep s'
      else match split sep s' with
           | p :: ps => (c :: p) :: ps
           | [] => [[c]]
           end
  end.

(** [sep.join(pieces)] *)
Fixpoint join (sep : ascii) (pieces : list (list ascii)) : list ascii :=
  match pieces with
  | [] => []
  | [p] => p
  | p :: ps => p ++ sep :: join sep ps
  end.

(** [s.startswith(p)] *)
Definition startswith (p s : string) : bool := prefix p s.

End PyStr.

(** [df.head(n)]: the first [n] rows of every column. *)
Definition df_head (n : nat) (df : DataFrame) : DataFrame :=
  map (fun kv => (fst kv, firstn n (snd kv))) df.

(** The three preview frames of [app_streamlit1.py] (the body of its
    [try] block): the first ten rows of the base column and of every
    column whose label starts with the tag. *)
Definition chart_frame (preview : DataFrame) (base tag : string)
  : result DataFrame :=
  select preview
         (base :: filter (PyStr.startswith tag) (columns preview)).

Definition preview_charts (df_out : DataFrame)
  : option (DataFrame * DataFrame * DataFrame) :=
  let preview := df_head 10 df_out in
  match chart_frame preview "Flow_orig" "Flow_D",
        chart_frame preview "Head_orig" "Head_D",
        chart_frame preview "Power_orig_kW" "Power_kW_D" with
  | Ok c1, Ok c2, Ok c3 => Some (c1, c2, c3)
  | _, _, _ => None
  end.

Section Apps.

Variable libm_pow : float -> float -> float.
Variable float_repr : float -> string.
Variable np_round : Z -> float -> float.
(** [float(s)] on a string. *)
Variable py_float : string -> result float.

Local Open Scope string_scope.
Local Open Scope py_scope.

(** [[float(x.strip()) for x in s.split(",") if x.strip() != ""]], the
    parsing of the target diameters in the three scripts. *)
Definition parse_new_dias (new_dias_input : string) : result (list float) :=
  map_result
    (fun x => py_float (string_of_list_ascii (PyStr.strip x)))
    (filter (fun x => match PyStr.strip x with [] => false | _ => true end)
            (PyStr.split ","%char (list_ascii_of_string new_dias_input))).

(** [build_excel_bytes] of [app_streamlit3.py]: one sheet, rounded. *)
Definition build_excel_bytes3 (df_out : ref) (decimals : Z)
  : py (list (string * DataFrame)) :=
  rounded <- df_round_new np_round df_out decimals ;;
  t <- df_value rounded ;;
  ret [("Results", t)].

(** What a run of [app_streamlit.py] sees on its widgets. *)
Record inputs : Type := {
  uploaded : option grid;
  orig_from_cell_checkbox : bool;
  orig_cell_addr : string;
  manual_orig : float;
  new_dias_input : string;
  detect_range : bool;
  export_per_sheet : bool;
  decimals : Z;
  button : bool
}.

(** How a run ends: one of its messages, the page waiting for the
    button, or the file offered for download. *)
Inductive outcome : Type :=
| Info
| ReadFailed
| BadDiameters
| TooFewDiameters
| BadOriginal
| Waiting
| Download (sheets : list (string * DataFrame)).

Definition min_new : nat := 3.
Definition MIN_DIAS : nat := 3.

(** The original diameter the run works with: the cell's when the box is
    ticked and the cell gave a number, the manual entry otherwise. *)
Definition resolve_orig (i : inputs) (orig_cell_value : option float) : float :=
  match orig_from_cell_checkbox i, orig_cell_value with
  | true, Some v => v
  | _, _ => manual_orig i
  end.

(** The same widgets with the button pressed or not. *)
Definition with_button (b : bool) (i : inputs) : inputs :=
  {| uploaded := uploaded i;
     orig_from_cell_checkbox := orig_from_cell_checkbox i;
     orig_cell_addr := orig_cell_addr i;
     manual_orig := manual_orig i;
     new_dias_input := new_dias_input i;
     detect_range := detect_range i;
     export_per_sheet := export_per_sheet i;
     decimals := decimals i;
     button := b |}.

(** The body of [app_streamlit.py] from [if uploaded:] on. *)
Definition app_streamlit (i : inputs) : py outcome :=
  match uploaded i with
  | None => ret Info
  | Some g =>
      match read_uploaded_excel
              py_float g (detect_range i)
              (if orig_from_cell_checkbox i then Some (orig_cell_addr i)
               else None) with
      | Raise _ => ret ReadFailed
      | Ok (df, orig_cell_value) =>
          df_in <- alloc df ;;
          let orig_dia := resolve_orig i orig_cell_value in
          match parse_new_dias (new_dias_input i) with
          | Raise _ => ret BadDiameters
          | Ok new_dias =>
              if (List.length new_dias <? min_new)%nat then ret TooFewDiameters
              else if le_zero orig_dia then ret BadOriginal
              else if button i then
                sheet <- generate libm_pow float_repr np_round
                                  df_in orig_dia new_dias ;;
                ret (Download [("Sheet1", sheet)])
              else ret Waiting
          end
      end
  end.

(** The body of [app_streamlit1.py]: the engine runs before the button,
    for the preview; the button builds the workbook. *)
Definition app_streamlit1 (i : inputs) : py outcome :=
  match uploaded i with
  | None => ret Info
  | Some g =>
      match read_uploaded_excel
              py_float g (detect_range i)
              (if orig_from_cell_checkbox i then Some (orig_cell_addr i)
               else None) with
      | Raise _ => ret ReadFailed
      | Ok (df, orig_cell_value) =>
          df_in <- alloc df ;;
          let orig_dia := resolve_orig i orig_cell_value in
          match parse_new_dias (new_dias_input i) with
          | Raise _ => ret BadDiameters
          | Ok new_dias =>
              if (List.length new_dias <? MIN_DIAS)%nat then ret TooFewDiameters
              else if le_zero orig_dia then ret BadOriginal
              else
                df_out <- apply_affinity libm_pow float_repr
                                         df_in orig_dia new_dias ;;
                if button i then
                  sheets <- build_excel_bytes
                              libm_pow float_repr np_round
                              df_in df_out orig_dia new_dias
                              (export_per_sheet i) (decimals i) ;;
                  ret (Download sheets)
                else ret Waiting
          end
      end
  end.

(** What a run of [app_streamlit3.py] sees on its widgets. *)
Record inputs3 : Type := {
  upload_mode : bool;
  uploaded3 : option grid;
  submitted : bool;
  manual_data : list (float * float * float);
  orig_dia3 : float;
  new_dias_input3 : string;
  decimals3 : Z
}.

Inductive outcome3 : Type :=
| Idle3
| ReadFailed3
| BadOriginal3
| NoDiameters3
| BadDiameters3
| Results3 (charts : list (Series * Series * Series * Series))
           (sheets : list (string * DataFrame)).

(** The series the three charts of one target plot: flow, head,
    efficiency, power. *)
Definition chart_series (df_result : ref) (D : float)
  : py (Series * Series * Series * Series) :=
  f1 <- df_getitem df_result ("Flow_D" ++ float_repr D) ;;
  h1 <- df_getitem df_result ("Head_D" ++ float_repr D) ;;
  f2 <- df_getitem df_result ("Flow_D" ++ float_repr D) ;;
  e2 <- df_getitem df_result ("Efficiency_D" ++ float_repr D) ;;
  f3 <- df_getitem df_result ("Flow_D" ++ float_repr D) ;;
  p3 <- df_getitem df_result ("Power_kW_D" ++ float_repr D) ;;
  ret (f1, h1, e2, p3).

(** The baseline of a run of [app_streamlit3.py], by its input method;
    [None] when there is nothing to compute yet. *)
Definition baseline3 (i : inputs3) : option (result DataFrame) :=
  if upload_mode i then
    match uploaded3 i with
    | Some g => Some (upload_branch py_float g)
    | None => None
    end
  else if submitted i then Some (Ok (manual_branch (manual_data i)))
  else None.

(** The body of [app_streamlit3.py] from the input branches on.  Its
    [except ValueError] catches what [float] raises on a text, and
    nothing else. *)
Definition app_streamlit3 (i : inputs3) : py outcome3 :=
  match baseline3 i with
  | None => ret Idle3
  | Some (Raise _) => ret ReadFailed3
  | Some (Ok df) =>
      df_baseline <- alloc df ;;
      if le_zero (orig_dia3 i) then ret BadOriginal3
      else
        match parse_new_dias (new_dias_input3 i) with
        | Raise ValueError => ret BadDiameters3
        | Raise e => lift (Raise e)
        | Ok [] => ret NoDiameters3
        | Ok new_dias =>
            df_result <- apply_affinity3 libm_pow float_repr
                                         df_baseline (orig_dia3 i) new_dias ;;
            charts <- map_py (chart_series df_result) new_dias ;;
            sheets <- build_excel_bytes3 df_result (decimals3 i) ;;
            ret (Results3 charts sheets)
        end
  end.

End Apps.

(** ** Addresses, sheets and pieces, for the statements on the rest *)

(** The address of the cell in row [row] and column [col] (both counted
    from 0), written as a spreadsheet writes it: the column letter, in
    either case, then the row number counted from 1. *)
Definition column_letter (lower : bool) (col : Z) : ascii :=
  ascii_of_N (Z.to_N ((if lower then 97 else 65) + col)).

Definition cell_address (lower : bool) (row col : Z) : string :=
  String (column_letter lower col) (Py.str_of_int (row + 1)).

(** One step of reading a decimal number, digit by digit, as
    [Py.int_of_digits] folds it. *)
Definition digit_step (acc : Z) (c : ascii) : Z := 10 * acc + (Py.ord c - 48).

(** What a cell gives as an original diameter: its number unless it is
    NaN, what [float] reads in its text, NaN included, and nothing when
    the cell is blank or [float] raises. *)
Definition number_in (py_float : string -> result float) (v : cell)
  : option float :=
  match v with
  | Blank => None
  | Num x => if is_nan x then None else Some x
  | Text s => match py_float s with Ok x => Some x | Raise _ => None end
  | Other => None
  end.

Definition all_zero (row : float * float * float) : bool :=
  let '(f, h, p) := row in is_zero f && is_zero h && is_zero p.

(** Every column of the frame has [n] rows. *)
Definition rectangular (n : nat) (df : DataFrame) : Prop :=
  Forall (fun kv => List.length (snd kv) = n) df.

Section MoreTables.

Variable libm_pow : float -> float -> float.
Variable float_repr : float -> string.
Variable np_round : Z -> float -> float.
Variable py_float : string -> result float.

Local Open Scope string_scope.

(** The table of the sheet of one diameter in the per-diameter export. *)
Definition sheet_table (decimals : Z) (D_orig : float) (fl hd pw : Series)
           (t : DataFrame) (D : float) : DataFrame :=
  let ratio := div D D_orig in
  let r2 := value_or nan (float_pow libm_pow ratio 2) in
  let r3 := value_or nan (float_pow libm_pow ratio 3) in
  set_all t
    [("Flow_D" ++ float_repr D,
      series_round np_round decimals (series_mul_scalar fl ratio));
     ("Head_D" ++ float_repr D,
      series_round np_round decimals (series_mul_scalar hd r2));
     ("Power_kW_D" ++ float_repr D,
      series_round np_round decimals (series_mul_scalar pw r3))].

(** An entry of the diameter list as typed: the text of a number,
    between two runs of white space. *)
Definition padded (e : list ascii * float * list ascii) : list ascii :=
  let '(l, D, r) := e in l ++ list_ascii_of_string (float_repr D) ++ r.

Definition well_padded (e : list ascii * float * list ascii) : Prop :=
  let '(l, D, r) := e in
  forallb PyStr.isspace l = true /\ forallb PyStr.isspace r = true.

(** The text of [D] can be typed as an entry and read back: it is not
    empty, has no comma and no white space at its ends, and [float]
    gives [D] back. *)
Definition readable (D : float) : Prop :=
  let s := list_ascii_of_string (float_repr D) in
  s <> [] /\ ~ In ","%char s /\ PyStr.strip s = s
  /\ py_float (float_repr D) = Ok D.

Definition is_blank (p : list ascii) : bool :=
  match PyStr.strip p with [] => true | _ => false end.

End MoreTables.

(** A computation keeps the first [n] objects of the store when,
    whatever its outcome, they are after it what they were before; [Q]
    is what is known of the value it returns. *)
Definition keeps (n : nat) {A : Type} (Q : A -> Prop) (m : py A) : Prop :=
  forall h, (n <= List.length h)%nat ->
    exists r h',
      m h = (r, h')
      /\ firstn n h' = firstn n h
      /\ (n <= List.length h')%nat
      /\ forall a, r = Ok a -> Q a.

(** The engine's exceptions. *)
Definition engine_outcome {A : Type} (r : result A) : Prop :=
  match r with
  | Ok _ => True
  | Raise OverflowError => True
  | Raise _ => False
  end.

Module Sample2.

Local Open Scope string_scope.

(** [float] on the texts the examples use: the white space around the
    text is dropped; what is left is [nan], or digits, or digits, a
    point, digits (the texts [Sample.repr] gives for integers).
    Everything else is rejected, which Python's [float] does not do. *)
Definition digits_value (s : list ascii) : option Z :=
  match Py.int_of_digits s with Ok n => Some n | Raise _ => None end.

Fixpoint split_point (s : list ascii) : list ascii * option (list ascii) :=
  match s with
  | [] => ([], None)
  | c :: s' =>
      if Ascii.eqb c "."%char then ([], Some s')
      else let '(a, b) := split_point s' in (c :: a, b)
  end.

Definition py_float (s : string) : result float :=
  let body := PyStr.strip (list_ascii_of_string s) in
  if String.eqb (string_of_list_ascii body) "nan" then Ok nan else
  match split_point body with
  | (a, None) =>
      match digits_value a with
      | Some n => Ok (of_Z n)
      | None => Raise ValueError
      end
  | (a, Some b) =>
      match digits_value (a ++ b) with
      | Some n => Ok (of_decimal n (List.length b))
      | None => Raise ValueError
      end
  end.

Definition widgets (g : option grid) (dias : string) (press : bool) : inputs :=
  {| uploaded := g; orig_from_cell_checkbox := true; orig_cell_addr := "D1";
     manual_orig := of_Z 1; new_dias_input := dias; detect_range := true;
     export_per_sheet := true; decimals := 4; button := press |}.

Definition widgets3 (upload : bool) (g : option grid) (dias : string)
  : inputs3 :=
  {| upload_mode := upload; uploaded3 := g; submitted := true;
     manual_data := [(of_Z 100, of_Z 20, of_Z 5); (zero, zero, zero);
                     (of_Z 90, zero, S754_zero true);
                     (S754_zero true, zero, zero)];
     orig_dia3 := of_Z 200; new_dias_input3 := dias; decimals3 := 2 |}.

End Sample2.
(** ** Facts on binary64 arithmetic *)

Lemma div_eucl_mul_pow (m : positive) (k : Z) :
  0 <= k -> Z.div_eucl (Z.shiftl (Zpos m) k) (Zpos m) = (2 ^ k, 0).
Proof.
  intros Hk. rewrite Z.shiftl_mul_pow2 by exact Hk.
  pose proof (Z_div_mod (Zpos m * 2 ^ k) (Zpos m) eq_refl) as H.
  destruct (Z.div_eucl (Zpos m * 2 ^ k) (Zpos m)) as [q r].
  destruct H as [H1 H2].
  assert (Hq : q = 2 ^ k) by nia.
  subst q. f_equal. lia.
Qed.

Lemma div_self (s : bool) (m : positive) (e : Z) :
  div (S754_finite s m e) (S754_finite s m e) = one.
Proof.
  unfold div, SFdiv, SFdiv_core_binary.
  rewrite !Z.sub_diag.
  change (Z.min (fexp prec emax 0) 0) with (-53).
  change (0 - -53) with 53.
  cbv iota beta.
  rewrite div_eucl_mul_pow by lia.
  assert (Hl : new_location (Zpos m) 0 = loc_Exact).
  { unfold new_location, new_location_even, new_location_odd.
    destruct (Z.even (Zpos m)); reflexivity. }
  rewrite Hl. destruct s; reflexivity.
Qed.

Lemma shr_1_xO (p : positive) :
  shr_1 (Build_shr_record (Zpos p~0) false false)
  = Build_shr_record (Zpos p) false false.
Proof. reflexivity. Qed.

Lemma mul_one_finite (s : bool) (m : positive) (e : Z) :
  bounded prec emax m e = true ->
  mul (S754_finite s m e) one = S754_finite s m e.
Proof.
  intros Hb. unfold bounded, canonical_mantissa in Hb.
  apply andb_true_iff in Hb. destruct Hb as [Hc He].
  apply Z.eqb_eq in Hc. apply Z.leb_le in He.
  unfold mul, one, SFmul.
  rewrite xorb_false_r.
  rewrite Pos.mul_comm. cbn [Pos.mul].
  unfold binary_round_aux, shr_fexp.
  cbn [Zdigits2 digits2_pos].
  set (d := digits2_pos m) in *.
  match goal with
  | |- context [fexp prec emax (Zpos ?q + (e + -52))] =>
      replace (Zpos q + (e + -52)) with (Zpos d + e) by lia
  end.
  rewrite Hc.
  replace (e - (e + -52)) with 52 by lia.
  cbn [shr_record_of_loc shr iter_pos].
  rewrite !shr_1_xO.
  cbn [shr_m loc_of_shr_record round_nearest_even Zdigits2].
  fold d.
  replace (e + -52 + 52) with e by lia.
  rewrite Hc, Z.sub_diag.
  cbn [shr_record_of_loc shr shr_m].
  change (emax - prec) with 971 in *.
  apply Z.leb_le in He. rewrite He. reflexivity.
Qed.

Lemma mul_one_r (x : float) :
  valid x = true -> mul x one = x.
Proof.
  destruct x as [s | s | | s m e]; intros Hv.
  - destruct s; reflexivity.
  - destruct s; reflexivity.
  - reflexivity.
  - apply mul_one_finite. exact Hv.
Qed.

(** ** Facts on results, frames and the store *)

Lemma map_result_ok {A B : Type} (f : A -> result B) (g : A -> B) (l : list A) :
  (forall a, In a l -> f a = Ok (g a)) -> map_result f l = Ok (map g l).
Proof.
  induction l as [| a l IH]; intros H; cbn.
  - reflexivity.
  - rewrite (H a (or_introl eq_refl)).
    rewrite IH by (intros b Hb; apply H; right; exact Hb).
    reflexivity.
Qed.

Lemma map_result_raise {A B : Type} (f : A -> result B) (l : list A) (a : A) :
  In a l -> is_ok (f a) = false -> is_ok (map_result f l) = false.
Proof.
  induction l as [| b l IH]; intros Hin Hf; cbn.
  - destruct Hin.
  - destruct Hin as [-> | Hin].
    + destruct (f a); [discriminate | reflexivity].
    + destruct (f b); [| reflexivity].
      specialize (IH Hin Hf).
      destruct (map_result f l); [discriminate | reflexivity].
Qed.

Lemma getitem_setitem_same (df : DataFrame) k v :
  getitem (setitem df k v) k = Ok v.
Proof.
  induction df as [| [k' v'] df IH]; cbn.
  - rewrite String.eqb_refl. reflexivity.
  - destruct (String.eqb k' k) eqn:E; cbn; rewrite E; [reflexivity | exact IH].
Qed.

Lemma getitem_setitem_other (df : DataFrame) k v k' :
  k <> k' -> getitem (setitem df k v) k' = getitem df k'.
Proof.
  intros Hne. induction df as [| [k0 v0] df IH]; cbn.
  - apply String.eqb_neq in Hne. rewrite Hne. reflexivity.
  - destruct (String.eqb k0 k) eqn:E; cbn.
    + apply String.eqb_eq in E. subst k0.
      apply String.eqb_neq in Hne. rewrite Hne. reflexivity.
    + rewrite IH. reflexivity.
Qed.

Lemma columns_setitem (df : DataFrame) k v :
  columns (setitem df k v) = add_new (columns df) k.
Proof.
  unfold add_new, columns.
  induction df as [| [k' v'] df IH]; cbn.
  - reflexivity.
  - rewrite (String.eqb_sym k k').
    destruct (String.eqb k' k) eqn:E; cbn.
    + reflexivity.
    + rewrite IH. destruct (existsb (String.eqb k) (map fst df)); reflexivity.
Qed.

Lemma nth_error_last {A : Type} (h : list A) (t : A) :
  nth_error (h ++ [t]) (List.length h) = Some t.
Proof.
  rewrite nth_error_app2 by apply Nat.le_refl.
  rewrite Nat.sub_diag. reflexivity.
Qed.

Lemma list_update_last {A : Type} (h : list A) (t t' : A) :
  list_update (List.length h) t' (h ++ [t]) = h ++ [t'].
Proof.
  induction h as [| x h IH]; cbn.
  - reflexivity.
  - rewrite IH. reflexivity.
Qed.

Lemma run_getitem (h : heap) t k :
  df_getitem (List.length h) k (h ++ [t]) = (getitem t k, h ++ [t]).
Proof. unfold df_getitem. rewrite nth_error_last. reflexivity. Qed.

Lemma run_setitem (h : heap) t k v :
  df_setitem (List.length h) k v (h ++ [t]) = (Ok tt, h ++ [setitem t k v]).
Proof.
  unfold df_setitem. rewrite nth_error_last, list_update_last. reflexivity.
Qed.

Lemma nth_error_keep {A : Type} (h ext : list A) (r : nat) (t : A) :
  nth_error h r = Some t -> nth_error (h ++ ext) r = Some t.
Proof.
  intros H. rewrite nth_error_app1; [exact H |].
  apply nth_error_Some. rewrite H. discriminate.
Qed.

Lemma run_new (h : heap) r t f t' :
  nth_error h r = Some t -> f t = Ok t' ->
  df_new r f h = (Ok (List.length h), h ++ [t']).
Proof. intros H E. unfold df_new. rewrite H, E. reflexivity. Qed.

Lemma run_value (h : heap) t :
  df_value (List.length h) (h ++ [t]) = (Ok t, h ++ [t]).
Proof. unfold df_value. rewrite nth_error_last. reflexivity. Qed.

Lemma local_ret (h : heap) {A : Type} (a : A) : local h (ret a).
Proof. intros t. exists (Ok a), t. split; [reflexivity | auto]. Qed.

Lemma local_lift (h : heap) {A : Type} (r : result A) : local h (lift r).
Proof. intros t. exists r, t. split; [reflexivity | auto]. Qed.

Lemma local_bind (h : heap) {A B : Type} (m : py A) (f : A -> py B) :
  local h m -> (forall a, local h (f a)) -> local h (bind m f).
Proof.
  intros Hm Hf t. unfold bind.
  destruct (Hm t) as (r & t1 & E & K). rewrite E.
  destruct r as [a | e].
  - destruct (Hf a t1) as (r2 & t2 & E2 & K2).
    exists r2, t2. split; [exact E2 |].
    intros k Hk. rewrite K2, K by exact Hk. reflexivity.
  - exists (Raise e), t1. split; [reflexivity | exact K].
Qed.

Lemma local_getitem (h : heap) k : local h (df_getitem (List.length h) k).
Proof.
  intros t. rewrite run_getitem.
  exists (getitem t k), t. split; [reflexivity | auto].
Qed.

Lemma local_setitem (h : heap) k v :
  is_derived k = true -> local h (df_setitem (List.length h) k v).
Proof.
  intros Hd t. rewrite run_setitem.
  exists (Ok tt), (setitem t k v). split; [reflexivity |].
  intros k' Hk'. apply getitem_setitem_other. congruence.
Qed.

Lemma local_value (h : heap) : local h (df_value (List.length h)).
Proof.
  intros t. rewrite run_value. exists (Ok t), t. split; [reflexivity | auto].
Qed.

Lemma local_for_each (h : heap) {A : Type} (l : list A) (body : A -> py unit) :
  (forall x, local h (body x)) -> local h (for_each l body).
Proof.
  intros Hb. induction l as [| x l IH]; cbn.
  - apply local_ret.
  - apply local_bind; [apply Hb | intros _; exact IH].
Qed.

(** ** Facts on labels *)

Lemma prefix_append (p s : string) : prefix p (p ++ s) = true.
Proof.
  induction p as [| c p IH]; cbn.
  - destruct s; reflexivity.
  - rewrite IH. destruct (ascii_dec c c); [reflexivity | contradiction].
Qed.

Ltac tag_neq := let H := fresh in intros H; cbn in H; discriminate H.

Ltac derived_label :=
  unfold is_derived; rewrite prefix_append; rewrite ?orb_true_r; reflexivity.

Ltac local_steps :=
  repeat first
    [ apply local_ret | apply local_lift | apply local_getitem
    | apply local_value
    | apply local_setitem; derived_label
    | apply local_bind; [| intros ?] ].

Section EngineFacts.

Variable libm_pow : float -> float -> float.
Variable float_repr : float -> string.

Local Open Scope string_scope.
Local Open Scope list_scope.

Local Abbreviation derived_ := (derived libm_pow float_repr).
Local Abbreviation final_table_ := (final_table libm_pow float_repr).
Local Abbreviation pow_ok_ := (pow_ok libm_pow).

Lemma derived_labels with_eff D_orig fl hd pw D :
  map fst (derived_ with_eff D_orig fl hd pw D)
  = group_labels with_eff (float_repr D).
Proof. destruct with_eff; reflexivity. Qed.

Lemma group_labels_derived with_eff r k :
  In k (group_labels with_eff r) -> is_derived k = true.
Proof.
  unfold group_labels, is_derived. intros Hin.
  apply in_app_or in Hin. destruct Hin as [Hin | Hin].
  - destruct Hin as [<- | [<- | [<- | []]]];
      rewrite prefix_append; rewrite ?orb_true_r; reflexivity.
  - destruct with_eff; [| destruct Hin].
    destruct Hin as [<- | []].
    rewrite prefix_append; rewrite ?orb_true_r; reflexivity.
Qed.

Lemma getitem_set_all_other (g : list (string * Series)) t k :
  ~ In k (map fst g) -> getitem (set_all t g) k = getitem t k.
Proof.
  unfold set_all. revert t.
  induction g as [| [k0 v0] g IH]; intros t Hn; cbn.
  - reflexivity.
  - rewrite IH by (intros Hin; apply Hn; right; exact Hin).
    apply getitem_setitem_other.
    intros ->. apply Hn. left. reflexivity.
Qed.

(** A label that is not a derived one is left alone by the loop. *)
Lemma getitem_derived_other with_eff D_orig fl hd pw D t k :
  is_derived k = false ->
  getitem (set_all t (derived_ with_eff D_orig fl hd pw D)) k = getitem t k.
Proof.
  intros Hk. apply getitem_set_all_other.
  rewrite derived_labels. intros Hin.
  apply group_labels_derived in Hin. congruence.
Qed.

Lemma getitem_final_other with_eff D_orig fl hd pw l t k :
  is_derived k = false ->
  getitem (final_table_ with_eff D_orig fl hd pw l t) k = getitem t k.
Proof.
  intros Hk. unfold final_table. revert t.
  induction l as [| D l IH]; intros t; cbn.
  - reflexivity.
  - rewrite IH. apply getitem_derived_other. exact Hk.
Qed.

(** The columns one target writes, read back. *)
Lemma getitem_derived_flow with_eff D_orig fl hd pw D t :
  getitem (set_all t (derived_ with_eff D_orig fl hd pw D))
          ("Flow_D" ++ float_repr D)%string
  = Ok (series_mul_scalar fl (div D D_orig)).
Proof.
  destruct with_eff; cbn;
    rewrite ?(getitem_setitem_other _ ("Efficiency_D" ++ float_repr D)%string)
      by tag_neq;
    rewrite (getitem_setitem_other _ ("Power_kW_D" ++ float_repr D)%string)
      by tag_neq;
    rewrite (getitem_setitem_other _ ("Head_D" ++ float_repr D)%string)
      by tag_neq;
    apply getitem_setitem_same.
Qed.

Lemma getitem_derived_head with_eff D_orig fl hd pw D t :
  getitem (set_all t (derived_ with_eff D_orig fl hd pw D))
          ("Head_D" ++ float_repr D)%string
  = Ok (series_mul_scalar hd
          (value_or nan (float_pow libm_pow (div D D_orig) 2))).
Proof.
  destruct with_eff; cbn;
    rewrite ?(getitem_setitem_other _ ("Efficiency_D" ++ float_repr D)%string)
      by tag_neq;
    rewrite (getitem_setitem_other _ ("Power_kW_D" ++ float_repr D)%string)
      by tag_neq;
    apply getitem_setitem_same.
Qed.

Lemma getitem_derived_power with_eff D_orig fl hd pw D t :
  getitem (set_all t (derived_ with_eff D_orig fl hd pw D))
          ("Power_kW_D" ++ float_repr D)%string
  = Ok (series_mul_scalar pw
          (value_or nan (float_pow libm_pow (div D D_orig) 3))).
Proof.
  destruct with_eff; cbn;
    rewrite ?(getitem_setitem_other _ ("Efficiency_D" ++ float_repr D)%string)
      by tag_neq;
    apply getitem_setitem_same.
Qed.

Lemma getitem_derived_eff D_orig fl hd pw D t :
  getitem (set_all t (derived_ true D_orig fl hd pw D))
          ("Efficiency_D" ++ float_repr D)%string
  = Ok (efficiency
          (series_mul_scalar fl (div D D_orig))
          (series_mul_scalar hd
             (value_or nan (float_pow libm_pow (div D D_orig) 2)))
          (series_mul_scalar pw
             (value_or nan (float_pow libm_pow (div D D_orig) 3)))).
Proof. cbn. apply getitem_setitem_same. Qed.

(** A later target with another text does not touch the group of [D]. *)
Lemma getitem_derived_skip with_eff D_orig fl hd pw D D' t k :
  In k (group_labels with_eff (float_repr D)) ->
  float_repr D' <> float_repr D ->
  getitem (set_all t (derived_ with_eff D_orig fl hd pw D')) k = getitem t k.
Proof.
  intros Hk Hne. apply getitem_set_all_other.
  rewrite derived_labels. intros Hin. apply Hne.
  unfold group_labels in Hk, Hin.
  apply in_app_or in Hk. apply in_app_or in Hin.
  destruct with_eff; cbn in Hk, Hin;
    repeat match goal with
           | H : _ \/ _ |- _ => destruct H
           | H : False |- _ => destruct H
           end; subst k; congruence.
Qed.

(** The group of a target of the list holds that target's values. *)
Lemma getitem_final_group with_eff D_orig fl hd pw l t D k :
  labels_distinct float_repr l -> In D l ->
  In k (group_labels with_eff (float_repr D)) ->
  getitem (final_table_ with_eff D_orig fl hd pw l t) k
  = getitem (set_all t (derived_ with_eff D_orig fl hd pw D)) k.
Proof.
  intros Hd Hin Hk. unfold final_table. revert t Hd Hin.
  induction l as [| D0 l IH]; intros t Hd Hin; [destruct Hin |].
  cbn [fold_left].
  assert (Hd' : labels_distinct float_repr l).
  { intros a b Ha Hb. apply Hd; right; assumption. }
  destruct (existsb (fun D' => String.eqb (float_repr D') (float_repr D)) l)
    eqn:Ex.
  - apply existsb_exists in Ex. destruct Ex as (D' & HD' & E).
    apply String.eqb_eq in E.
    assert (D' = D) by (apply Hd; [right; exact HD' | exact Hin | exact E]).
    subst D'. rewrite (IH _ Hd' HD').
    (* the group of [D] overwrites itself *)
    clear - Hk.
    set (t0 := set_all t (derived_ with_eff D_orig fl hd pw D0)).
    unfold group_labels in Hk. apply in_app_or in Hk.
    destruct Hk as [Hk | Hk].
    + destruct Hk as [<- | [<- | [<- | []]]].
      * rewrite !getitem_derived_flow. reflexivity.
      * rewrite !getitem_derived_head. reflexivity.
      * rewrite !getitem_derived_power. reflexivity.
    + destruct with_eff; [| destruct Hk]. destruct Hk as [<- | []].
      rewrite !getitem_derived_eff. reflexivity.
  - destruct Hin as [-> | Hin].
    + assert (Hskip : forall l' t',
                 (forall D', In D' l' -> float_repr D' <> float_repr D) ->
                 getitem (fold_left
                            (fun acc D1 =>
                               set_all acc (derived_ with_eff D_orig fl hd pw D1))
                            l' t') k = getitem t' k).
      { induction l' as [| D1 l' IHl]; intros t' Hall; cbn.
        - reflexivity.
        - rewrite IHl by (intros; apply Hall; right; assumption).
          apply (getitem_derived_skip _ _ _ _ _ D); [exact Hk |].
          apply Hall. left. reflexivity. }
      apply Hskip. intros D' HD' E.
      assert (Ht : existsb (fun D' => String.eqb (float_repr D') (float_repr D)) l
                   = true).
      { apply existsb_exists. exists D'. split; [exact HD' |].
        apply String.eqb_eq. exact E. }
      congruence.
    + exfalso.
      assert (Ht : existsb (fun D' => String.eqb (float_repr D') (float_repr D)) l
                   = true).
      { apply existsb_exists. exists D. split; [exact Hin |].
        apply String.eqb_refl. }
      congruence.
Qed.

End EngineFacts.

(** ** Running the engine *)

Section EngineRuns.

Variable libm_pow : float -> float -> float.
Variable float_repr : float -> string.

Local Open Scope string_scope.
Local Open Scope list_scope.

Local Abbreviation derived_ := (derived libm_pow float_repr).
Local Abbreviation final_table_ := (final_table libm_pow float_repr).
Local Abbreviation pow_ok_ := (pow_ok libm_pow).
Local Abbreviation apply_affinity_ := (apply_affinity libm_pow float_repr).
Local Abbreviation apply_affinity3_ := (apply_affinity3 libm_pow float_repr).

Lemma pow_ok_values D_orig D :
  pow_ok_ D_orig D = true ->
  float_pow libm_pow (div D D_orig) 2
  = Ok (value_or nan (float_pow libm_pow (div D D_orig) 2))
  /\ float_pow libm_pow (div D D_orig) 3
     = Ok (value_or nan (float_pow libm_pow (div D D_orig) 3)).
Proof.
  unfold pow_ok. intros H. apply andb_true_iff in H.
  destruct H as [H2 H3].
  destruct (float_pow libm_pow (div D D_orig) 2); [| discriminate].
  destruct (float_pow libm_pow (div D D_orig) 3); [| discriminate].
  split; reflexivity.
Qed.

(** The engine of [app_streamlit.py] on a frame that has the three base
    columns: it returns a new object holding [final_table]. *)
Lemma apply_affinity_run (h : heap) df t D_orig new_dias fl hd pw :
  nth_error h df = Some t ->
  getitem t "Flow_orig" = Ok fl ->
  getitem t "Head_orig" = Ok hd ->
  getitem t "Power_orig_kW" = Ok pw ->
  is_zero D_orig = false ->
  forallb (pow_ok_ D_orig) new_dias = true ->
  apply_affinity_ df D_orig new_dias h
  = (Ok (List.length h),
     h ++ [final_table_ false D_orig fl hd pw new_dias t]).
Proof.
  intros Hnth Hfl Hhd Hpw Hz Hpow.
  unfold apply_affinity. unfold bind at 1. unfold df_copy.
  rewrite Hnth.
  match goal with |- context [for_each _ ?b] => set (body := b) end.
  assert (Hloop : forall l t0,
             getitem t0 "Flow_orig" = Ok fl ->
             getitem t0 "Head_orig" = Ok hd ->
             getitem t0 "Power_orig_kW" = Ok pw ->
             forallb (pow_ok_ D_orig) l = true ->
             for_each l body (h ++ [t0])
             = (Ok tt, h ++ [final_table_ false D_orig fl hd pw l t0])).
  { induction l as [| D l IH]; intros t0 H1 H2 H3 Hl.
    - reflexivity.
    - cbn [forallb] in Hl. apply andb_true_iff in Hl.
      destruct Hl as [HD Hl].
      destruct (pow_ok_values _ _ HD) as [E2 E3].
      cbn [for_each]. unfold bind at 1.
      assert (Hbody : body D (h ++ [t0])
                      = (Ok tt, h ++ [set_all t0 (derived_ false D_orig fl hd pw D)])).
      { subst body. cbv beta. cbv [bind lift Py.truediv].
        rewrite Hz. rewrite run_getitem, H1. rewrite run_setitem.
        rewrite run_getitem.
        rewrite getitem_setitem_other by tag_neq. rewrite H2.
        rewrite E2.
        rewrite run_setitem. rewrite run_getitem.
        rewrite !getitem_setitem_other by tag_neq. rewrite H3.
        rewrite E3. rewrite run_setitem. reflexivity. }
      rewrite Hbody.
      rewrite IH; try assumption.
      + reflexivity.
      + rewrite getitem_derived_other by reflexivity. exact H1.
      + rewrite getitem_derived_other by reflexivity. exact H2.
      + rewrite getitem_derived_other by reflexivity. exact H3. }
  unfold bind. rewrite (Hloop new_dias t Hfl Hhd Hpw Hpow). reflexivity.
Qed.

(** The same for the engine of [app_streamlit3.py]. *)
Lemma apply_affinity3_run (h : heap) df t D_orig new_dias fl hd pw :
  nth_error h df = Some t ->
  getitem t "Flow_input" = Ok fl ->
  getitem t "Head_m" = Ok hd ->
  getitem t "Power_input_kW" = Ok pw ->
  is_zero D_orig = false ->
  forallb (pow_ok_ D_orig) new_dias = true ->
  apply_affinity3_ df D_orig new_dias h
  = (Ok (List.length h),
     h ++ [final_table_ true D_orig fl hd pw new_dias t]).
Proof.
  intros Hnth Hfl Hhd Hpw Hz Hpow.
  unfold apply_affinity3. unfold bind at 1. unfold df_copy.
  rewrite Hnth.
  match goal with |- context [for_each _ ?b] => set (body := b) end.
  assert (Hloop : forall l t0,
             getitem t0 "Flow_input" = Ok fl ->
             getitem t0 "Head_m" = Ok hd ->
             getitem t0 "Power_input_kW" = Ok pw ->
             forallb (pow_ok_ D_orig) l = true ->
             for_each l body (h ++ [t0])
             = (Ok tt, h ++ [final_table_ true D_orig fl hd pw l t0])).
  { induction l as [| D l IH]; intros t0 H1 H2 H3 Hl.
    - reflexivity.
    - cbn [forallb] in Hl. apply andb_true_iff in Hl.
      destruct Hl as [HD Hl].
      destruct (pow_ok_values _ _ HD) as [E2 E3].
      cbn [for_each]. unfold bind at 1.
      assert (Hbody : body D (h ++ [t0])
                      = (Ok tt, h ++ [set_all t0 (derived_ true D_orig fl hd pw D)])).
      { subst body. cbv beta. cbv [bind lift Py.truediv].
        rewrite Hz. rewrite run_getitem, H1. rewrite run_setitem.
        rewrite run_getitem.
        rewrite getitem_setitem_other by tag_neq. rewrite H2.
        rewrite E2.
        rewrite run_setitem. rewrite run_getitem.
        rewrite !getitem_setitem_other by tag_neq. rewrite H3.
        rewrite E3. rewrite run_setitem.
        rewrite run_getitem.
        rewrite !getitem_setitem_other by tag_neq.
        rewrite getitem_setitem_same.
        rewrite run_getitem.
        rewrite !getitem_setitem_other by tag_neq.
        rewrite getitem_setitem_same.
        rewrite run_getitem.
        rewrite getitem_setitem_same.
        rewrite run_setitem. reflexivity. }
      rewrite Hbody.
      rewrite IH; try assumption.
      + reflexivity.
      + rewrite getitem_derived_other by reflexivity. exact H1.
      + rewrite getitem_derived_other by reflexivity. exact H2.
      + rewrite getitem_derived_other by reflexivity. exact H3. }
  unfold bind. rewrite (Hloop new_dias t Hfl Hhd Hpw Hpow). reflexivity.
Qed.

(** Whatever happens, both engines only add one object to the store,
    a copy of the input in which only derived columns have changed; the
    objects that existed before the call are as they were. *)
Lemma apply_affinity_frame (h : heap) df t D_orig new_dias :
  nth_error h df = Some t ->
  exists r t',
    apply_affinity_ df D_orig new_dias h = (r, h ++ [t'])
    /\ (forall out, r = Ok out -> out = List.length h)
    /\ (forall k, is_derived k = false -> getitem t' k = getitem t k).
Proof.
  intros Hnth.
  unfold apply_affinity. unfold bind at 1. unfold df_copy. rewrite Hnth.
  match goal with |- context [for_each ?l ?b] =>
    assert (L : local h (for_each l b)) end.
  { apply local_for_each. intros D. local_steps. }
  destruct (L t) as (r & t' & E & K).
  unfold bind at 1. rewrite E.
  destruct r as [[] | e].
  - exists (Ok (List.length h)), t'. split; [reflexivity |].
    split; [| exact K]. intros out [= <-]. reflexivity.
  - exists (Raise e), t'. split; [reflexivity |].
    split; [| exact K]. intros out [=].
Qed.

Lemma apply_affinity3_frame (h : heap) df t D_orig new_dias :
  nth_error h df = Some t ->
  exists r t',
    apply_affinity3_ df D_orig new_dias h = (r, h ++ [t'])
    /\ (forall out, r = Ok out -> out = List.length h)
    /\ (forall k, is_derived k = false -> getitem t' k = getitem t k).
Proof.
  intros Hnth.
  unfold apply_affinity3. unfold bind at 1. unfold df_copy. rewrite Hnth.
  match goal with |- context [for_each ?l ?b] =>
    assert (L : local h (for_each l b)) end.
  { apply local_for_each. intros D. local_steps. }
  destruct (L t) as (r & t' & E & K).
  unfold bind at 1. rewrite E.
  destruct r as [[] | e].
  - exists (Ok (List.length h)), t'. split; [reflexivity |].
    split; [| exact K]. intros out [= <-]. reflexivity.
  - exists (Raise e), t'. split; [reflexivity |].
    split; [| exact K]. intros out [=].
Qed.

End EngineRuns.

(** ** The labels of the result *)

Lemma existsb_eqb_in (k : string) (acc : list string) :
  existsb (String.eqb k) acc = true <-> In k acc.
Proof.
  rewrite existsb_exists. split.
  - intros (x & Hx & E). apply String.eqb_eq in E. subst x. exact Hx.
  - intros H. exists k. split; [exact H | apply String.eqb_refl].
Qed.

Lemma add_new_in (acc : list string) k : In k acc -> add_new acc k = acc.
Proof.
  intros H. unfold add_new.
  apply existsb_eqb_in in H. rewrite H. reflexivity.
Qed.

Lemma add_new_notin (acc : list string) k :
  ~ In k acc -> add_new acc k = acc ++ [k].
Proof.
  intros H. unfold add_new.
  destruct (existsb (String.eqb k) acc) eqn:E; [| reflexivity].
  apply existsb_eqb_in in E. contradiction.
Qed.

Lemma columns_set_all (g : list (string * Series)) t :
  columns (set_all t g) = fold_left add_new (map fst g) (columns t).
Proof.
  unfold set_all. revert t.
  induction g as [| [k v] g IH]; intros t; cbn.
  - reflexivity.
  - rewrite IH, columns_setitem. reflexivity.
Qed.

Lemma first_occurrences_snoc (l : list string) k :
  first_occurrences (l ++ [k]) = add_new (first_occurrences l) k.
Proof. unfold first_occurrences. rewrite fold_left_app. reflexivity. Qed.

Lemma first_occurrences_nodup (l : list string) :
  NoDup l -> first_occurrences l = l.
Proof.
  induction l as [| x l IH] using rev_ind; intros Hn.
  - reflexivity.
  - rewrite first_occurrences_snoc.
    apply NoDup_remove in Hn. rewrite app_nil_r in Hn.
    destruct Hn as [Hn Hx].
    rewrite IH by exact Hn.
    apply add_new_notin. exact Hx.
Qed.

Section Labels.

Variable with_eff : bool.

Local Open Scope string_scope.
Local Open Scope list_scope.

(** A label of the group of [r] is in the groups of [seen] exactly
    when [r] is in [seen]. *)
Lemma in_groups (r : string) (seen : list string) k :
  In k (group_labels with_eff r) ->
  (In k (flat_map (group_labels with_eff) seen) <-> In r seen).
Proof.
  intros Hk. rewrite in_flat_map. split.
  - intros (r' & Hr' & Hk').
    assert (r' = r); [| subst; assumption].
    unfold group_labels in Hk, Hk'.
    apply in_app_or in Hk. apply in_app_or in Hk'.
    destruct with_eff; cbn in Hk, Hk';
      repeat match goal with
             | H : _ \/ _ |- _ => destruct H
             | H : False |- _ => destruct H
             end; subst k; congruence.
  - intros Hr. exists r. split; assumption.
Qed.

Lemma group_labels_nodup (r : string) : NoDup (group_labels with_eff r).
Proof.
  unfold group_labels.
  destruct with_eff; cbn;
    repeat (constructor;
            [cbn; intros H;
             repeat match goal with
                    | H : _ \/ _ |- _ => destruct H
                    | H : False |- _ => destruct H
                    end; discriminate |]);
    constructor.
Qed.

Lemma add_fresh_list (g acc : list string) :
  NoDup g -> (forall k, In k g -> ~ In k acc) ->
  fold_left add_new g acc = acc ++ g.
Proof.
  revert acc. induction g as [| k g IH]; intros acc Hn Hf; cbn.
  - rewrite app_nil_r. reflexivity.
  - inversion Hn as [| ? ? Hk Hn']; subst.
    rewrite add_new_notin by (apply Hf; left; reflexivity).
    rewrite IH.
    + rewrite <- app_assoc. reflexivity.
    + exact Hn'.
    + intros k' Hk' Hin. apply in_app_or in Hin.
      destruct Hin as [Hin | [<- | []]].
      * apply (Hf k'); [right; exact Hk' | exact Hin].
      * contradiction.
Qed.

Lemma add_known_list (g acc : list string) :
  (forall k, In k g -> In k acc) -> fold_left add_new g acc = acc.
Proof.
  induction g as [| k g IH]; intros Hk; cbn.
  - reflexivity.
  - rewrite add_new_in by (apply Hk; left; reflexivity).
    apply IH. intros k' Hk'. apply Hk. right. exact Hk'.
Qed.

(** Writing the groups of the targets one after the other: a group is
    added the first time its text occurs and overwritten afterwards. *)
Lemma fold_groups (base : list string) (rs done : list string) :
  forallb (fun k => negb (is_derived k)) base = true ->
  fold_left add_new (flat_map (group_labels with_eff) rs)
            (base ++ flat_map (group_labels with_eff) (first_occurrences done))
  = base ++ flat_map (group_labels with_eff) (first_occurrences (done ++ rs)).
Proof.
  intros Hbase. revert done.
  induction rs as [| r rs IH]; intros done.
  - rewrite app_nil_r. reflexivity.
  - cbn [flat_map]. rewrite fold_left_app.
    replace (done ++ r :: rs) with ((done ++ [r]) ++ rs)
      by (rewrite <- app_assoc; reflexivity).
    rewrite <- IH. f_equal.
    rewrite first_occurrences_snoc.
    destruct (in_dec string_dec r (first_occurrences done)) as [Hin | Hout].
    + rewrite add_new_in by exact Hin.
      apply add_known_list. intros k Hk.
      apply in_or_app. right. apply (in_groups r); assumption.
    + rewrite add_new_notin by exact Hout.
      rewrite flat_map_app. cbn [flat_map]. rewrite app_nil_r.
      rewrite app_assoc.
      apply add_fresh_list; [apply group_labels_nodup |].
      intros k Hk Hin. apply in_app_or in Hin.
      destruct Hin as [Hin | Hin].
      * rewrite forallb_forall in Hbase. specialize (Hbase k Hin).
        apply group_labels_derived in Hk. rewrite Hk in Hbase. discriminate.
      * apply (in_groups r) in Hin; [contradiction | exact Hk].
Qed.

End Labels.

Section ResultLabels.

Variable libm_pow : float -> float -> float.
Variable float_repr : float -> string.

Local Abbreviation derived_ := (derived libm_pow float_repr).
Local Abbreviation final_table_ := (final_table libm_pow float_repr).

Lemma columns_final with_eff D_orig fl hd pw l t :
  columns (final_table_ with_eff D_orig fl hd pw l t)
  = fold_left add_new
      (flat_map (group_labels with_eff) (map float_repr l)) (columns t).
Proof.
  unfold final_table. revert t.
  induction l as [| D l IH]; intros t; cbn [fold_left map flat_map].
  - reflexivity.
  - rewrite IH, columns_set_all, derived_labels, fold_left_app.
    reflexivity.
Qed.

(** The labels of the table the engine returns: the input's, then one
    group per distinct text of a target, in the order of first
    occurrence. *)
Lemma columns_final_groups with_eff D_orig fl hd pw l t :
  forallb (fun k => negb (is_derived k)) (columns t) = true ->
  columns (final_table_ with_eff D_orig fl hd pw l t)
  = columns t
    ++ flat_map (group_labels with_eff)
                (first_occurrences (map float_repr l)).
Proof.
  intros Hb. rewrite columns_final.
  pose proof (fold_groups with_eff (columns t) (map float_repr l) [] Hb) as H.
  cbn in H. rewrite app_nil_r in H. exact H.
Qed.

(** Every label of every target is a column of the table. *)
Lemma getitem_final_present with_eff D_orig fl hd pw l t D k :
  In D l -> In k (group_labels with_eff (float_repr D)) ->
  is_ok (getitem (final_table_ with_eff D_orig fl hd pw l t) k) = true.
Proof.
  intros HD Hk.
  assert (Hin : forall df k0, In k0 (columns df) -> is_ok (getitem df k0) = true).
  { induction df as [| [k1 v1] df IHdf]; cbn; intros k0 H0.
    - destruct H0.
    - destruct (String.eqb k1 k0) eqn:E; [reflexivity |].
      destruct H0 as [-> | H0]; [rewrite String.eqb_refl in E; discriminate |].
      apply IHdf. exact H0. }
  apply Hin. rewrite columns_final.
  assert (Hmono : forall g acc x, In x acc \/ In x g ->
                                  In x (fold_left add_new g acc)).
  { induction g as [| y g IHg]; intros acc x Hx; cbn.
    - destruct Hx as [Hx | []]. exact Hx.
    - apply IHg. unfold add_new.
      destruct (existsb (String.eqb y) acc) eqn:E.
      + destruct Hx as [Hx | [<- | Hx]]; auto.
        left. apply existsb_eqb_in. exact E.
      + destruct Hx as [Hx | [<- | Hx]]; auto.
        * left. apply in_or_app. left. exact Hx.
        * left. apply in_or_app. right. left. reflexivity. }
  apply Hmono. right.
  apply in_flat_map. exists (float_repr D). split; [| exact Hk].
  apply in_map. exact HD.
Qed.

End ResultLabels.

Lemma select_columns (df : DataFrame) (cols : list string) s :
  select df cols = Ok s -> columns s = cols.
Proof.
  unfold select, columns. revert s.
  induction cols as [| k cols IH]; intros s H; cbn in H.
  - injection H as <-. reflexivity.
  - destruct (getitem df k) as [v |]; cbn in H; [| discriminate].
    destruct (map_result _ cols) as [s' |]; [| discriminate].
    injection H as <-. cbn. f_equal. apply IH. reflexivity.
Qed.

Lemma select_present (df : DataFrame) (cols : list string) :
  (forall k, In k cols -> is_ok (getitem df k) = true) ->
  is_ok (select df cols) = true.
Proof.
  unfold select. induction cols as [| k cols IH]; intros H; cbn.
  - reflexivity.
  - pose proof (H k (or_introl eq_refl)) as Hk.
    destruct (getitem df k) as [v |]; [| discriminate]. cbn.
    assert (IH' := IH (fun k' Hk' => H k' (or_intror Hk'))).
    destruct (map_result _ cols); [reflexivity | discriminate].
Qed.

(** ** Running the result assembly *)

Section AssemblyRuns.

Variable libm_pow : float -> float -> float.
Variable float_repr : float -> string.
Variable np_round : Z -> float -> float.

Local Open Scope string_scope.
Local Open Scope list_scope.

Local Abbreviation final_table_ := (final_table libm_pow float_repr).
Local Abbreviation pow_ok_ := (pow_ok libm_pow).

Lemma columns_df_round decimals df :
  columns (df_round np_round decimals df) = columns df.
Proof.
  unfold columns, df_round. rewrite map_map. reflexivity.
Qed.

Lemma sheet_name_ok D : is_ok (sheet_name float_repr D) = true.
Proof.
  unfold sheet_name.
  destruct (Py.is_integer D) eqn:E; [| reflexivity].
  destruct D as [s | s | | s m e]; cbn in E; try discriminate; reflexivity.
Qed.

(** The sheet [app_streamlit.py] offers for download has the base
    columns and one group of three columns per entry of the list. *)
Lemma generate_run (h : heap) df t D_orig new_dias fl hd pw :
  nth_error h df = Some t ->
  getitem t "Flow_orig" = Ok fl ->
  getitem t "Head_orig" = Ok hd ->
  getitem t "Power_orig_kW" = Ok pw ->
  is_zero D_orig = false ->
  forallb (pow_ok_ D_orig) new_dias = true ->
  exists sheet h',
    generate libm_pow float_repr np_round df D_orig new_dias h
    = (Ok sheet, h')
    /\ columns sheet = wide_columns float_repr new_dias.
Proof.
  intros Hnth Hfl Hhd Hpw Hz Hpow.
  unfold generate. unfold bind at 1.
  rewrite (apply_affinity_run _ _ h df t D_orig new_dias fl hd pw)
    by assumption.
  set (T := final_table_ false D_orig fl hd pw new_dias t).
  assert (Hsel : is_ok (select T (wide_columns float_repr new_dias)) = true).
  { apply select_present. intros k Hk. unfold wide_columns in Hk.
    apply in_app_or in Hk. destruct Hk as [Hk | Hk].
    - subst T. rewrite getitem_final_other.
      + destruct Hk as [<- | [<- | [<- | []]]];
          [rewrite Hfl | rewrite Hhd | rewrite Hpw]; reflexivity.
      + destruct Hk as [<- | [<- | [<- | []]]]; reflexivity.
    - apply in_flat_map in Hk. destruct Hk as (D & HD & Hk).
      subst T. apply (getitem_final_present _ _ _ _ _ _ _ _ _ D); [exact HD |].
      exact Hk. }
  destruct (select T (wide_columns float_repr new_dias)) as [s |] eqn:E;
    [| discriminate].
  unfold bind at 1. unfold df_select.
  rewrite (run_new _ _ T _ s (nth_error_last _ _) E).
  unfold bind at 1. unfold df_round_new.
  rewrite (run_new _ _ s (fun t0 => Ok (df_round np_round 6 t0)) _
             (nth_error_last _ _) eq_refl).
  rewrite run_value.
  eexists. eexists. split; [reflexivity |].
  rewrite columns_df_round. apply (select_columns _ _ _ E).
Qed.

(** The per-diameter export of [app_streamlit1.py]: the sheet
    "original", then one [to_excel] call per entry of the list, in
    order, each under the name of its diameter. *)
Lemma build_excel_bytes_per_sheet_run
      (h : heap) df_orig df_out t D_orig new_dias decimals fl hd pw :
  nth_error h df_orig = Some t ->
  getitem t "Flow_orig" = Ok fl ->
  getitem t "Head_orig" = Ok hd ->
  getitem t "Power_orig_kW" = Ok pw ->
  is_zero D_orig = false ->
  forallb (pow_ok_ D_orig) new_dias = true ->
  exists sheets h',
    build_excel_bytes libm_pow float_repr np_round
                      df_orig df_out D_orig new_dias true decimals h
    = (Ok (("original", df_round np_round decimals t) :: sheets), h')
    /\ map (fun w => Ok (fst w)) sheets
       = map (sheet_name float_repr) new_dias.
Proof.
  intros Hnth Hfl Hhd Hpw Hz Hpow.
  unfold build_excel_bytes. unfold bind at 1. unfold df_round_new.
  rewrite (run_new _ _ t (fun t0 => Ok (df_round np_round decimals t0)) _
             Hnth eq_refl).
  unfold bind at 1. rewrite run_value.
  match goal with |- context [map_py ?b _] => set (body := b) end.
  assert (Hloop : forall l h0,
             nth_error h0 df_orig = Some t ->
             forallb (pow_ok_ D_orig) l = true ->
             exists sheets h',
               map_py body l h0 = (Ok sheets, h')
               /\ map (fun w => Ok (fst w)) sheets
                  = map (sheet_name float_repr) l).
  { induction l as [| D l IH]; intros h0 H0 Hl.
    - exists [], h0. split; reflexivity.
    - cbn [forallb] in Hl. apply andb_true_iff in Hl.
      destruct Hl as [HD Hl].
      destruct (pow_ok_values _ _ _ HD) as [E2 E3].
      pose proof (sheet_name_ok D) as Hname.
      destruct (sheet_name float_repr D) as [name |] eqn:En; [| discriminate].
      cbn [map_py]. unfold bind at 1.
      assert (Hbody : exists t1, body D h0 = (Ok (name, t1), h0 ++ [t1])).
      { subst body. cbv beta. cbv [bind lift Py.truediv].
        rewrite Hz. unfold df_copy. rewrite H0.
        rewrite run_getitem, Hfl. rewrite run_setitem.
        rewrite run_getitem.
        rewrite getitem_setitem_other by tag_neq. rewrite Hhd.
        rewrite E2.
        rewrite run_setitem. rewrite run_getitem.
        rewrite !getitem_setitem_other by tag_neq. rewrite Hpw.
        rewrite E3. rewrite run_setitem. rewrite En.
        rewrite run_value. eexists. reflexivity. }
      destruct Hbody as (t1 & Hbody). rewrite Hbody.
      assert (H1 : nth_error (h0 ++ [t1]) df_orig = Some t).
      { rewrite nth_error_app1; [exact H0 |].
        apply nth_error_Some. rewrite H0. discriminate. }
      destruct (IH (h0 ++ [t1]) H1 Hl) as (sheets & h' & Er & En').
      unfold bind at 1. rewrite Er.
      exists ((name, t1) :: sheets), h'. split; [reflexivity |].
      cbn [map fst]. rewrite En', En. reflexivity. }
  destruct (Hloop new_dias _
              (nth_error_keep h [df_round np_round decimals t] _ _ Hnth) Hpow)
    as (sheets & h' & Er & En).
  unfold bind at 1. rewrite Er.
  exists sheets, h'. split; [reflexivity | exact En].
Qed.

End AssemblyRuns.

(** ** Facts on the reader *)

Lemma dropna_values (xs : list float) (k : nat) :
  forallb (fun x => negb (is_nan x)) xs = true ->
  dropna (map Num xs ++ repeat Blank k) = map Num xs.
Proof.
  intros H. unfold dropna. rewrite filter_app.
  assert (Hb : filter (fun v => negb (isna v)) (repeat Blank k) = []).
  { induction k as [| k IH]; cbn; [reflexivity | exact IH]. }
  rewrite Hb, app_nil_r.
  induction xs as [| x xs IH]; cbn in *.
  - reflexivity.
  - apply andb_true_iff in H. destruct H as [Hx Hxs].
    rewrite Hx. f_equal. apply IH. exact Hxs.
Qed.

Section ReaderFacts.

Variable py_float : string -> result float.

Lemma astype_float_values (xs : list float) :
  astype_float py_float (map Num xs) = Ok xs.
Proof.
  unfold astype_float.
  rewrite (map_result_ok (to_float py_float) (cell_value py_float)).
  - rewrite map_map. cbn. rewrite map_id. reflexivity.
  - intros a Ha. apply in_map_iff in Ha. destruct Ha as (x & <- & _).
    reflexivity.
Qed.

Lemma is_nonnum_to_float (v : cell) :
  is_nonnum py_float v = negb (is_ok (to_float py_float v)).
Proof. destruct v; reflexivity. Qed.

Lemma astype_float_text (s : list cell) (v : cell) :
  In v s -> is_nonnum py_float v = true ->
  is_ok (astype_float py_float s) = false.
Proof.
  intros H Hv. apply (map_result_raise (to_float py_float) s v H).
  rewrite is_nonnum_to_float in Hv. apply negb_true_iff. exact Hv.
Qed.

Lemma astype_float_no_text (s : list cell) :
  existsb (is_nonnum py_float) s = false ->
  astype_float py_float s = Ok (map (cell_value py_float) s).
Proof.
  intros H. apply map_result_ok. intros a Ha.
  assert (Hn : is_nonnum py_float a = false).
  { destruct (is_nonnum py_float a) eqn:E; [| reflexivity].
    assert (Ht : existsb (is_nonnum py_float) s = true)
      by (apply existsb_exists; exists a; split; assumption).
    congruence. }
  destruct a as [| x | t |]; cbn in *; try reflexivity; try discriminate.
  destruct (py_float t); [reflexivity | discriminate].
Qed.

Lemma dropna_keeps_text (s : list cell) (v : cell) :
  In v s -> is_nonnum py_float v = true -> In v (dropna s).
Proof.
  intros H Hv. unfold dropna. apply filter_In. split; [exact H |].
  destruct v; try discriminate; reflexivity.
Qed.

(** The frame read depends on the width of the grid and on the cells
    of columns 0, 1 and 2 below the first row, and on nothing else. *)
Lemma read_frame_ext (g g' : grid) (mode : bool) (oc oc' : option string) :
  width g = width g' ->
  (forall c, (c < 3)%nat ->
             skipn 1 (column_cells g c) = skipn 1 (column_cells g' c)) ->
  frame_of (read_uploaded_excel py_float g mode oc)
  = frame_of (read_uploaded_excel py_float g' mode oc').
Proof.
  intros Hw Hc.
  pose proof (Hc 0%nat ltac:(lia)) as H0.
  pose proof (Hc 1%nat ltac:(lia)) as H1.
  pose proof (Hc 2%nat ltac:(lia)) as H2.
  unfold read_uploaded_excel, iloc_column, loc_column.
  rewrite <- Hw.
  destruct mode;
    destruct (0 <? width g)%nat; cbn [rbind frame_of]; try reflexivity;
    rewrite <- H0;
    match goal with
    | |- context [astype_float py_float ?s] =>
        destruct (astype_float py_float s)
    end;
    cbn [rbind frame_of]; try reflexivity;
    destruct (1 <? width g)%nat; cbn [rbind frame_of]; try reflexivity;
    rewrite <- H1;
    match goal with
    | |- context [astype_float py_float ?s] =>
        destruct (astype_float py_float s)
    end;
    cbn [rbind frame_of]; try reflexivity;
    destruct (2 <? width g)%nat; cbn [rbind frame_of]; try reflexivity;
    rewrite <- H2;
    match goal with
    | |- context [astype_float py_float ?s] =>
        destruct (astype_float py_float s)
    end;
    cbn [rbind frame_of]; reflexivity.
Qed.

Lemma column_cells_readings (w : nat) (row0 : list cell)
      (samples : list (float * float * float)) (c : nat)
      (f : float * float * float -> float) :
  (forall s, nth c (reading_row s) Blank = Num (f s)) ->
  skipn 1 (column_cells {| width := w;
                           rows := row0 :: map reading_row samples |} c)
  = map Num (map f samples).
Proof.
  intros Hf. unfold column_cells. cbn [rows map skipn].
  rewrite !map_map. apply map_ext. exact Hf.
Qed.

Lemma readings_no_nan (samples : list (float * float * float))
      (f : float * float * float -> float) :
  (forall s, reading_no_nan s = true -> is_nan (f s) = false) ->
  forallb reading_no_nan samples = true ->
  forallb (fun x => negb (is_nan x)) (map f samples) = true.
Proof.
  intros Hf H. rewrite forallb_forall in *. intros x Hx.
  apply in_map_iff in Hx. destruct Hx as (s & <- & Hs).
  rewrite (Hf s (H s Hs)). reflexivity.
Qed.

(** On a sheet whose rows below the first hold one reading each, the
    frame is made of these readings, column by column and in order: all
    of them in auto-detect mode, the first five in fixed-range mode. *)
Lemma read_readings (w : nat) (row0 : list cell)
      (samples : list (float * float * float))
      (mode : bool) (oc : option string) :
  (3 <= w)%nat ->
  (mode = true -> forallb reading_no_nan samples = true) ->
  let kept := if mode then samples else firstn 5 samples in
  frame_of (read_uploaded_excel
              py_float
              {| width := w; rows := row0 :: map reading_row samples |}
              mode oc)
  = Ok (baseline_frame (map (fun s => fst (fst s)) kept)
                       (map (fun s => snd (fst s)) kept)
                       (map snd kept)).
Proof.
  intros Hw Hnan kept. subst kept.
  assert (W : forall c, (c < 3)%nat -> (c <? w)%nat = true)
    by (intros c Hc; apply Nat.ltb_lt; lia).
  assert (N0 : forall s, reading_no_nan s = true
                         -> is_nan (fst (fst s)) = false).
  { intros [[a b] c]; cbn. destruct (is_nan a); [discriminate | reflexivity]. }
  assert (N1 : forall s, reading_no_nan s = true
                         -> is_nan (snd (fst s)) = false).
  { intros [[a b] c]; cbn.
    destruct (is_nan a), (is_nan b); try discriminate; reflexivity. }
  assert (N2 : forall s, reading_no_nan s = true -> is_nan (snd s) = false).
  { intros [[a b] c]; cbn.
    destruct (is_nan a), (is_nan b), (is_nan c); try discriminate;
      reflexivity. }
  unfold read_uploaded_excel, iloc_column, loc_column. cbn [width].
  rewrite !W by lia. cbn [rbind].
  rewrite (column_cells_readings w row0 samples 0 (fun s => fst (fst s)))
    by (intros [[a b] c]; reflexivity).
  rewrite (column_cells_readings w row0 samples 1 (fun s => snd (fst s)))
    by (intros [[a b] c]; reflexivity).
  rewrite (column_cells_readings w row0 samples 2 snd)
    by (intros [[a b] c]; reflexivity).
  destruct mode.
  - specialize (Hnan eq_refl).
    pose proof (fun f Hf => dropna_values (map f samples) 0
                              (readings_no_nan samples f Hf Hnan)) as D.
    cbn [repeat] in D. setoid_rewrite app_nil_r in D.
    rewrite !D by assumption.
    rewrite !astype_float_values. cbn [rbind frame_of].
    rewrite !length_map, !Nat.min_id, <- !(length_map (fun s => fst (fst s))).
    rewrite firstn_all.
    rewrite (length_map (fun s => fst (fst s))),
      <- (length_map (fun s => snd (fst s))), firstn_all.
    rewrite (length_map (fun s => snd (fst s))),
      <- (length_map snd), firstn_all.
    reflexivity.
  - rewrite !firstn_map, !astype_float_values. reflexivity.
Qed.

End ReaderFacts.

Lemma width_ltb (g : grid) (c : nat) :
  (3 <= width g)%nat -> (c < 3)%nat -> (c <? width g)%nat = true.
Proof. intros. apply Nat.ltb_lt. lia. Qed.

Lemma fixed_range_length (g : grid) (c : nat) :
  List.length (fixed_range g c) = Nat.min 5 (List.length (rows g) - 1).
Proof.
  unfold fixed_range, column_cells.
  rewrite length_firstn, length_skipn, length_map. reflexivity.
Qed.

Lemma iat_out_of_range (g : grid) (r c : Z) :
  Z.of_nat (List.length (rows g)) <= r \/ Z.of_nat (width g) <= c ->
  iat g r c = Raise IndexError.
Proof.
  intros H. unfold iat.
  destruct ((- Z.of_nat (List.length (rows g)) <=? r)
            && (r <? Z.of_nat (List.length (rows g)))
            && (- Z.of_nat (width g) <=? c)
            && (c <? Z.of_nat (width g))) eqn:E; [| reflexivity].
  apply andb_true_iff in E. destruct E as [E E4].
  apply andb_true_iff in E. destruct E as [E E3].
  apply andb_true_iff in E. destruct E as [E1 E2].
  apply Z.ltb_lt in E2, E4. lia.
Qed.

Lemma iat_in_range (g : grid) (r c : Z) :
  0 <= r < Z.of_nat (List.length (rows g)) ->
  0 <= c < Z.of_nat (width g) ->
  iat g r c = Ok (cell_at g (Z.to_nat r) (Z.to_nat c)).
Proof.
  intros Hr Hc. unfold iat.
  assert (E : (- Z.of_nat (List.length (rows g)) <=? r)
              && (r <? Z.of_nat (List.length (rows g)))
              && (- Z.of_nat (width g) <=? c)
              && (c <? Z.of_nat (width g)) = true).
  { repeat (apply andb_true_iff; split);
      first [apply Z.leb_le | apply Z.ltb_lt]; lia. }
  rewrite E. rewrite !Z.mod_small by lia. reflexivity.
Qed.

(** What auto-detect mode does with a blank cell above a number: the
    blank is skipped and the numbers below it move up (the flow 13 of
    row 4 joins the head and power of row 3). *)
Lemma auto_detect_skips_interior_blank :
  frame_of (read_uploaded_excel Sample2.py_float Sample.with_blank true None)
  = Ok (baseline_frame (map of_Z [10; 11; 13; 14])
                       (map of_Z [20; 21; 22; 23])
                       (map of_Z [30; 31; 32; 33])).
Proof. reflexivity. Qed.

Lemma upper_nonempty (s : list ascii) :
  (List.length s <= List.length (Py.upper s))%nat.
Proof.
  unfold Py.upper. induction s as [| c s IH]; cbn [flat_map List.length].
  - apply Nat.le_refl.
  - rewrite length_app.
    assert (1 <= List.length (Py.upper_char c))%nat.
    { unfold Py.upper_char.
      repeat match goal with
             | |- context [if ?b then _ else _] => destruct b
             end; cbn; lia. }
    cbn. lia.
Qed.

(** ** The engines of the three variants *)

Section VariantRuns.

Variable libm_pow : float -> float -> float.
Variable float_repr : float -> string.

Local Open Scope string_scope.
Local Open Scope list_scope.

Local Abbreviation derived_ := (derived libm_pow float_repr).
Local Abbreviation final_table_ := (final_table libm_pow float_repr).
Local Abbreviation pow_ok_ := (pow_ok libm_pow).
Local Abbreviation engine_ := (engine libm_pow float_repr).

Lemma engine_run (v : variant) (h : heap) df t D_orig new_dias fl hd pw :
  nth_error h df = Some t ->
  getitem t (flow_label v) = Ok fl ->
  getitem t (head_label v) = Ok hd ->
  getitem t (power_label v) = Ok pw ->
  is_zero D_orig = false ->
  forallb (pow_ok_ D_orig) new_dias = true ->
  engine_ v df D_orig new_dias h
  = (Ok (List.length h),
     h ++ [final_table_ (has_efficiency v) D_orig fl hd pw new_dias t]).
Proof.
  destruct v; cbn [engine flow_label head_label power_label has_efficiency];
    intros; first [ apply apply_affinity_run | apply apply_affinity3_run ];
    assumption.
Qed.

Lemma engine_frame (v : variant) (h : heap) df t D_orig new_dias :
  nth_error h df = Some t ->
  exists r t',
    engine_ v df D_orig new_dias h = (r, h ++ [t'])
    /\ (forall out, r = Ok out -> out = List.length h)
    /\ (forall k, is_derived k = false -> getitem t' k = getitem t k).
Proof.
  destruct v; cbn [engine]; intros;
    first [ apply apply_affinity_frame | apply apply_affinity3_frame ];
    assumption.
Qed.

Lemma base_labels_not_derived (v : variant) :
  is_derived (flow_label v) = false
  /\ is_derived (head_label v) = false
  /\ is_derived (power_label v) = false.
Proof. destruct v; repeat split; reflexivity. Qed.

(** The values under a label of the group of [D] do not depend on the
    table the group is written to. *)
Lemma getitem_derived_fixed with_eff D_orig fl hd pw D t1 t2 k :
  In k (group_labels with_eff (float_repr D)) ->
  getitem (set_all t1 (derived_ with_eff D_orig fl hd pw D)) k
  = getitem (set_all t2 (derived_ with_eff D_orig fl hd pw D)) k.
Proof.
  intros Hk. unfold group_labels in Hk. apply in_app_or in Hk.
  destruct Hk as [Hk | Hk].
  - destruct Hk as [<- | [<- | [<- | []]]].
    + rewrite !getitem_derived_flow. reflexivity.
    + rewrite !getitem_derived_head. reflexivity.
    + rewrite !getitem_derived_power. reflexivity.
  - destruct with_eff; [| destruct Hk]. destruct Hk as [<- | []].
    rewrite !getitem_derived_eff. reflexivity.
Qed.

(** The group under the text of a target of the list was written for
    a target of the list that has this text (the last one). *)
Lemma getitem_final_some_group with_eff D_orig fl hd pw l t D k :
  In D l -> In k (group_labels with_eff (float_repr D)) ->
  exists D', In D' l /\ float_repr D' = float_repr D
             /\ getitem (final_table_ with_eff D_orig fl hd pw l t) k
                = getitem (set_all t (derived_ with_eff D_orig fl hd pw D')) k.
Proof.
  unfold final_table. revert D k.
  induction l as [| Dn l IH] using rev_ind; intros D k HD Hk.
  - destruct HD.
  - rewrite fold_left_app. cbn [fold_left].
    destruct (string_dec (float_repr Dn) (float_repr D)) as [E | NE].
    + exists Dn. split; [apply in_or_app; right; left; reflexivity |].
      split; [exact E |].
      apply getitem_derived_fixed. rewrite E. exact Hk.
    + apply in_app_or in HD. destruct HD as [HD | [-> | []]];
        [| contradiction NE; reflexivity].
      destruct (IH D k HD Hk) as (D' & HD' & E' & G).
      exists D'. split; [apply in_or_app; left; exact HD' |].
      split; [exact E' |].
      rewrite (getitem_derived_skip _ _ _ _ _ _ _ D) by assumption.
      exact G.
Qed.

End VariantRuns.

(** ** Facts on columns of numbers *)

Lemma ltb_zero_nonzero (x : float) : ltb zero x = true -> is_zero x = false.
Proof. destruct x as [s | s | | s m e]; try reflexivity. destruct s; discriminate. Qed.

Lemma nth_error_combine {A B : Type} (a : list A) (b : list B) i x y :
  nth_error a i = Some x -> nth_error b i = Some y ->
  nth_error (combine a b) i = Some (x, y).
Proof.
  revert b i. induction a as [| a0 a IH]; intros b i Ha Hb.
  - destruct i; discriminate.
  - destruct b as [| b0 b]; [destruct i; discriminate |].
    destruct i as [| i]; cbn in *.
    + congruence.
    + apply IH; assumption.
Qed.

Lemma efficiency_nth (flow head power : Series) i f h p :
  nth_error flow i = Some f -> nth_error head i = Some h ->
  nth_error power i = Some p ->
  nth_error (efficiency flow head power) i
  = Some (mul (div (mul (mul eff_const f) h) p) hundred).
Proof.
  intros Hf Hh Hp.
  unfold efficiency, series_mul_scalar, series_div, series_mul,
    scalar_mul_series.
  apply map_nth_error with (f := fun x => mul x hundred).
  apply map_nth_error with (f := fun xy => div (fst xy) (snd xy))
                           (d := (mul (mul eff_const f) h, p)).
  apply nth_error_combine; [| exact Hp].
  apply map_nth_error with (f := fun xy => mul (fst xy) (snd xy))
                           (d := (mul eff_const f, h)).
  apply nth_error_combine; [| exact Hh].
  apply map_nth_error with (f := fun x => mul eff_const x). exact Hf.
Qed.

(** Dividing by a power that is zero, or a zero scaled by anything,
    never gives a finite efficiency. *)
Lemma efficiency_not_finite (x p r : float) :
  is_zero p = true ->
  is_finite (mul (div x p) hundred) = false
  /\ is_finite (mul (div x (mul p r)) hundred) = false.
Proof.
  intros Hp. destruct p as [sp | | |]; try discriminate.
  split.
  - destruct x as [s | s | | s m e]; destruct sp; try destruct s; reflexivity.
  - destruct r as [sr | sr | | sr mr er];
      destruct x as [s | s | | s m e];
      destruct sp; try destruct sr; try destruct s; reflexivity.
Qed.

Lemma series_mul_one (s : Series) :
  finite_values s = true -> series_mul_scalar s one = s.
Proof.
  unfold finite_values, series_mul_scalar.
  induction s as [| x s IH]; cbn; intros H.
  - reflexivity.
  - apply andb_true_iff in H. destruct H as [Hx Hs].
    apply andb_true_iff in Hx. destruct Hx as [_ Hv].
    rewrite mul_one_r by exact Hv. rewrite IH by exact Hs. reflexivity.
Qed.

(** Python's power raises where the square no longer fits a float: the
    engine has no output for such a ratio. *)
Lemma float_pow_overflow :
  float_pow Sample.pow (of_Z (10 ^ 200)) 2 = Raise OverflowError
  /\ pow_ok Sample.pow (of_Z 1) (of_Z (10 ^ 200)) = false.
Proof. split; vm_compute; reflexivity. Qed.

(** In Python, [1.0 ** n] is [1.0] whatever the C library does. *)
Lemma float_pow_one (libm_pow : float -> float -> float) (n : positive) :
  float_pow libm_pow one n = Ok one.
Proof. unfold float_pow, Py.float_pow. cbn. destruct (Z.odd (Zpos n)); reflexivity. Qed.

(** ** Facts on addresses and decimal numbers *)

Lemma digits_are_digits (d : Decimal.uint) :
  forallb (fun c => Py.between 48 57 (Py.ord c))
          (list_ascii_of_string (NilEmpty.string_of_uint d)) = true.
Proof. induction d; cbn; auto. Qed.

Lemma digits_acc (d : Decimal.uint) (acc : positive) :
  fold_left digit_step (list_ascii_of_string (NilEmpty.string_of_uint d))
            (Zpos acc)
  = Zpos (Pos.of_uint_acc d acc).
Proof.
  revert acc. induction d; intros acc; cbn [NilEmpty.string_of_uint
    list_ascii_of_string fold_left Pos.of_uint_acc];
    try reflexivity;
    match goal with
    | |- fold_left _ _ ?z = _ =>
        match goal with
        | |- _ = Zpos (Pos.of_uint_acc _ ?q) =>
            replace z with (Zpos q)
              by (unfold digit_step;
                  rewrite ?Pos2Z.inj_add, ?Pos2Z.inj_mul;
                  match goal with
                  | |- context [Py.ord ?c] =>
                      let v := eval vm_compute in (Py.ord c) in
                      change (Py.ord c) with v
                  end; lia)
        end
    end; apply IHd.
Qed.

Lemma digits_value (d : Decimal.uint) :
  fold_left digit_step (list_ascii_of_string (NilEmpty.string_of_uint d)) 0
  = Z.of_N (Pos.of_uint d).
Proof.
  induction d; cbn [NilEmpty.string_of_uint list_ascii_of_string fold_left
                    Pos.of_uint]; try reflexivity;
    try (change (digit_step 0 _) with 0; exact IHd);
    match goal with
    | |- fold_left _ _ ?z = Z.of_N (Npos (Pos.of_uint_acc _ ?q)) =>
        change z with (Zpos q)
    end; cbn [Z.of_N]; apply digits_acc.
Qed.

(** [int] reads back the decimal text of a positive number. *)
Lemma int_of_digits_to_uint (p : positive) :
  (List.length (list_ascii_of_string
                  (NilEmpty.string_of_uint (Pos.to_uint p)))
   <= Py.int_max_str_digits)%nat ->
  Py.int_of_digits
    (list_ascii_of_string (NilEmpty.string_of_uint (Pos.to_uint p)))
  = Ok (Zpos p).
Proof.
  intros Hlen. unfold Py.int_of_digits.
  pose proof (digits_value (Pos.to_uint p)) as Hv.
  rewrite DecimalPos.Unsigned.of_to in Hv. cbn [Z.of_N] in Hv.
  destruct (list_ascii_of_string (NilEmpty.string_of_uint (Pos.to_uint p)))
    as [| c s] eqn:E.
  - cbn in Hv. discriminate Hv.
  - pose proof (digits_are_digits (Pos.to_uint p)) as Hdig.
    rewrite E in Hdig. rewrite Hdig.
    apply Nat.leb_le in Hlen. rewrite Hlen.
    cbn [andb]. f_equal. exact Hv.
Qed.

Lemma string_length_chars (s : string) :
  List.length (list_ascii_of_string s) = String.length s.
Proof. induction s as [| c s IH]; cbn; [reflexivity | rewrite IH; reflexivity]. Qed.

Lemma str_of_int_pos (p : positive) :
  Py.str_of_int (Zpos p) = NilEmpty.string_of_uint (Pos.to_uint p).
Proof.
  unfold Py.str_of_int. cbn.
  destruct (Pos.to_uint p) eqn:E; try reflexivity.
  pose proof (DecimalPos.Unsigned.of_to p) as H. rewrite E in H.
  discriminate H.
Qed.

Lemma filter_digits_id (s : list ascii) :
  forallb (fun c => Py.between 48 57 (Py.ord c)) s = true ->
  filter Py.isdigit s = s /\ filter Py.isalpha s = [].
Proof.
  induction s as [| c s IH]; cbn; intros H; [split; reflexivity |].
  apply andb_true_iff in H. destruct H as [Hc Hs].
  destruct (IH Hs) as [I1 I2].
  assert (Hd : Py.isdigit c = true) by (unfold Py.isdigit; rewrite Hc; reflexivity).
  assert (Ha : Py.isalpha c = false).
  { unfold Py.isalpha, Py.between in *.
    apply andb_true_iff in Hc. destruct Hc as [H1 H2].
    apply Z.leb_le in H1, H2.
    repeat (apply orb_false_iff; split);
      try (apply andb_false_iff;
           first [left; apply Z.leb_gt; lia | right; apply Z.leb_gt; lia]);
      apply Z.eqb_neq; lia. }
  rewrite Hd, Ha, I1, I2. split; reflexivity.
Qed.

Lemma ord_column_letter (lower : bool) (col : Z) :
  0 <= col < 26 ->
  Py.ord (column_letter lower col) = (if lower then 97 else 65) + col.
Proof.
  intros H. unfold Py.ord, column_letter.
  rewrite N_ascii_embedding by (destruct lower; lia).
  destruct lower; lia.
Qed.

Lemma column_letter_class (lower : bool) (col : Z) :
  0 <= col < 26 ->
  Py.isalpha (column_letter lower col) = true
  /\ Py.isdigit (column_letter lower col) = false
  /\ Py.upper_char (column_letter lower col) = [65 + col].
Proof.
  intros H. unfold Py.isalpha, Py.isdigit, Py.upper_char.
  rewrite ord_column_letter by exact H.
  unfold Py.between.
  destruct lower.
  - replace (65 <=? 97 + col) with true by (symmetry; apply Z.leb_le; lia).
    replace (97 + col <=? 90) with false by (symmetry; apply Z.leb_gt; lia).
    replace (97 <=? 97 + col) with true by (symmetry; apply Z.leb_le; lia).
    replace (97 + col <=? 122) with true by (symmetry; apply Z.leb_le; lia).
    replace (48 <=? 97 + col) with true by (symmetry; apply Z.leb_le; lia).
    replace (97 + col <=? 57) with false by (symmetry; apply Z.leb_gt; lia).
    replace (97 + col =? 178) with false by (symmetry; apply Z.eqb_neq; lia).
    replace (97 + col =? 179) with false by (symmetry; apply Z.eqb_neq; lia).
    replace (97 + col =? 185) with false by (symmetry; apply Z.eqb_neq; lia).
    cbn [andb orb].
    split; [reflexivity | split; [reflexivity | f_equal; lia]].
  - replace (65 <=? 65 + col) with true by (symmetry; apply Z.leb_le; lia).
    replace (65 + col <=? 90) with true by (symmetry; apply Z.leb_le; lia).
    replace (97 <=? 65 + col) with false by (symmetry; apply Z.leb_gt; lia).
    replace (48 <=? 65 + col) with true by (symmetry; apply Z.leb_le; lia).
    replace (65 + col <=? 57) with false by (symmetry; apply Z.leb_gt; lia).
    replace (65 + col =? 178) with false by (symmetry; apply Z.eqb_neq; lia).
    replace (65 + col =? 179) with false by (symmetry; apply Z.eqb_neq; lia).
    replace (65 + col =? 185) with false by (symmetry; apply Z.eqb_neq; lia).
    replace (65 + col =? 181) with false by (symmetry; apply Z.eqb_neq; lia).
    replace (65 + col =? 223) with false by (symmetry; apply Z.eqb_neq; lia).
    replace (65 + col =? 255) with false by (symmetry; apply Z.eqb_neq; lia).
    replace (224 <=? 65 + col) with false by (symmetry; apply Z.leb_gt; lia).
    replace (248 <=? 65 + col) with false by (symmetry; apply Z.leb_gt; lia).
    cbn [andb orb].
    split; [reflexivity | split; [reflexivity | f_equal; lia]].
Qed.

(** The position of an address made of a column letter and the text of
    a row number. *)
Lemma cell_position_letter_digits (lower : bool) (col n : Z) (ds : list ascii) :
  0 <= col < 26 ->
  forallb (fun c => Py.between 48 57 (Py.ord c)) ds = true ->
  Py.int_of_digits ds = Ok n ->
  cell_position (String (column_letter lower col) (string_of_list_ascii ds))
  = Ok (n - 1, col).
Proof.
  intros Hc Hd Hn. unfold cell_position.
  cbn [list_ascii_of_string]. rewrite list_ascii_of_string_of_list_ascii.
  destruct (column_letter_class lower col Hc) as (Ha & Hnd & Hu).
  destruct (filter_digits_id ds Hd) as (Fd & Fa).
  cbn [filter]. rewrite Ha, Hnd, Fd, Fa, Hn. cbn [rbind].
  unfold Py.upper. cbn [flat_map]. rewrite Hu. cbn [app Py.ord_str rbind].
  f_equal. f_equal. change (Py.ord "A") with 65. lia.
Qed.

(** ** Facts on the shape of frames *)

Lemma map_result_length {A B : Type} (f : A -> result B) (l : list A) bs :
  map_result f l = Ok bs -> List.length bs = List.length l.
Proof.
  revert bs. induction l as [| a l IH]; intros bs H; cbn in H.
  - injection H as <-. reflexivity.
  - destruct (f a); [| discriminate].
    destruct (map_result f l); [| discriminate].
    injection H as <-. cbn. f_equal. apply IH. reflexivity.
Qed.

Lemma map_result_in {A B : Type} (f : A -> result B) (l : list A) bs b :
  map_result f l = Ok bs -> In b bs -> exists a, In a l /\ f a = Ok b.
Proof.
  revert bs. induction l as [| a l IH]; intros bs H Hb; cbn in H.
  - injection H as <-. contradiction.
  - destruct (f a) as [y |] eqn:E; [| discriminate].
    destruct (map_result f l) as [ys |]; [| discriminate].
    injection H as <-. destruct Hb as [<- | Hb].
    + exists a. split; [left; reflexivity | exact E].
    + destruct (IH ys eq_refl Hb) as (a' & Ha & Ea).
      exists a'. split; [right; exact Ha | exact Ea].
Qed.

Lemma map_result_nth {A B : Type} (f : A -> result B) (l : list A) bs i b :
  map_result f l = Ok bs -> nth_error bs i = Some b ->
  exists a, nth_error l i = Some a /\ f a = Ok b.
Proof.
  revert bs i. induction l as [| a l IH]; intros bs i H Hb; cbn in H.
  - injection H as <-. destruct i; discriminate.
  - destruct (f a) as [y |] eqn:E; [| discriminate].
    destruct (map_result f l) as [ys |]; [| discriminate].
    injection H as <-. destruct i as [| i]; cbn in Hb.
    + injection Hb as <-. exists a. split; [reflexivity | exact E].
    + apply (IH ys i eq_refl Hb).
Qed.

Lemma in_firstn {A : Type} (n : nat) (l : list A) (x : A) :
  In x (firstn n l) -> In x l.
Proof.
  revert n. induction l as [| a l IH]; intros [| n] H; cbn in *;
    try contradiction.
  destruct H as [-> | H]; [left; reflexivity | right; apply (IH n H)].
Qed.

Lemma nth_column_cells (g : grid) (c r : nat) (v : cell) :
  nth_error (column_cells g c) r = Some v ->
  (r < List.length (rows g))%nat /\ v = cell_at g r c.
Proof.
  unfold column_cells, cell_at. intros H.
  assert (Hr : (r < List.length (rows g))%nat).
  { rewrite <- (length_map (fun row => nth c row Blank)).
    apply nth_error_Some. rewrite H. discriminate. }
  split; [exact Hr |].
  rewrite nth_error_map in H.
  destruct (nth_error (rows g) r) as [row |] eqn:E; [| discriminate].
  injection H as <-. rewrite (nth_error_nth _ _ [] E). reflexivity.
Qed.

Lemma in_column_cells (g : grid) (c : nat) (v : cell) :
  In v (column_cells g c) ->
  exists r, (r < List.length (rows g))%nat /\ v = cell_at g r c.
Proof.
  intros H. apply In_nth_error in H. destruct H as (r & H).
  exists r. apply (nth_column_cells g c r v H).
Qed.

Lemma nth_below_first (g : grid) (c i : nat) (v : cell) :
  nth_error (skipn 1 (column_cells g c)) i = Some v ->
  (S i < List.length (rows g))%nat /\ v = cell_at g (S i) c.
Proof.
  intros H. apply (nth_column_cells g c (S i) v).
  destruct (column_cells g c) as [| v0 l]; [destruct i; discriminate |].
  exact H.
Qed.

Lemma in_below_first (g : grid) (c : nat) (v : cell) :
  In v (skipn 1 (column_cells g c)) ->
  exists r, (1 <= r < List.length (rows g))%nat /\ v = cell_at g r c.
Proof.
  intros H. apply In_nth_error in H. destruct H as (i & H).
  destruct (nth_below_first g c i v H) as [Hr Hv].
  exists (S i). split; [lia | exact Hv].
Qed.

Section ReaderShapes.

Variable py_float : string -> result float.

(** What [dropna().astype(float)] returns: the floats of cells that are
    not missing. *)
Lemma astype_dropna (s : list cell) (xs : Series) :
  astype_float py_float (dropna s) = Ok xs ->
  (List.length xs <= List.length s)%nat
  /\ forall x, In x xs ->
               exists v, In v s /\ isna v = false
                         /\ to_float py_float v = Ok x.
Proof.
  intros H. split.
  - apply map_result_length in H. rewrite H. unfold dropna.
    apply filter_length_le.
  - intros x Hx.
    destruct (map_result_in _ _ _ _ H Hx) as (v & Hv & Ev).
    unfold dropna in Hv. apply filter_In in Hv. destruct Hv as [Hv Hn].
    exists v. split; [exact Hv |]. split; [| exact Ev].
    apply negb_true_iff. exact Hn.
Qed.

(** A value that is NaN though its cell is not missing is what [float]
    read in a text. *)
Lemma nan_from_text (v : cell) (x : float) :
  isna v = false -> to_float py_float v = Ok x -> is_nan x = true ->
  exists t, v = Text t /\ py_float t = Ok x.
Proof.
  destruct v as [| y | t |]; cbn; intros Hn Hv Hx; try discriminate.
  - injection Hv as <-. congruence.
  - exists t. split; [reflexivity | exact Hv].
Qed.

End ReaderShapes.

Lemma efficiency_length (flow head power : Series) :
  List.length (efficiency flow head power)
  = Nat.min (Nat.min (List.length flow) (List.length head))
            (List.length power).
Proof.
  unfold efficiency, series_mul_scalar, series_div, series_mul,
    scalar_mul_series.
  repeat (rewrite length_map || rewrite length_combine). reflexivity.
Qed.

Lemma column_cells_length (g : grid) (c : nat) :
  List.length (column_cells g c) = List.length (rows g).
Proof. unfold column_cells. apply length_map. Qed.

Lemma getitem_rectangular (n : nat) (df : DataFrame) k v :
  rectangular n df -> getitem df k = Ok v -> List.length v = n.
Proof.
  unfold rectangular. induction df as [| [k' v'] df IH]; cbn; intros R H.
  - discriminate.
  - apply Forall_cons_iff in R; destruct R as [Rh Rt]. cbn in Rh.
    destruct (String.eqb k' k); [injection H as <-; exact Rh |].
    apply IH; assumption.
Qed.

Lemma setitem_rectangular (n : nat) (df : DataFrame) k v :
  rectangular n df -> List.length v = n -> rectangular n (setitem df k v).
Proof.
  unfold rectangular. induction df as [| [k' v'] df IH]; cbn; intros R H.
  - repeat constructor. exact H.
  - apply Forall_cons_iff in R; destruct R as [Rh Rt].
    destruct (String.eqb k' k).
    + constructor; [exact H | exact Rt].
    + constructor; [exact Rh | apply IH; assumption].
Qed.

Lemma set_all_rectangular (n : nat) (g : list (string * Series)) df :
  rectangular n df -> rectangular n g -> rectangular n (set_all df g).
Proof.
  unfold set_all. revert df.
  induction g as [| [k v] g IH]; intros df R G; cbn.
  - exact R.
  - apply Forall_cons_iff in G; destruct G as [Gh Gt].
    apply IH; [| exact Gt]. apply setitem_rectangular; assumption.
Qed.

(** ** How the engines fail *)

Lemma float_pow_raises (libm_pow : float -> float -> float) x n e :
  float_pow libm_pow x n = Raise e -> e = OverflowError.
Proof.
  unfold float_pow, Py.float_pow.
  repeat match goal with
         | |- context [if ?b then _ else _] => destruct b
         end; intros H; congruence.
Qed.

Lemma le_zero_nonzero (x : float) : le_zero x = false -> is_zero x = false.
Proof.
  destruct x as [s | s | | s m e]; try reflexivity. destruct s; discriminate.
Qed.

Section Outcomes.

Variable libm_pow : float -> float -> float.
Variable float_repr : float -> string.

Local Open Scope string_scope.
Local Open Scope list_scope.

Local Abbreviation derived_ := (derived libm_pow float_repr).
Local Abbreviation final_table_ := (final_table libm_pow float_repr).
Local Abbreviation pow_ok_ := (pow_ok libm_pow).

(** A loop whose body writes the group of its target, or raises
    [OverflowError] when a power of the ratio does not exist. *)
Lemma loop_outcome (h : heap) (with_eff : bool) (D_orig : float)
      (fl hd pw : Series) (base : DataFrame -> Prop)
      (body : float -> py unit) :
  (forall t0 D, base t0 ->
                base (set_all t0 (derived_ with_eff D_orig fl hd pw D))) ->
  (forall t0 D, base t0 -> pow_ok_ D_orig D = true ->
                body D (h ++ [t0])
                = (Ok tt, h ++ [set_all t0 (derived_ with_eff D_orig fl hd pw D)])) ->
  (forall t0 D, base t0 -> pow_ok_ D_orig D = false ->
                exists t1, body D (h ++ [t0]) = (Raise OverflowError, h ++ [t1])) ->
  forall l t0, base t0 ->
    exists t',
      for_each l body (h ++ [t0])
      = (if forallb (pow_ok_ D_orig) l then Ok tt else Raise OverflowError,
         h ++ [t'])
      /\ (forallb (pow_ok_ D_orig) l = true ->
          t' = final_table_ with_eff D_orig fl hd pw l t0).
Proof.
  intros Hbase Hok Hbad.
  induction l as [| D l IH]; intros t0 Ht0.
  - exists t0. split; reflexivity.
  - cbn [for_each forallb]. unfold bind at 1.
    destruct (pow_ok_ D_orig D) eqn:ED.
    + rewrite (Hok t0 D Ht0 ED).
      destruct (IH _ (Hbase t0 D Ht0)) as (t' & E & F).
      exists t'. split; [exact E |]. intros Hl. rewrite (F Hl). reflexivity.
    + destruct (Hbad t0 D Ht0 ED) as (t1 & E1). rewrite E1.
      exists t1. split; [reflexivity | discriminate].
Qed.

Lemma pow_not_ok D_orig D :
  pow_ok_ D_orig D = false ->
  float_pow libm_pow (div D D_orig) 2 = Raise OverflowError
  \/ (exists r2, float_pow libm_pow (div D D_orig) 2 = Ok r2)
     /\ float_pow libm_pow (div D D_orig) 3 = Raise OverflowError.
Proof.
  unfold pow_ok. intros H.
  destruct (float_pow libm_pow (div D D_orig) 2) as [r2 | e] eqn:E2.
  - right. split; [eauto |].
    destruct (float_pow libm_pow (div D D_orig) 3) as [r3 | e] eqn:E3;
      [discriminate |].
    apply float_pow_raises in E3. subst e. reflexivity.
  - left. apply float_pow_raises in E2. subst e. reflexivity.
Qed.

(** [apply_affinity] of [app_streamlit.py] on a frame with the base
    columns and a divisor that is not zero: it returns exactly when no
    power overflows, and raises [OverflowError] otherwise. *)
Lemma apply_affinity_outcome (h : heap) df t D_orig new_dias fl hd pw :
  nth_error h df = Some t ->
  getitem t "Flow_orig" = Ok fl ->
  getitem t "Head_orig" = Ok hd ->
  getitem t "Power_orig_kW" = Ok pw ->
  is_zero D_orig = false ->
  exists t',
    apply_affinity libm_pow float_repr df D_orig new_dias h
    = (if forallb (pow_ok_ D_orig) new_dias then Ok (List.length h)
       else Raise OverflowError, h ++ [t'])
    /\ (forallb (pow_ok_ D_orig) new_dias = true ->
        t' = final_table_ false D_orig fl hd pw new_dias t).
Proof.
  intros Hnth Hfl Hhd Hpw Hz.
  unfold apply_affinity. unfold bind at 1. unfold df_copy. rewrite Hnth.
  match goal with |- context [for_each _ ?b] => set (body := b) end.
  pose (base := fun t0 : DataFrame =>
                  getitem t0 "Flow_orig" = Ok fl
                  /\ getitem t0 "Head_orig" = Ok hd
                  /\ getitem t0 "Power_orig_kW" = Ok pw).
  destruct (loop_outcome h false D_orig fl hd pw base body) with
    (l := new_dias) (t0 := t) as (t' & E & F).
  - intros t0 D (H1 & H2 & H3). unfold base.
    rewrite !getitem_derived_other by reflexivity. auto.
  - intros t0 D (H1 & H2 & H3) HD.
    destruct (pow_ok_values _ _ _ HD) as [E2 E3].
    subst body. cbv beta. cbv [bind lift Py.truediv].
    rewrite Hz. rewrite run_getitem, H1. rewrite run_setitem.
    rewrite run_getitem.
    rewrite getitem_setitem_other by tag_neq. rewrite H2.
    rewrite E2.
    rewrite run_setitem. rewrite run_getitem.
    rewrite !getitem_setitem_other by tag_neq. rewrite H3.
    rewrite E3. rewrite run_setitem. reflexivity.
  - intros t0 D (H1 & H2 & H3) HD.
    subst body. cbv beta. cbv [bind lift Py.truediv].
    rewrite Hz. rewrite run_getitem, H1. rewrite run_setitem.
    rewrite run_getitem.
    rewrite getitem_setitem_other by tag_neq. rewrite H2.
    destruct (pow_not_ok _ _ HD) as [E2 | [(r2 & E2) E3]]; rewrite E2.
    + eexists. reflexivity.
    + rewrite run_setitem. rewrite run_getitem.
      rewrite !getitem_setitem_other by tag_neq. rewrite H3.
      rewrite E3. eexists. reflexivity.
  - unfold base. auto.
  - exists t'. unfold bind. rewrite E.
    destruct (forallb (pow_ok_ D_orig) new_dias); split; auto.
Qed.

Lemma apply_affinity3_outcome (h : heap) df t D_orig new_dias fl hd pw :
  nth_error h df = Some t ->
  getitem t "Flow_input" = Ok fl ->
  getitem t "Head_m" = Ok hd ->
  getitem t "Power_input_kW" = Ok pw ->
  is_zero D_orig = false ->
  exists t',
    apply_affinity3 libm_pow float_repr df D_orig new_dias h
    = (if forallb (pow_ok_ D_orig) new_dias then Ok (List.length h)
       else Raise OverflowError, h ++ [t'])
    /\ (forallb (pow_ok_ D_orig) new_dias = true ->
        t' = final_table_ true D_orig fl hd pw new_dias t).
Proof.
  intros Hnth Hfl Hhd Hpw Hz.
  unfold apply_affinity3. unfold bind at 1. unfold df_copy. rewrite Hnth.
  match goal with |- context [for_each _ ?b] => set (body := b) end.
  pose (base := fun t0 : DataFrame =>
                  getitem t0 "Flow_input" = Ok fl
                  /\ getitem t0 "Head_m" = Ok hd
                  /\ getitem t0 "Power_input_kW" = Ok pw).
  destruct (loop_outcome h true D_orig fl hd pw base body) with
    (l := new_dias) (t0 := t) as (t' & E & F).
  - intros t0 D (H1 & H2 & H3). unfold base.
    rewrite !getitem_derived_other by reflexivity. auto.
  - intros t0 D (H1 & H2 & H3) HD.
    destruct (pow_ok_values _ _ _ HD) as [E2 E3].
    subst body. cbv beta. cbv [bind lift Py.truediv].
    rewrite Hz. rewrite run_getitem, H1. rewrite run_setitem.
    rewrite run_getitem.
    rewrite getitem_setitem_other by tag_neq. rewrite H2.
    rewrite E2.
    rewrite run_setitem. rewrite run_getitem.
    rewrite !getitem_setitem_other by tag_neq. rewrite H3.
    rewrite E3. rewrite run_setitem.
    rewrite run_getitem.
    rewrite !getitem_setitem_other by tag_neq.
    rewrite getitem_setitem_same.
    rewrite run_getitem.
    rewrite !getitem_setitem_other by tag_neq.
    rewrite getitem_setitem_same.
    rewrite run_getitem.
    rewrite getitem_setitem_same.
    rewrite run_setitem. reflexivity.
  - intros t0 D (H1 & H2 & H3) HD.
    subst body. cbv beta. cbv [bind lift Py.truediv].
    rewrite Hz. rewrite run_getitem, H1. rewrite run_setitem.
    rewrite run_getitem.
    rewrite getitem_setitem_other by tag_neq. rewrite H2.
    destruct (pow_not_ok _ _ HD) as [E2 | [(r2 & E2) E3]]; rewrite E2.
    + eexists. reflexivity.
    + rewrite run_setitem. rewrite run_getitem.
      rewrite !getitem_setitem_other by tag_neq. rewrite H3.
      rewrite E3. eexists. reflexivity.
  - unfold base. auto.
  - exists t'. unfold bind. rewrite E.
    destruct (forallb (pow_ok_ D_orig) new_dias); split; auto.
Qed.

Lemma engine_outcome_run (v : variant) (h : heap) df t D_orig new_dias fl hd pw :
  nth_error h df = Some t ->
  getitem t (flow_label v) = Ok fl ->
  getitem t (head_label v) = Ok hd ->
  getitem t (power_label v) = Ok pw ->
  is_zero D_orig = false ->
  exists t',
    engine libm_pow float_repr v df D_orig new_dias h
    = (if forallb (pow_ok_ D_orig) new_dias then Ok (List.length h)
       else Raise OverflowError, h ++ [t'])
    /\ (forallb (pow_ok_ D_orig) new_dias = true ->
        t' = final_table_ (has_efficiency v) D_orig fl hd pw new_dias t).
Proof.
  destruct v; cbn [engine flow_label head_label power_label has_efficiency];
    intros;
    first [ apply apply_affinity_outcome | apply apply_affinity3_outcome ];
    assumption.
Qed.

Lemma setitem_same (df : DataFrame) k v :
  getitem df k = Ok v -> setitem df k v = df.
Proof.
  induction df as [| [k' v'] df IH]; cbn; intros H; [discriminate |].
  destruct (String.eqb k' k) eqn:E.
  - injection H as ->. reflexivity.
  - rewrite IH by exact H. reflexivity.
Qed.

Lemma set_all_same (g : list (string * Series)) (df : DataFrame) :
  (forall kv, In kv g -> getitem df (fst kv) = Ok (snd kv)) ->
  set_all df g = df.
Proof.
  unfold set_all. induction g as [| [k v] g IH]; intros H; cbn.
  - reflexivity.
  - rewrite setitem_same by (apply (H (k, v)); left; reflexivity).
    apply IH. intros kv Hkv. apply H. right. exact Hkv.
Qed.

(** The group of [D], read back from a table it was written to. *)
Lemma getitem_derived_in with_eff D_orig fl hd pw D t kv :
  In kv (derived_ with_eff D_orig fl hd pw D) ->
  getitem (set_all t (derived_ with_eff D_orig fl hd pw D)) (fst kv)
  = Ok (snd kv).
Proof.
  intros Hin. unfold derived in Hin. apply in_app_or in Hin.
  destruct Hin as [Hin | Hin].
  - destruct Hin as [<- | [<- | [<- | []]]]; cbn [fst snd].
    + apply getitem_derived_flow.
    + apply getitem_derived_head.
    + apply getitem_derived_power.
  - destruct with_eff; [| destruct Hin]. destruct Hin as [<- | []].
    cbn [fst snd]. apply getitem_derived_eff.
Qed.

(** Writing once more the group of a target the loop has met leaves the
    table as it is. *)
Lemma final_table_repeat with_eff D_orig fl hd pw l t D :
  labels_distinct float_repr l -> In D l ->
  final_table_ with_eff D_orig fl hd pw (l ++ [D]) t
  = final_table_ with_eff D_orig fl hd pw l t.
Proof.
  intros Hd HD. unfold final_table. rewrite fold_left_app. cbn [fold_left].
  apply set_all_same. intros kv Hkv.
  fold (final_table_ with_eff D_orig fl hd pw l t).
  rewrite (getitem_final_group libm_pow float_repr with_eff D_orig fl hd pw
                               l t D) by
      (try assumption; rewrite <- derived_labels with
         (libm_pow := libm_pow) (D_orig := D_orig) (fl := fl) (hd := hd)
         (pw := pw); apply in_map; exact Hkv).
  apply getitem_derived_in. exact Hkv.
Qed.

Lemma final_table_rectangular with_eff D_orig fl hd pw l t n :
  rectangular n t ->
  List.length fl = n -> List.length hd = n -> List.length pw = n ->
  rectangular n (final_table_ with_eff D_orig fl hd pw l t).
Proof.
  intros R Lf Lh Lp. unfold final_table. revert t R.
  induction l as [| D l IH]; intros t R; cbn [fold_left]; [exact R |].
  apply IH. apply set_all_rectangular; [exact R |].
  unfold derived, rectangular, series_mul_scalar.
  destruct with_eff; repeat constructor; cbn [snd];
    rewrite ?efficiency_length, ?length_map; lia.
Qed.

End Outcomes.

(** ** More on the result assembly *)

Lemma substring_length (n : nat) (s : string) :
  (String.length (substring 0 n s) <= n)%nat.
Proof.
  revert s. induction n as [| n IH]; intros s.
  - destruct s; cbn; lia.
  - destruct s as [| c s]; cbn; [lia |]. specialize (IH s). lia.
Qed.

Lemma getitem_in_columns (df : DataFrame) k :
  In k (columns df) -> is_ok (getitem df k) = true.
Proof.
  induction df as [| [k1 v1] df IH]; cbn; intros H.
  - destruct H.
  - destruct (String.eqb k1 k) eqn:E; [reflexivity |].
    destruct H as [-> | H]; [rewrite String.eqb_refl in E; discriminate |].
    apply IH. exact H.
Qed.

Lemma getitem_in (df : DataFrame) k v : getitem df k = Ok v -> In (k, v) df.
Proof.
  induction df as [| [k1 v1] df IH]; cbn; intros H; [discriminate |].
  destruct (String.eqb k1 k) eqn:E.
  - apply String.eqb_eq in E. subst k1. injection H as ->. left. reflexivity.
  - right. apply IH. exact H.
Qed.

Lemma select_forall (P : string * Series -> Prop) (df : DataFrame) cols s :
  Forall P df -> select df cols = Ok s -> Forall P s.
Proof.
  intros HP. unfold select. revert s.
  induction cols as [| k cols IH]; intros s H; cbn in H.
  - injection H as <-. constructor.
  - destruct (getitem df k) as [v |] eqn:E; cbn in H; [| discriminate].
    destruct (map_result _ cols) as [s' |]; [| discriminate].
    injection H as <-. constructor; [| apply IH; reflexivity].
    rewrite Forall_forall in HP. apply HP. apply getitem_in. exact E.
Qed.

Lemma columns_df_head (n : nat) (df : DataFrame) :
  columns (df_head n df) = columns df.
Proof. unfold columns, df_head. rewrite map_map. reflexivity. Qed.

Lemma df_head_rows (n : nat) (df : DataFrame) :
  Forall (fun kv => (List.length (snd kv) <= n)%nat) (df_head n df).
Proof.
  unfold df_head. apply Forall_forall. intros kv H.
  apply in_map_iff in H. destruct H as (kv0 & <- & _). cbn.
  rewrite length_firstn. lia.
Qed.

(** The columns of one tag among the groups of a list of texts. *)
Lemma filter_groups (tag : string) (rs : list string) :
  In tag ["Flow_D"; "Head_D"; "Power_kW_D"]%string ->
  filter (PyStr.startswith tag) (flat_map (group_labels false) rs)
  = map (String.append tag) rs.
Proof.
  intros Ht. induction rs as [| r rs IH]; [reflexivity |].
  cbn [flat_map map]. rewrite filter_app, IH.
  unfold PyStr.startswith.
  destruct Ht as [<- | [<- | [<- | []]]]; cbn [group_labels app filter];
    rewrite prefix_append; cbn; reflexivity.
Qed.

Section Assembly2.

Variable libm_pow : float -> float -> float.
Variable float_repr : float -> string.
Variable np_round : Z -> float -> float.

Local Open Scope string_scope.
Local Open Scope list_scope.

Local Abbreviation final_table_ := (final_table libm_pow float_repr).
Local Abbreviation pow_ok_ := (pow_ok libm_pow).
Local Abbreviation sheet_table_ := (sheet_table libm_pow float_repr np_round).

(** The sheets of the per-diameter export, with their tables. *)
Lemma build_excel_bytes_sheets
      (h : heap) df_orig df_out t D_orig new_dias decimals fl hd pw :
  nth_error h df_orig = Some t ->
  getitem t "Flow_orig" = Ok fl ->
  getitem t "Head_orig" = Ok hd ->
  getitem t "Power_orig_kW" = Ok pw ->
  is_zero D_orig = false ->
  forallb (pow_ok_ D_orig) new_dias = true ->
  build_excel_bytes libm_pow float_repr np_round
                    df_orig df_out D_orig new_dias true decimals h
  = (Ok (("original", df_round np_round decimals t)
           :: map (fun D => (value_or "" (sheet_name float_repr D),
                             sheet_table_ decimals D_orig fl hd pw t D))
                  new_dias),
     (h ++ [df_round np_round decimals t])
       ++ map (sheet_table_ decimals D_orig fl hd pw t) new_dias).
Proof.
  intros Hnth Hfl Hhd Hpw Hz Hpow.
  unfold build_excel_bytes. unfold bind at 1. unfold df_round_new.
  rewrite (run_new _ _ t (fun t0 => Ok (df_round np_round decimals t0)) _
             Hnth eq_refl).
  unfold bind at 1. rewrite run_value.
  match goal with |- context [map_py ?b _] => set (body := b) end.
  assert (Hloop : forall l h0,
             nth_error h0 df_orig = Some t ->
             forallb (pow_ok_ D_orig) l = true ->
             map_py body l h0
             = (Ok (map (fun D => (value_or "" (sheet_name float_repr D),
                                   sheet_table_ decimals D_orig fl hd pw t D))
                        l),
                h0 ++ map (sheet_table_ decimals D_orig fl hd pw t) l)).
  { induction l as [| D l IH]; intros h0 H0 Hl.
    - cbn [map]. rewrite app_nil_r. reflexivity.
    - cbn [forallb] in Hl. apply andb_true_iff in Hl.
      destruct Hl as [HD Hl].
      destruct (pow_ok_values _ _ _ HD) as [E2 E3].
      pose proof (sheet_name_ok float_repr D) as Hname.
      destruct (sheet_name float_repr D) as [name |] eqn:En; [| discriminate].
      cbn [map_py map]. unfold bind at 1.
      assert (Hbody : body D h0
                      = (Ok (name, sheet_table_ decimals D_orig fl hd pw t D),
                         h0 ++ [sheet_table_ decimals D_orig fl hd pw t D])).
      { subst body. cbv beta. cbv [bind lift Py.truediv].
        rewrite Hz. unfold df_copy. rewrite H0.
        rewrite run_getitem, Hfl. rewrite run_setitem.
        rewrite run_getitem.
        rewrite getitem_setitem_other by tag_neq. rewrite Hhd.
        rewrite E2.
        rewrite run_setitem. rewrite run_getitem.
        rewrite !getitem_setitem_other by tag_neq. rewrite Hpw.
        rewrite E3. rewrite run_setitem. rewrite En.
        rewrite run_value. reflexivity. }
      rewrite Hbody.
      assert (H1 : nth_error (h0 ++ [sheet_table_ decimals D_orig fl hd pw t D])
                             df_orig = Some t).
      { rewrite nth_error_app1; [exact H0 |].
        apply nth_error_Some. rewrite H0. discriminate. }
      unfold bind at 1. rewrite (IH _ H1 Hl).
      rewrite En, <- app_assoc. reflexivity. }
  unfold bind at 1.
  rewrite (Hloop new_dias _
              (nth_error_keep h [df_round np_round decimals t] _ _ Hnth) Hpow). reflexivity.
Qed.

(** What the download step of [app_streamlit.py] does, on a frame with
    the base columns and a divisor that is not zero. *)
Lemma generate_outcome (h : heap) df t D_orig new_dias fl hd pw :
  nth_error h df = Some t ->
  getitem t "Flow_orig" = Ok fl ->
  getitem t "Head_orig" = Ok hd ->
  getitem t "Power_orig_kW" = Ok pw ->
  is_zero D_orig = false ->
  exists r h',
    generate libm_pow float_repr np_round df D_orig new_dias h = (r, h')
    /\ engine_outcome r
    /\ forall sheet, r = Ok sheet ->
         forallb (pow_ok_ D_orig) new_dias = true
         /\ columns sheet = wide_columns float_repr new_dias.
Proof.
  intros Hnth Hfl Hhd Hpw Hz.
  destruct (forallb (pow_ok_ D_orig) new_dias) eqn:Hpow.
  - destruct (generate_run libm_pow float_repr np_round h df t D_orig
                           new_dias fl hd pw Hnth Hfl Hhd Hpw Hz Hpow)
      as (sheet & h' & E & C).
    exists (Ok sheet), h'. split; [exact E |]. split; [exact I |].
    intros s [= <-]. split; [reflexivity | exact C].
  - destruct (apply_affinity_outcome libm_pow float_repr h df t D_orig
                                     new_dias fl hd pw Hnth Hfl Hhd Hpw Hz)
      as (t' & E & _).
    rewrite Hpow in E.
    exists (Raise OverflowError), (h ++ [t']).
    unfold generate. unfold bind at 1. rewrite E.
    split; [reflexivity |]. split; [exact I |]. intros s [=].
Qed.

End Assembly2.

(** ** Splitting, stripping and the list of target diameters *)

Lemma split_no_sep (sep : ascii) (p : list ascii) :
  ~ In sep p -> PyStr.split sep p = [p].
Proof.
  induction p as [| c p IH]; intros H; [reflexivity |].
  cbn [PyStr.split].
  destruct (Ascii.eqb_spec c sep) as [-> | _];
    [exfalso; apply H; left; reflexivity |].
  rewrite IH; [reflexivity | intros F; apply H; right; exact F].
Qed.

Lemma split_app (sep : ascii) (p s : list ascii) :
  ~ In sep p ->
  PyStr.split sep (p ++ sep :: s) = p :: PyStr.split sep s.
Proof.
  induction p as [| c p IH]; intros H.
  - cbn [app PyStr.split]. rewrite Ascii.eqb_refl. reflexivity.
  - cbn [app PyStr.split].
    destruct (Ascii.eqb_spec c sep) as [-> | _];
      [exfalso; apply H; left; reflexivity |].
    rewrite IH; [reflexivity | intros F; apply H; right; exact F].
Qed.

Lemma split_join (sep : ascii) (ps : list (list ascii)) :
  ps <> [] -> Forall (fun p => ~ In sep p) ps ->
  PyStr.split sep (PyStr.join sep ps) = ps.
Proof.
  induction ps as [| p ps IH]; intros Hne Hall; [contradiction |].
  apply Forall_cons_iff in Hall. destruct Hall as [Hp Hps].
  destruct ps as [| q ps].
  - cbn [PyStr.join]. apply split_no_sep, Hp.
  - change (PyStr.join sep (p :: q :: ps))
      with (p ++ sep :: PyStr.join sep (q :: ps)).
    rewrite split_app by exact Hp.
    rewrite IH; [reflexivity | discriminate | exact Hps].
Qed.

Lemma lstrip_spaces (l s : list ascii) :
  forallb PyStr.isspace l = true -> PyStr.lstrip (l ++ s) = PyStr.lstrip s.
Proof.
  induction l as [| c l IH]; intros H; [reflexivity |].
  cbn [forallb] in H. apply andb_prop in H. destruct H as [Hc Hl].
  cbn [app PyStr.lstrip]. rewrite Hc. apply IH, Hl.
Qed.

Lemma lstrip_length (s : list ascii) :
  (List.length (PyStr.lstrip s) <= List.length s)%nat.
Proof.
  induction s as [| c s IH]; cbn [PyStr.lstrip]; [apply Nat.le_refl |].
  destruct (PyStr.isspace c); cbn [List.length]; lia.
Qed.

Lemma lstrip_suffix (s : list ascii) : exists p, s = p ++ PyStr.lstrip s.
Proof.
  induction s as [| c s (p & IH)]; [exists []; reflexivity |].
  cbn [PyStr.lstrip]. destruct (PyStr.isspace c).
  - exists (c :: p). cbn [app]. f_equal. exact IH.
  - exists []. reflexivity.
Qed.

Lemma rstrip_length (s : list ascii) :
  (List.length (PyStr.rstrip s) <= List.length s)%nat.
Proof.
  unfold PyStr.rstrip. rewrite length_rev.
  rewrite <- (length_rev s). apply lstrip_length.
Qed.

Lemma strip_fixed (s : list ascii) :
  PyStr.strip s = s -> PyStr.lstrip s = s /\ PyStr.rstrip s = s.
Proof.
  intros H.
  assert (L : PyStr.lstrip s = s).
  { destruct (lstrip_suffix s) as (p & E).
    pose proof (rstrip_length (PyStr.lstrip s)) as R.
    unfold PyStr.strip in H. rewrite H in R.
    pose proof (lstrip_length s) as L.
    assert (Hp : List.length s
                 = (List.length p + List.length (PyStr.lstrip s))%nat)
      by (rewrite E at 1; apply length_app).
    destruct p as [| c p]; [symmetry; exact E |].
    cbn [List.length] in Hp. lia. }
  split; [exact L |].
  unfold PyStr.strip in H. rewrite L in H. exact H.
Qed.

Lemma lstrip_head (s r : list ascii) :
  s <> [] -> PyStr.lstrip s = s -> PyStr.lstrip (s ++ r) = s ++ r.
Proof.
  destruct s as [| c s]; intros Hne H; [contradiction |].
  cbn [PyStr.lstrip app] in *.
  destruct (PyStr.isspace c); [| reflexivity].
  exfalso. pose proof (lstrip_length s) as L. rewrite H in L.
  cbn [List.length] in L. lia.
Qed.

Lemma forallb_rev {A : Type} (f : A -> bool) (l : list A) :
  forallb f l = true -> forallb f (rev l) = true.
Proof.
  rewrite !forallb_forall. intros H x Hx. apply H, in_rev, Hx.
Qed.

Lemma rstrip_spaces (s r : list ascii) :
  forallb PyStr.isspace r = true -> PyStr.rstrip (s ++ r) = PyStr.rstrip s.
Proof.
  intros H. unfold PyStr.rstrip. rewrite rev_app_distr.
  rewrite lstrip_spaces by (apply forallb_rev, H). reflexivity.
Qed.

Lemma strip_padded (l s r : list ascii) :
  forallb PyStr.isspace l = true -> forallb PyStr.isspace r = true ->
  s <> [] -> PyStr.strip s = s ->
  PyStr.strip (l ++ s ++ r) = s.
Proof.
  intros Hl Hr Hne Hs. apply strip_fixed in Hs. destruct Hs as [L R].
  unfold PyStr.strip. rewrite lstrip_spaces by exact Hl.
  rewrite lstrip_head by assumption.
  rewrite rstrip_spaces by exact Hr. exact R.
Qed.

Lemma space_not_comma (l : list ascii) :
  forallb PyStr.isspace l = true -> ~ In ","%char l.
Proof.
  rewrite forallb_forall. intros H F. apply H in F. discriminate F.
Qed.

Lemma map_result_fails {A B : Type} (f : A -> result B) (l : list A) a e :
  In a l -> f a = Raise e -> exists e', map_result f l = Raise e'.
Proof.
  induction l as [| b l IH]; intros Hin Hf; [contradiction |].
  cbn [map_result]. destruct (f b) as [y | e0] eqn:E; [| eauto].
  destruct Hin as [-> | Hin]; [congruence |].
  destruct (IH Hin Hf) as (e' & ->). eauto.
Qed.

Lemma map_result_exn {A B : Type} (f : A -> result B) (l : list A) e :
  map_result f l = Raise e -> exists a, In a l /\ f a = Raise e.
Proof.
  induction l as [| b l IH]; cbn [map_result]; [discriminate |].
  destruct (f b) as [y | e0] eqn:E.
  - destruct (map_result f l) as [ys | e1]; [discriminate |].
    intros [= <-]. destruct (IH eq_refl) as (a & Ha & Hf).
    exists a. split; [right; exact Ha | exact Hf].
  - intros [= <-]. exists b. split; [left; reflexivity | exact E].
Qed.

Section Parse.

Variable float_repr : float -> string.
Variable py_float : string -> result float.

Lemma parse_pieces (ps : list (list ascii)) :
  Forall (fun p => ~ In ","%char p) ps ->
  parse_new_dias py_float (string_of_list_ascii (PyStr.join ","%char ps))
  = map_result (fun x => py_float (string_of_list_ascii (PyStr.strip x)))
               (filter (fun p => negb (is_blank p)) ps).
Proof.
  intros Hall.
  assert (Hne : ps = [] \/ ps <> [])
    by (destruct ps; [left; reflexivity | right; discriminate]).
  destruct Hne as [-> | Hne]; [reflexivity |].
  unfold parse_new_dias.
  rewrite list_ascii_of_string_of_list_ascii, split_join by assumption.
  f_equal. apply filter_ext. intros p. unfold is_blank.
  destruct (PyStr.strip p); reflexivity.
Qed.

Lemma parse_empty : parse_new_dias py_float EmptyString = Ok [].
Proof. reflexivity. Qed.

Lemma padded_no_comma (e : list ascii * float * list ascii) :
  well_padded e -> readable float_repr py_float (snd (fst e)) ->
  ~ In ","%char (padded float_repr e).
Proof.
  destruct e as [[l D] r]. cbn [fst snd well_padded padded].
  intros [Hl Hr] (_ & Hc & _ & _) F.
  apply in_app_or in F. destruct F as [F | F];
    [exact (space_not_comma l Hl F) |].
  apply in_app_or in F. destruct F as [F | F];
    [exact (Hc F) | exact (space_not_comma r Hr F)].
Qed.

Lemma padded_strip (e : list ascii * float * list ascii) :
  well_padded e -> readable float_repr py_float (snd (fst e)) ->
  PyStr.strip (padded float_repr e)
  = list_ascii_of_string (float_repr (snd (fst e)))
  /\ is_blank (padded float_repr e) = false.
Proof.
  destruct e as [[l D] r]. cbn [fst snd well_padded padded].
  intros [Hl Hr] (Hne & _ & Hs & _).
  assert (E : PyStr.strip (l ++ list_ascii_of_string (float_repr D) ++ r)
              = list_ascii_of_string (float_repr D))
    by (apply strip_padded; assumption).
  split; [exact E |]. unfold is_blank. rewrite E.
  destruct (list_ascii_of_string (float_repr D)); [contradiction | reflexivity].
Qed.

Lemma parse_raises_value (s : string) (e : exn) :
  (forall x e', py_float x = Raise e' -> e' = ValueError) ->
  parse_new_dias py_float s = Raise e -> e = ValueError.
Proof.
  intros Hv H. unfold parse_new_dias in H.
  apply map_result_exn in H. destruct H as (a & _ & H).
  apply (Hv _ _ H).
Qed.

End Parse.

(** ** The frames the main flows hand to the engine *)

(** What a successful read is made of: in each mode the three columns
    of floats, and the frame built from them. *)
Lemma read_frame_columns (py_float : string -> result float)
      (g : grid) (mode : bool) (oc : option string)
      (df : DataFrame) (v : option float) :
  read_uploaded_excel py_float g mode oc = Ok (df, v) ->
  v = read_orig_value py_float g oc
  /\ exists xs0 xs1 xs2,
      (forall c xs, In (c, xs) [(0%nat, xs0); (1%nat, xs1); (2%nat, xs2)] ->
         astype_float py_float
           (if mode then dropna (skipn 1 (column_cells g c))
            else firstn 5 (skipn 1 (column_cells g c))) = Ok xs)
      /\ df = if mode
              then let n := Nat.min (List.length xs0)
                                    (Nat.min (List.length xs1)
                                             (List.length xs2)) in
                   baseline_frame (firstn n xs0) (firstn n xs1) (firstn n xs2)
              else baseline_frame xs0 xs1 xs2.
Proof.
  unfold read_uploaded_excel, iloc_column, loc_column. intros H.
  destruct mode.
  - destruct (0 <? width g)%nat; cbn [rbind] in H; [| discriminate H].
    destruct (astype_float py_float (dropna (skipn 1 (column_cells g 0))))
      as [xs0 |] eqn:E0; cbn [rbind] in H; [| discriminate H].
    destruct (1 <? width g)%nat; cbn [rbind] in H; [| discriminate H].
    destruct (astype_float py_float (dropna (skipn 1 (column_cells g 1))))
      as [xs1 |] eqn:E1; cbn [rbind] in H; [| discriminate H].
    destruct (2 <? width g)%nat; cbn [rbind] in H; [| discriminate H].
    destruct (astype_float py_float (dropna (skipn 1 (column_cells g 2))))
      as [xs2 |] eqn:E2; cbn [rbind] in H; [| discriminate H].
    injection H as <- <-. split; [reflexivity |].
    exists xs0, xs1, xs2. split; [| reflexivity].
    intros c xs [[= <- <-] | [[= <- <-] | [[= <- <-] | []]]]; assumption.
  - destruct (0 <? width g)%nat; cbn [rbind] in H; [| discriminate H].
    destruct (astype_float py_float (firstn 5 (skipn 1 (column_cells g 0))))
      as [xs0 |] eqn:E0; cbn [rbind] in H; [| discriminate H].
    destruct (1 <? width g)%nat; cbn [rbind] in H; [| discriminate H].
    destruct (astype_float py_float (firstn 5 (skipn 1 (column_cells g 1))))
      as [xs1 |] eqn:E1; cbn [rbind] in H; [| discriminate H].
    destruct (2 <? width g)%nat; cbn [rbind] in H; [| discriminate H].
    destruct (astype_float py_float (firstn 5 (skipn 1 (column_cells g 2))))
      as [xs2 |] eqn:E2; cbn [rbind] in H; [| discriminate H].
    injection H as <- <-. split; [reflexivity |].
    exists xs0, xs1, xs2. split; [| reflexivity].
    intros c xs [[= <- <-] | [[= <- <-] | [[= <- <-] | []]]]; assumption.
Qed.

Lemma read_frame_baseline (py_float : string -> result float)
      (g : grid) (mode : bool) (oc : option string)
      (df : DataFrame) (v : option float) :
  read_uploaded_excel py_float g mode oc = Ok (df, v) ->
  exists fl hd pw, df = baseline_frame fl hd pw.
Proof.
  intros H.
  destruct (read_frame_columns _ _ _ _ _ _ H)
    as (_ & xs0 & xs1 & xs2 & _ & ->).
  destruct mode; eauto.
Qed.

(** Every value of a frame the reader returns is the float of a cell of
    its column, in a row below the first. *)
Lemma read_frame_cells (py_float : string -> result float)
      (g : grid) (mode : bool) (oc : option string)
      (fl hd pw : Series) (v : option float) :
  read_uploaded_excel py_float g mode oc = Ok (baseline_frame fl hd pw, v) ->
  forall c col x,
    In (c, col) [(0%nat, fl); (1%nat, hd); (2%nat, pw)] -> In x col ->
    exists r, (1 <= r < List.length (rows g))%nat
              /\ (mode = true -> isna (cell_at g r c) = false)
              /\ to_float py_float (cell_at g r c) = Ok x.
Proof.
  intros H.
  destruct (read_frame_columns _ _ _ _ _ _ H)
    as (_ & xs0 & xs1 & xs2 & Hcols & Hdf).
  assert (Hin : forall c xs x,
             In (c, xs) [(0%nat, xs0); (1%nat, xs1); (2%nat, xs2)] ->
             In x xs ->
             exists r, (1 <= r < List.length (rows g))%nat
                       /\ (mode = true -> isna (cell_at g r c) = false)
                       /\ to_float py_float (cell_at g r c) = Ok x).
  { intros c xs x Hc Hx. pose proof (Hcols c xs Hc) as E.
    destruct mode.
    - destruct (astype_dropna py_float _ _ E) as [_ Hfrom].
      destruct (Hfrom x Hx) as (w & Hw & Hn & Ew).
      destruct (in_below_first g c w Hw) as (r & Hr & ->).
      exists r. auto.
    - destruct (map_result_in _ _ _ _ E Hx) as (w & Hw & Ew).
      apply in_firstn in Hw.
      destruct (in_below_first g c w Hw) as (r & Hr & ->).
      exists r. split; [exact Hr |]. split; [discriminate | exact Ew]. }
  intros c col x Hc Hx.
  destruct mode; injection Hdf as -> -> ->;
    destruct Hc as [[= <- <-] | [[= <- <-] | [[= <- <-] | []]]];
    try apply in_firstn in Hx;
    (eapply Hin; [| exact Hx]); cbn; auto.
Qed.

(** The same for the upload branch of [app_streamlit3.py], whose rows
    start at the first. *)
Lemma upload_branch_columns (py_float : string -> result float)
      (g : grid) (df : DataFrame) :
  upload_branch py_float g = Ok df ->
  exists xs0 xs1 xs2,
    (forall c xs, In (c, xs) [(0%nat, xs0); (1%nat, xs1); (2%nat, xs2)] ->
       astype_float py_float (dropna (column_cells g c)) = Ok xs)
    /\ let n := Nat.min (List.length xs0)
                        (Nat.min (List.length xs1) (List.length xs2)) in
       df = [("Flow_input"%string, firstn n xs0);
             ("Head_m"%string, firstn n xs1);
             ("Power_input_kW"%string, firstn n xs2);
             ("Efficiency_%"%string,
              efficiency (firstn n xs0) (firstn n xs1) (firstn n xs2))].
Proof.
  unfold upload_branch, iloc_column. intros H.
  destruct (0 <? width g)%nat; cbn [rbind] in H; [| discriminate H].
  destruct (astype_float py_float (dropna (column_cells g 0)))
    as [xs0 |] eqn:E0; cbn [rbind] in H; [| discriminate H].
  destruct (1 <? width g)%nat; cbn [rbind] in H; [| discriminate H].
  destruct (astype_float py_float (dropna (column_cells g 1)))
    as [xs1 |] eqn:E1; cbn [rbind] in H; [| discriminate H].
  destruct (2 <? width g)%nat; cbn [rbind] in H; [| discriminate H].
  destruct (astype_float py_float (dropna (column_cells g 2)))
    as [xs2 |] eqn:E2; cbn [rbind] in H; [| discriminate H].
  injection H as <-.
  exists xs0, xs1, xs2. split; [| reflexivity].
  intros c xs [[= <- <-] | [[= <- <-] | [[= <- <-] | []]]]; assumption.
Qed.

Lemma upload_branch_frame (py_float : string -> result float)
      (g : grid) (df : DataFrame) :
  upload_branch py_float g = Ok df ->
  exists fl hd pw eff,
    df = [("Flow_input"%string, fl); ("Head_m"%string, hd);
          ("Power_input_kW"%string, pw); ("Efficiency_%"%string, eff)].
Proof.
  intros H.
  destruct (upload_branch_columns _ _ _ H) as (xs0 & xs1 & xs2 & _ & ->).
  eauto 6.
Qed.

Lemma baseline3_frame (py_float : string -> result float)
      (i : inputs3) (df : DataFrame) :
  baseline3 py_float i = Some (Ok df) ->
  exists fl hd pw eff,
    df = [("Flow_input"%string, fl); ("Head_m"%string, hd);
          ("Power_input_kW"%string, pw); ("Efficiency_%"%string, eff)].
Proof.
  unfold baseline3. destruct (upload_mode i).
  - destruct (uploaded3 i) as [g |]; [| discriminate].
    intros [= H]. apply (upload_branch_frame py_float g df H).
  - destruct (submitted i); [| discriminate].
    intros [= <-]. unfold manual_branch. eauto 6.
Qed.

Lemma nth_error_before_last {A : Type} (h : list A) (t t' : A) :
  nth_error ((h ++ [t]) ++ [t']) (List.length h) = Some t.
Proof.
  rewrite nth_error_app1 by (rewrite length_app; cbn; lia).
  apply nth_error_last.
Qed.

Lemma py_float_sample_raises (s : string) (e : exn) :
  Sample2.py_float s = Raise e -> e = ValueError.
Proof.
  unfold Sample2.py_float.
  destruct (String.eqb _ _); [discriminate |].
  destruct (Sample2.split_point _) as [a [b |]];
    match goal with
    | |- context [Sample2.digits_value ?x] =>
        destruct (Sample2.digits_value x)
    end; congruence.
Qed.

Section Flows.

Variable libm_pow : float -> float -> float.
Variable float_repr : float -> string.
Variable np_round : Z -> float -> float.

Local Open Scope string_scope.
Local Open Scope list_scope.

Lemma build_excel_bytes_wide_run (h : heap) df_orig t D_orig new_dias decimals :
  build_excel_bytes libm_pow float_repr np_round
                    df_orig (List.length h) D_orig new_dias false decimals
                    (h ++ [t])
  = (Ok [("converted", df_round np_round decimals t)],
     (h ++ [t]) ++ [df_round np_round decimals t]).
Proof.
  unfold build_excel_bytes, df_round_new. unfold bind at 1.
  rewrite (run_new _ _ t (fun t0 => Ok (df_round np_round decimals t0)) _
             (nth_error_last _ _) eq_refl).
  unfold bind. rewrite run_value. reflexivity.
Qed.

Lemma build_excel_bytes3_run (h : heap) t decimals :
  build_excel_bytes3 np_round (List.length h) decimals (h ++ [t])
  = (Ok [("Results", df_round np_round decimals t)],
     (h ++ [t]) ++ [df_round np_round decimals t]).
Proof.
  unfold build_excel_bytes3, df_round_new. unfold bind at 1.
  rewrite (run_new _ _ t (fun t0 => Ok (df_round np_round decimals t0)) _
             (nth_error_last _ _) eq_refl).
  unfold bind. rewrite run_value. reflexivity.
Qed.

Lemma chart_series_run (h : heap) (t : DataFrame) (l : list float) :
  (forall D k, In D l -> In k (group_labels true (float_repr D)) ->
               is_ok (getitem t k) = true) ->
  exists charts,
    map_py (chart_series float_repr (List.length h)) l (h ++ [t])
    = (Ok charts, h ++ [t])
    /\ Forall2 (fun D c =>
                  let '(f, hd, e, p) := c in
                  getitem t ("Flow_D" ++ float_repr D)%string = Ok f
                  /\ getitem t ("Head_D" ++ float_repr D)%string = Ok hd
                  /\ getitem t ("Efficiency_D" ++ float_repr D)%string = Ok e
                  /\ getitem t ("Power_kW_D" ++ float_repr D)%string = Ok p)
               l charts.
Proof.
  induction l as [| D l IH]; intros Hall.
  - exists []. split; [reflexivity | constructor].
  - destruct IH as (charts & E & F);
      [intros D' k HD Hk; apply (Hall D' k); [right; exact HD | exact Hk] |].
    assert (Hk : forall k, In k (group_labels true (float_repr D)) ->
                           exists v, getitem t k = Ok v).
    { intros k Hin. pose proof (Hall D k (or_introl eq_refl) Hin) as H.
      destruct (getitem t k) as [v |]; [eauto | discriminate H]. }
    destruct (Hk ("Flow_D" ++ float_repr D)%string) as (f & Ef); [cbn; auto |].
    destruct (Hk ("Head_D" ++ float_repr D)%string) as (hd & Eh); [cbn; auto |].
    destruct (Hk ("Efficiency_D" ++ float_repr D)%string) as (e & Ee); [cbn; auto |].
    destruct (Hk ("Power_kW_D" ++ float_repr D)%string) as (p & Ep); [cbn; auto |].
    exists ((f, hd, e, p) :: charts). split.
    + cbn [map_py]. unfold bind at 1. unfold chart_series at 1.
      unfold bind. rewrite !run_getitem, Ef, Eh, Ee, Ep.
      unfold bind in E. cbn beta iota. unfold ret at 1.
      rewrite E. reflexivity.
    + constructor; [auto | exact F].
Qed.

End Flows.

(** ** Computations that leave the older objects of the store alone *)

Lemma firstn_app_keep {A : Type} (n : nat) (h ext : list A) :
  (n <= List.length h)%nat -> firstn n (h ++ ext) = firstn n h.
Proof.
  intros H. rewrite firstn_app.
  replace (n - List.length h)%nat with 0%nat by lia.
  cbn. apply app_nil_r.
Qed.

Lemma list_update_length {A : Type} (r : nat) (a : A) (l : list A) :
  List.length (list_update r a l) = List.length l.
Proof.
  revert r. induction l as [| x l IH]; intros [| r]; cbn; auto.
Qed.

Lemma firstn_list_update {A : Type} (n r : nat) (a : A) (l : list A) :
  (n <= r)%nat -> firstn n (list_update r a l) = firstn n l.
Proof.
  revert n r. induction l as [| x l IH]; intros n r H.
  - destruct r; reflexivity.
  - destruct r as [| r].
    + replace n with 0%nat by lia. reflexivity.
    + destruct n as [| n]; [reflexivity |].
      cbn. f_equal. apply IH. lia.
Qed.

Section Keeps.

Variable n : nat.

Lemma keeps_ret {A : Type} (Q : A -> Prop) (a : A) :
  Q a -> keeps n Q (ret a).
Proof.
  intros Ha h Hn. exists (Ok a), h.
  repeat split; auto. intros a' [= <-]. exact Ha.
Qed.

Lemma keeps_lift {A : Type} (r : result A) :
  keeps n (fun _ => True) (lift r).
Proof. intros h Hn. exists r, h. repeat split; auto. Qed.

Lemma keeps_bind {A B : Type} (Q : A -> Prop) (Q' : B -> Prop)
      (m : py A) (f : A -> py B) :
  keeps n Q m -> (forall a, Q a -> keeps n Q' (f a)) ->
  keeps n Q' (bind m f).
Proof.
  intros Hm Hf h Hn. unfold bind.
  destruct (Hm h Hn) as (r & h1 & E & F & L & HQ). rewrite E.
  destruct r as [a | e].
  - destruct (Hf a (HQ a eq_refl) h1 L) as (r2 & h2 & E2 & F2 & L2 & HQ2).
    exists r2, h2. rewrite E2, F2, F. auto.
  - exists (Raise e), h1. repeat split; auto. discriminate.
Qed.

Lemma keeps_new (r : ref) (f : DataFrame -> result DataFrame) :
  keeps n (fun r' => (n <= r')%nat) (df_new r f).
Proof.
  intros h Hn. unfold df_new.
  destruct (nth_error h r) as [t |];
    [| exists (Raise ReferenceError), h; repeat split; auto; discriminate].
  destruct (f t) as [t' | e];
    [| exists (Raise e), h; repeat split; auto; discriminate].
  exists (Ok (List.length h)), (h ++ [t']).
  split; [reflexivity |]. split; [apply firstn_app_keep, Hn |].
  split; [rewrite length_app; lia |]. intros a [= <-]. exact Hn.
Qed.

Lemma keeps_copy (r : ref) : keeps n (fun r' => (n <= r')%nat) (df_copy r).
Proof.
  intros h Hn. unfold df_copy.
  destruct (nth_error h r) as [t |];
    [| exists (Raise ReferenceError), h; repeat split; auto; discriminate].
  exists (Ok (List.length h)), (h ++ [t]).
  split; [reflexivity |]. split; [apply firstn_app_keep, Hn |].
  split; [rewrite length_app; lia |]. intros a [= <-]. exact Hn.
Qed.

Lemma keeps_getitem (r : ref) (k : string) :
  keeps n (fun _ => True) (df_getitem r k).
Proof.
  intros h Hn. unfold df_getitem.
  destruct (nth_error h r) as [t |]; eexists _, h; repeat split; auto.
Qed.

Lemma keeps_value (r : ref) : keeps n (fun _ => True) (df_value r).
Proof.
  intros h Hn. unfold df_value.
  destruct (nth_error h r) as [t |]; eexists _, h; repeat split; auto.
Qed.

Lemma keeps_setitem (r : ref) (k : string) (v : Series) :
  (n <= r)%nat -> keeps n (fun _ => True) (df_setitem r k v).
Proof.
  intros Hr h Hn. unfold df_setitem.
  destruct (nth_error h r) as [t |];
    [| exists (Raise ReferenceError), h; repeat split; auto].
  eexists _, _. split; [reflexivity |].
  split; [apply firstn_list_update, Hr |].
  split; [rewrite list_update_length; exact Hn | auto].
Qed.

Lemma keeps_map_py {A B : Type} (f : A -> py B) (l : list A) :
  (forall x, keeps n (fun _ => True) (f x)) ->
  keeps n (fun _ => True) (map_py f l).
Proof.
  intros Hf. induction l as [| x l IH]; cbn [map_py].
  - apply keeps_ret. exact I.
  - apply (keeps_bind (fun _ => True)); [apply Hf |]. intros y _.
    apply (keeps_bind (fun _ => True)); [exact IH |]. intros ys _.
    apply keeps_ret. exact I.
Qed.

End Keeps.

(** What [keeps] gives on the whole store the computation started in. *)
Lemma keeps_all {A : Type} (Q : A -> Prop) (m : py A) (h : heap) :
  keeps (List.length h) Q m ->
  exists r h',
    m h = (r, h')
    /\ forall r0 t0, nth_error h r0 = Some t0 -> nth_error h' r0 = Some t0.
Proof.
  intros K. destruct (K h (Nat.le_refl _)) as (r & h' & E & F & _ & _).
  exists r, h'. split; [exact E |].
  rewrite firstn_all in F.
  rewrite <- (firstn_skipn (List.length h) h'), F.
  intros r0 t0. apply nth_error_keep.
Qed.

(** * The claims *)

Local Open Scope string_scope.
Local Open Scope list_scope.

(** C1.  The affinity laws, in the three variants.  For a frame that
    holds the baseline columns, an original diameter greater than zero
    and a list of targets (whose ratios can be squared and cubed without
    overflow, and whose texts tell distinct targets apart), the engine
    returns a table in which, for every target [D] of the list, the
    column ["Flow_D"D] holds [flow * (D / D_orig)] for every sample,
    ["Head_D"D] holds [head * (D / D_orig) ** 2] and ["Power_kW_D"D]
    holds [power * (D / D_orig) ** 3]: each sample alone, each target
    alone. *)
Theorem C1_affinity_laws
        (libm_pow : float -> float -> float) (float_repr : float -> string)
        (v : variant) (h : heap) (df : ref) (t : DataFrame)
        (D_orig : float) (new_dias : list float) (fl hd pw : Series) :
  nth_error h df = Some t ->
  getitem t (flow_label v) = Ok fl ->
  getitem t (head_label v) = Ok hd ->
  getitem t (power_label v) = Ok pw ->
  ltb zero D_orig = true ->
  forallb (pow_ok libm_pow D_orig) new_dias = true ->
  labels_distinct float_repr new_dias ->
  exists out h' t',
    engine libm_pow float_repr v df D_orig new_dias h = (Ok out, h')
    /\ nth_error h' out = Some t'
    /\ forall D r2 r3,
        In D new_dias ->
        float_pow libm_pow (div D D_orig) 2 = Ok r2 ->
        float_pow libm_pow (div D D_orig) 3 = Ok r3 ->
        getitem t' ("Flow_D" ++ float_repr D)%string
        = Ok (map (fun flow => mul flow (div D D_orig)) fl)
        /\ getitem t' ("Head_D" ++ float_repr D)%string
           = Ok (map (fun head => mul head r2) hd)
        /\ getitem t' ("Power_kW_D" ++ float_repr D)%string
           = Ok (map (fun power => mul power r3) pw).
Proof.
  intros Hnth Hfl Hhd Hpw Hpos Hpow Hdist.
  pose proof (ltb_zero_nonzero _ Hpos) as Hz.
  eexists. eexists. eexists.
  split; [apply (engine_run libm_pow float_repr v h df t D_orig new_dias
                            fl hd pw); assumption |].
  split; [apply nth_error_last |].
  intros D r2 r3 HD E2 E3.
  assert (Hg : forall k, In k (group_labels (has_efficiency v) (float_repr D)) ->
                         getitem (final_table libm_pow float_repr
                                    (has_efficiency v) D_orig fl hd pw new_dias t) k
                         = getitem (set_all t (derived libm_pow float_repr
                                      (has_efficiency v) D_orig fl hd pw D)) k).
  { intros k Hk. apply getitem_final_group; assumption. }
  repeat split.
  - rewrite Hg by (apply in_or_app; left; cbn; auto).
    apply getitem_derived_flow.
  - rewrite Hg by (apply in_or_app; left; cbn; auto).
    rewrite getitem_derived_head, E2. reflexivity.
  - rewrite Hg by (apply in_or_app; left; cbn; auto).
    rewrite getitem_derived_power, E3. reflexivity.
Qed.

Lemma C1_affinity_laws_witness :
  exists out h' t',
    engine Sample.pow Sample.repr App 0%nat (of_Z 200) [of_Z 100; of_Z 180]
           [Sample.baseline] = (Ok out, h')
    /\ nth_error h' out = Some t'
    /\ forall D r2 r3,
        In D [of_Z 100; of_Z 180] ->
        float_pow Sample.pow (div D (of_Z 200)) 2 = Ok r2 ->
        float_pow Sample.pow (div D (of_Z 200)) 3 = Ok r3 ->
        getitem t' ("Flow_D" ++ Sample.repr D)%string
        = Ok (map (fun flow => mul flow (div D (of_Z 200))) [of_Z 100])
        /\ getitem t' ("Head_D" ++ Sample.repr D)%string
           = Ok (map (fun head => mul head r2) [of_Z 20])
        /\ getitem t' ("Power_kW_D" ++ Sample.repr D)%string
           = Ok (map (fun power => mul power r3) [of_Z 5]).
Proof.
  apply (C1_affinity_laws Sample.pow Sample.repr App [Sample.baseline] 0%nat
                          Sample.baseline (of_Z 200) [of_Z 100; of_Z 180]
                          [of_Z 100] [of_Z 20] [of_Z 5]);
    try reflexivity.
  intros D1 D2 [<- | [<- | []]] [<- | [<- | []]] E;
    try reflexivity; vm_compute in E; discriminate E.
Defined.

(** C2.  The efficiency of [app_streamlit3.py].  For every target [D]
    of the list, the column ["Efficiency_D"D] is computed from the three
    columns just written for [D], the scaled ones and not the baseline:
    for every sample it holds
    [(0.0001409 * flow' * head' / power') * 100], with the constant the
    binary64 value of the literal [0.0001409]. *)
Theorem C2_efficiency_of_scaled
        (libm_pow : float -> float -> float) (float_repr : float -> string)
        (h : heap) (df : ref) (t : DataFrame)
        (D_orig : float) (new_dias : list float) (fl hd pw : Series) :
  nth_error h df = Some t ->
  getitem t "Flow_input" = Ok fl ->
  getitem t "Head_m" = Ok hd ->
  getitem t "Power_input_kW" = Ok pw ->
  ltb zero D_orig = true ->
  forallb (pow_ok libm_pow D_orig) new_dias = true ->
  labels_distinct float_repr new_dias ->
  eff_const = of_decimal 1409 7
  /\ hundred = of_Z 100
  /\ exists out h' t',
      apply_affinity3 libm_pow float_repr df D_orig new_dias h = (Ok out, h')
      /\ nth_error h' out = Some t'
      /\ forall D r2 r3,
          In D new_dias ->
          float_pow libm_pow (div D D_orig) 2 = Ok r2 ->
          float_pow libm_pow (div D D_orig) 3 = Ok r3 ->
          let flow' := map (fun flow => mul flow (div D D_orig)) fl in
          let head' := map (fun head => mul head r2) hd in
          let power' := map (fun power => mul power r3) pw in
          getitem t' ("Flow_D" ++ float_repr D)%string = Ok flow'
          /\ getitem t' ("Head_D" ++ float_repr D)%string = Ok head'
          /\ getitem t' ("Power_kW_D" ++ float_repr D)%string = Ok power'
          /\ getitem t' ("Efficiency_D" ++ float_repr D)%string
             = Ok (efficiency flow' head' power')
          /\ forall i f' h' p',
              nth_error flow' i = Some f' ->
              nth_error head' i = Some h' ->
              nth_error power' i = Some p' ->
              nth_error (efficiency flow' head' power') i
              = Some (mul (div (mul (mul eff_const f') h') p') hundred).
Proof.
  intros Hnth Hfl Hhd Hpw Hpos Hpow Hdist.
  pose proof (ltb_zero_nonzero _ Hpos) as Hz.
  split; [reflexivity |]. split; [reflexivity |].
  eexists. eexists. eexists.
  split; [apply (apply_affinity3_run libm_pow float_repr h df t D_orig
                                     new_dias fl hd pw); assumption |].
  split; [apply nth_error_last |].
  intros D r2 r3 HD E2 E3 flow' head' power'.
  assert (Hg : forall k, In k (group_labels true (float_repr D)) ->
                         getitem (final_table libm_pow float_repr
                                    true D_orig fl hd pw new_dias t) k
                         = getitem (set_all t (derived libm_pow float_repr
                                      true D_orig fl hd pw D)) k).
  { intros k Hk. apply getitem_final_group; assumption. }
  repeat split.
  - rewrite Hg by (cbn; auto). apply getitem_derived_flow.
  - rewrite Hg by (cbn; auto).
    rewrite getitem_derived_head, E2. reflexivity.
  - rewrite Hg by (cbn; auto).
    rewrite getitem_derived_power, E3. reflexivity.
  - rewrite Hg by (cbn; auto).
    rewrite getitem_derived_eff, E2, E3. reflexivity.
  - intros i f' h0 p'. apply efficiency_nth.
Qed.

Lemma C2_efficiency_of_scaled_witness :
  exists t',
    apply_affinity3 Sample.pow Sample.repr 0%nat (of_Z 200) [of_Z 100]
                    [Sample.baseline3]
    = (Ok 1%nat, [Sample.baseline3; t'])
    /\ getitem t' "Efficiency_D100.0"
       = Ok [mul (div (mul (mul eff_const (of_Z 50)) (of_Z 5))
                      (of_decimal 625 3))
                 hundred].
Proof.
  destruct (C2_efficiency_of_scaled
              Sample.pow Sample.repr [Sample.baseline3] 0%nat Sample.baseline3
              (of_Z 200) [of_Z 100] [of_Z 100] [of_Z 20] [of_Z 5])
    as (_ & _ & out & h' & t' & Erun & Eout & Hcols);
    try reflexivity.
  - intros D1 D2 [<- | []] [<- | []] _. reflexivity.
  - vm_compute in Erun. injection Erun as <- <-.
    vm_compute in Eout. injection Eout as <-.
    eexists. split; [reflexivity |].
    destruct (Hcols (of_Z 100) (of_decimal 25 2) (of_decimal 125 3))
      as (_ & _ & _ & Heff & _);
      [left; reflexivity | reflexivity | reflexivity |].
    vm_compute in Heff. vm_compute. exact Heff.
Defined.

(** C3, as stated, does not hold: the scan does not stop at a cell that
    is no number.  Below the header, the flow column of
    [Sample.with_text] holds 10, a text, 12; the scan of the claim
    collects one flow and assembles one sample, the reader raises. *)
Lemma C3_auto_detect_counterexample :
  nth 2 (column_cells Sample.with_text 0) Blank = Text "stop"
  /\ Spec.auto_detect Sample.with_text
     = baseline_frame [of_Z 10] [of_Z 20] [of_Z 30]
  /\ read_uploaded_excel Sample2.py_float Sample.with_text true None
     = Raise ValueError.
Proof. repeat split; reflexivity. Qed.

(** C3, amended.  In auto-detect mode, on a grid whose columns 0, 1 and
    2 hold, from row 1 downward, numbers followed by blank cells only,
    each column gives its numbers, the three sequences are cut to the
    shortest length [n], and the frame has exactly [n] samples: the
    first [n] numbers of each column.  A cell that is no number (a text
    [float] rejects, a date), in one of the three columns below row 0,
    makes the read fail. *)
Theorem C3_auto_detect_truncation
        (py_float : string -> result float) (g : grid) (oc : option string) :
  (forall (xs0 xs1 xs2 : list float) (k0 k1 k2 : nat),
      (3 <= width g)%nat ->
      skipn 1 (column_cells g 0) = map Num xs0 ++ repeat Blank k0 ->
      skipn 1 (column_cells g 1) = map Num xs1 ++ repeat Blank k1 ->
      skipn 1 (column_cells g 2) = map Num xs2 ++ repeat Blank k2 ->
      forallb (fun x => negb (is_nan x)) (xs0 ++ xs1 ++ xs2) = true ->
      let n := Nat.min (List.length xs0)
                       (Nat.min (List.length xs1) (List.length xs2)) in
      frame_of (read_uploaded_excel py_float g true oc)
      = Ok (baseline_frame (firstn n xs0) (firstn n xs1) (firstn n xs2))
      /\ List.length (firstn n xs0) = n
      /\ List.length (firstn n xs1) = n
      /\ List.length (firstn n xs2) = n)
  /\ (forall c v, (c < 3)%nat ->
                  In v (skipn 1 (column_cells g c)) ->
                  is_nonnum py_float v = true ->
                  is_ok (read_uploaded_excel py_float g true oc) = false).
Proof.
  split.
  - intros xs0 xs1 xs2 k0 k1 k2 Hw H0 H1 H2 Hnan n.
    rewrite !forallb_app in Hnan.
    apply andb_true_iff in Hnan. destruct Hnan as [N0 Hnan].
    apply andb_true_iff in Hnan. destruct Hnan as [N1 N2].
    split.
    + unfold read_uploaded_excel, iloc_column.
      rewrite !width_ltb by (assumption || lia).
      cbn [rbind].
      rewrite H0, dropna_values, astype_float_values by assumption.
      cbn [rbind].
      rewrite H1, dropna_values, astype_float_values by assumption.
      cbn [rbind].
      rewrite H2, dropna_values, astype_float_values by assumption.
      reflexivity.
    + rewrite !length_firstn. subst n. lia.
  - intros c v Hc Hin Hv.
    pose proof (astype_float_text py_float _ v
                  (dropna_keeps_text py_float _ v Hin Hv) Hv) as Hbad.
    unfold read_uploaded_excel, iloc_column.
    destruct c as [| [| [| c]]]; [| | | lia];
      repeat (match goal with
              | |- context [if ?b then _ else _] => destruct b
              end; cbn [rbind is_ok]; try reflexivity;
              match goal with
              | |- context [astype_float py_float ?s] =>
                  destruct (astype_float py_float s) eqn:?
              end; cbn [rbind is_ok]; try reflexivity);
      discriminate Hbad.
Qed.

Lemma C3_auto_detect_truncation_witness :
  frame_of (read_uploaded_excel Sample2.py_float Sample.ragged true
                                (Some "D1"))
  = Ok (baseline_frame (map of_Z [10; 11; 12]) (map of_Z [20; 21; 22])
                       (map of_Z [30; 31; 32]))
  /\ is_ok (read_uploaded_excel Sample2.py_float Sample.with_text true None)
     = false.
Proof.
  split.
  - destruct (C3_auto_detect_truncation Sample2.py_float Sample.ragged
                                        (Some "D1")) as [H _].
    apply (H (map of_Z [10; 11; 12; 13; 14]) (map of_Z [20; 21; 22])
             (map of_Z [30; 31; 32; 33]) 0%nat 2%nat 1%nat);
      try reflexivity.
    cbn. lia.
  - destruct (C3_auto_detect_truncation Sample2.py_float Sample.with_text
                                        None) as [_ H].
    apply (H 0%nat (Text "stop")); [lia | cbn; auto | reflexivity].
Defined.

(** C4, as stated, does not hold: the address "1D" does not fail to
    parse.  Its letter and its digit are those of "D1", and the reader
    returns the number held in D1. *)
Lemma C4_cell_address_counterexample :
  cell_at Sample.ragged 0 3 = Num (of_Z 200)
  /\ read_orig_value Sample2.py_float Sample.ragged (Some "1D")
     = Some (of_Z 200).
Proof. split; reflexivity. Qed.

(** C4, amended.  The address is parsed by keeping its letters and its
    digits, wherever they stand: "D1" is (row 0, column 3), "B10" is
    (row 9, column 1), and "1D" is (row 0, column 3) too.  The reading
    of the original diameter never raises (it returns a value or
    nothing); it returns nothing for the empty address, for an address
    without a digit, without a letter or with more than one letter, for
    any other address that fails to parse, and for a position whose row
    or column lies beyond the grid.  For a position inside the grid it
    returns: nothing for a blank cell and for a number that is NaN; the
    number of a cell that holds one; for a text, what [float] reads in
    it, NaN included, and nothing when [float] rejects it; nothing for
    any other object. *)
Theorem C4_cell_address
        (py_float : string -> result float) (g : grid) (addr : string) :
  cell_position "D1" = Ok (0, 3)
  /\ cell_position "B10" = Ok (9, 1)
  /\ cell_position "1D" = Ok (0, 3)
  /\ read_orig_value py_float g (Some "") = None
  /\ (is_ok (cell_position addr) = false ->
      read_orig_value py_float g (Some addr) = None)
  /\ (filter Py.isdigit (list_ascii_of_string addr) = [] ->
      read_orig_value py_float g (Some addr) = None)
  /\ (List.length (filter Py.isalpha (list_ascii_of_string addr)) <> 1%nat ->
      read_orig_value py_float g (Some addr) = None)
  /\ (forall r c, cell_position addr = Ok (r, c) ->
                  Z.of_nat (List.length (rows g)) <= r
                  \/ Z.of_nat (width g) <= c ->
                  read_orig_value py_float g (Some addr) = None)
  /\ (forall r c, cell_position addr = Ok (r, c) ->
                  0 <= r < Z.of_nat (List.length (rows g)) ->
                  0 <= c < Z.of_nat (width g) ->
                  read_orig_value py_float g (Some addr)
                  = match cell_at g (Z.to_nat r) (Z.to_nat c) with
                    | Blank => None
                    | Num x => if is_nan x then None else Some x
                    | Text s => match py_float s with
                                | Ok x => Some x
                                | Raise _ => None
                                end
                    | Other => None
                    end).
Proof.
  assert (Hfail : is_ok (cell_position addr) = false ->
                  read_orig_value py_float g (Some addr) = None).
  { intros H. unfold read_orig_value.
    destruct addr as [| a addr]; [reflexivity |].
    destruct (cell_position (String a addr)); [discriminate | reflexivity]. }
  repeat split; try reflexivity.
  - exact Hfail.
  - intros Hd. apply Hfail. unfold cell_position. rewrite Hd. reflexivity.
  - intros Hl. apply Hfail. unfold cell_position.
    destruct (Py.int_of_digits _) as [n |]; [| reflexivity]. cbn [rbind].
    pose proof (upper_nonempty (filter Py.isalpha (list_ascii_of_string addr)))
      as Hup.
    destruct (filter Py.isalpha (list_ascii_of_string addr)) as [| c1 [| c2 l]].
    + reflexivity.
    + contradiction Hl. reflexivity.
    + destruct (Py.upper (c1 :: c2 :: l)) as [| x [| y u]];
        cbn in Hup; try lia; reflexivity.
  - intros r c Hp Hout. unfold read_orig_value.
    destruct addr as [| a addr]; [reflexivity |].
    rewrite Hp. cbn [rbind fst snd].
    rewrite iat_out_of_range by exact Hout. reflexivity.
  - intros r c Hp Hr Hc. unfold read_orig_value.
    destruct addr as [| a addr]; [discriminate Hp |].
    rewrite Hp. cbn [rbind fst snd].
    rewrite iat_in_range by assumption. cbn [rbind].
    destruct (cell_at g (Z.to_nat r) (Z.to_nat c)) as [| x | t |];
      cbn [isna negb to_float rbind]; try reflexivity.
    + destruct (is_nan x); reflexivity.
    + destruct (py_float t); reflexivity.
Qed.

Lemma C4_cell_address_witness :
  read_orig_value Sample2.py_float Sample.ragged (Some "AB1") = None
  /\ read_orig_value Sample2.py_float Sample.ragged (Some "D") = None
  /\ read_orig_value Sample2.py_float Sample.ragged (Some "7") = None
  /\ read_orig_value Sample2.py_float Sample.ragged (Some "Z1") = None
  /\ read_orig_value Sample2.py_float Sample.ragged (Some "A9") = None
  /\ read_orig_value Sample2.py_float Sample.ragged (Some "d1")
     = Some (of_Z 200)
  /\ read_orig_value Sample2.py_float Sample.ragged (Some "A1") = None
  /\ read_orig_value Sample2.py_float Sample.with_nan_text (Some "A3")
     = Some nan.
Proof.
  refine (conj _ (conj _ (conj _ (conj _ (conj _ (conj _ (conj _ _))))))).
  - destruct (C4_cell_address Sample2.py_float Sample.ragged "AB1")
      as (_ & _ & _ & _ & H & _). apply H. reflexivity.
  - destruct (C4_cell_address Sample2.py_float Sample.ragged "D")
      as (_ & _ & _ & _ & _ & H & _). apply H. reflexivity.
  - destruct (C4_cell_address Sample2.py_float Sample.ragged "7")
      as (_ & _ & _ & _ & _ & _ & H & _). apply H. cbn. discriminate.
  - destruct (C4_cell_address Sample2.py_float Sample.ragged "Z1")
      as (_ & _ & _ & _ & _ & _ & _ & H & _).
    apply (H 0 25); [reflexivity |]. right. cbn. lia.
  - destruct (C4_cell_address Sample2.py_float Sample.ragged "A9")
      as (_ & _ & _ & _ & _ & _ & _ & H & _).
    apply (H 8 0); [reflexivity |]. left. cbn. lia.
  - destruct (C4_cell_address Sample2.py_float Sample.ragged "d1")
      as (_ & _ & _ & _ & _ & _ & _ & _ & H).
    apply (H 0 3); [reflexivity | cbn; lia | cbn; lia].
  - destruct (C4_cell_address Sample2.py_float Sample.ragged "A1")
      as (_ & _ & _ & _ & _ & _ & _ & _ & H).
    apply (H 0 0); [reflexivity | cbn; lia | cbn; lia].
  - destruct (C4_cell_address Sample2.py_float Sample.with_nan_text "A3")
      as (_ & _ & _ & _ & _ & _ & _ & _ & H).
    apply (H 2 0); [reflexivity | cbn; lia | cbn; lia].
Defined.

(** C5, as stated, does not hold: a blank cell in rows 1 to 5 does not
    fail the read.  The flow column of [Sample.with_blank] is blank in
    row 3; the read succeeds and the third flow is NaN. *)
Lemma C5_fixed_range_counterexample :
  cell_at Sample.with_blank 3 0 = Blank
  /\ frame_of (read_uploaded_excel Sample2.py_float Sample.with_blank
                                   false None)
     = Ok (baseline_frame
             [of_Z 10; of_Z 11; nan; of_Z 13; of_Z 14]
             (map of_Z [20; 21; 22; 23; 24])
             (map of_Z [30; 31; 32; 33; 34])).
Proof. split; reflexivity. Qed.

(** C5, amended.  In fixed-range mode the reader takes, from each of the
    columns 0, 1 and 2, the rows 1 to 5 the grid has (five rows when it
    has at least six).  When none of these cells is a text [float]
    rejects or another object that is no number, the read succeeds, a
    number giving itself, a text what [float] reads in it and a blank
    cell NaN; when one of them is, the read fails and returns no
    frame. *)
Theorem C5_fixed_range
        (py_float : string -> result float) (g : grid) (oc : option string) :
  ((3 <= width g)%nat ->
   (forall c, (c < 3)%nat ->
              existsb (is_nonnum py_float) (fixed_range g c) = false) ->
   frame_of (read_uploaded_excel py_float g false oc)
   = Ok (baseline_frame (map (cell_value py_float) (fixed_range g 0))
                        (map (cell_value py_float) (fixed_range g 1))
                        (map (cell_value py_float) (fixed_range g 2))))
  /\ (forall c, List.length (fixed_range g c)
                = Nat.min 5 (List.length (rows g) - 1))
  /\ cell_value py_float Blank = nan
  /\ (forall x, cell_value py_float (Num x) = x)
  /\ (forall c, (c < 3)%nat ->
                existsb (is_nonnum py_float) (fixed_range g c) = true ->
                is_ok (read_uploaded_excel py_float g false oc) = false).
Proof.
  split; [| split; [| split; [| split]]].
  - intros Hw Hok.
    unfold read_uploaded_excel, loc_column.
    rewrite !width_ltb by (assumption || lia).
    cbn [rbind]. fold (fixed_range g 0).
    rewrite astype_float_no_text by (apply Hok; lia).
    cbn [rbind]. fold (fixed_range g 1).
    rewrite astype_float_no_text by (apply Hok; lia).
    cbn [rbind]. fold (fixed_range g 2).
    rewrite astype_float_no_text by (apply Hok; lia).
    reflexivity.
  - apply fixed_range_length.
  - reflexivity.
  - reflexivity.
  - intros c Hc Hin.
    assert (Hbad : is_ok (astype_float py_float (fixed_range g c)) = false).
    { apply existsb_exists in Hin. destruct Hin as (x & Hx & Ex).
      apply (astype_float_text py_float _ x Hx Ex). }
    unfold fixed_range in Hbad.
    unfold read_uploaded_excel, loc_column.
    destruct c as [| [| [| c]]]; [| | | lia];
      repeat (match goal with
              | |- context [if ?b then _ else _] => destruct b
              end; cbn [rbind is_ok]; try reflexivity;
              match goal with
              | |- context [astype_float py_float ?s] =>
                  destruct (astype_float py_float s) eqn:?
              end; cbn [rbind is_ok]; try reflexivity);
      discriminate Hbad.
Qed.

Lemma C5_fixed_range_witness :
  frame_of (read_uploaded_excel Sample2.py_float Sample.with_blank false None)
  = Ok (baseline_frame
          (map (cell_value Sample2.py_float) (fixed_range Sample.with_blank 0))
          (map (cell_value Sample2.py_float) (fixed_range Sample.with_blank 1))
          (map (cell_value Sample2.py_float) (fixed_range Sample.with_blank 2)))
  /\ is_ok (read_uploaded_excel Sample2.py_float Sample.with_text false None)
     = false.
Proof.
  split.
  - destruct (C5_fixed_range Sample2.py_float Sample.with_blank None)
      as [H _].
    apply H; [cbn; lia |].
    intros c Hc. destruct c as [| [| [| c]]]; [reflexivity .. | lia].
  - destruct (C5_fixed_range Sample2.py_float Sample.with_text None)
      as (_ & _ & _ & _ & H).
    apply (H 0%nat); [lia | reflexivity].
Defined.

(** C6, as stated, does not hold in every variant: the upload branch of
    [app_streamlit3.py] reads its columns from row 0 on.  The first row
    of [Sample.headless], 1, 2, 3, is the first sample. *)
Lemma C6_row_zero_counterexample :
  nth 0 (rows Sample.headless) [] = Sample.row 1 2 3
  /\ exists eff,
      upload_branch Sample2.py_float Sample.headless
      = Ok [("Flow_input", [of_Z 1; of_Z 4]); ("Head_m", [of_Z 2; of_Z 5]);
            ("Power_input_kW", [of_Z 3; of_Z 6]); ("Efficiency_%", eff)].
Proof. split; [reflexivity | eexists; reflexivity]. Qed.

(** C6, amended.  In [read_uploaded_excel], in both modes:
    the frame has the columns Flow_orig, Head_orig and Power_orig_kW,
    and every value of them is the float of a cell of column 0, 1 and 2
    respectively, in a row from row 1 downward;
    on a sheet whose rows below the first hold one reading each (flow,
    head, power in columns 0, 1, 2), the samples are exactly these
    readings, in order, whatever row 0 holds: all of them in auto-detect
    mode, the first five in fixed-range mode;
    two grids of the same width that agree on the cells of columns 0, 1
    and 2 from row 1 downward give the same frame (or the same
    failure), whatever row 0 and the other columns hold.
    The upload branch of [app_streamlit3.py] starts at row 0: the
    numbers of row 0 are its first sample. *)
Theorem C6_data_from_row_one (py_float : string -> result float) :
  (forall (g : grid) (mode : bool) (oc : option string) df orig,
      read_uploaded_excel py_float g mode oc = Ok (df, orig) ->
      exists fl hd pw,
        df = [("Flow_orig", fl); ("Head_orig", hd); ("Power_orig_kW", pw)]
        /\ forall c col x,
            In (c, col) [(0%nat, fl); (1%nat, hd); (2%nat, pw)] ->
            In x col ->
            exists r, (1 <= r < List.length (rows g))%nat
                      /\ to_float py_float (cell_at g r c) = Ok x)
  /\ (forall (w : nat) (row0 : list cell)
             (samples : list (float * float * float))
             (mode : bool) (oc : option string),
         (3 <= w)%nat ->
         (mode = true -> forallb reading_no_nan samples = true) ->
         let kept := if mode then samples else firstn 5 samples in
         frame_of (read_uploaded_excel
                     py_float
                     {| width := w;
                        rows := row0 :: map reading_row samples |}
                     mode oc)
         = Ok [("Flow_orig", map (fun s => fst (fst s)) kept);
               ("Head_orig", map (fun s => snd (fst s)) kept);
               ("Power_orig_kW", map snd kept)])
  /\ (forall (g g' : grid) (mode : bool) (oc oc' : option string),
         width g = width g' ->
         (forall c, (c < 3)%nat ->
                    skipn 1 (column_cells g c) = skipn 1 (column_cells g' c)) ->
         frame_of (read_uploaded_excel py_float g mode oc)
         = frame_of (read_uploaded_excel py_float g' mode oc'))
  /\ (forall (w : nat) (a b c : float) (rest : list (list cell)) df,
         is_nan a = false -> is_nan b = false -> is_nan c = false ->
         upload_branch py_float
                       {| width := w;
                          rows := [Num a; Num b; Num c] :: rest |} = Ok df ->
         exists fl hd pw,
           getitem df "Flow_input" = Ok (a :: fl)
           /\ getitem df "Head_m" = Ok (b :: hd)
           /\ getitem df "Power_input_kW" = Ok (c :: pw)).
Proof.
  split; [| split; [| split]].
  - intros g mode oc df orig H.
    destruct (read_frame_baseline py_float g mode oc df orig H)
      as (fl & hd & pw & ->).
    exists fl, hd, pw. split; [reflexivity |].
    intros c col x Hc Hx.
    destruct (read_frame_cells py_float g mode oc fl hd pw orig H c col x
                               Hc Hx) as (r & Hr & _ & Ex).
    exists r. split; [exact Hr | exact Ex].
  - intros w row0 samples mode oc Hw Hnan kept.
    apply (read_readings py_float w row0 samples mode oc Hw Hnan).
  - intros g g' mode oc oc' Hw Hc. apply read_frame_ext; assumption.
  - intros w a b c rest df Na Nb Nc Hdf.
    destruct (upload_branch_columns py_float _ df Hdf)
      as (xs0 & xs1 & xs2 & Hcols & Edf).
    pose proof (Hcols 0%nat xs0 ltac:(cbn; auto)) as E0.
    pose proof (Hcols 1%nat xs1 ltac:(cbn; auto)) as E1.
    pose proof (Hcols 2%nat xs2 ltac:(cbn; auto)) as E2.
    unfold column_cells, dropna, astype_float in E0, E1, E2.
    cbn [rows map nth filter isna] in E0, E1, E2.
    rewrite Na in E0. rewrite Nb in E1. rewrite Nc in E2.
    cbn [negb map_result to_float] in E0, E1, E2.
    destruct (map_result (to_float py_float) _) as [ys0 |] in E0;
      [| discriminate E0].
    destruct (map_result (to_float py_float) _) as [ys1 |] in E1;
      [| discriminate E1].
    destruct (map_result (to_float py_float) _) as [ys2 |] in E2;
      [| discriminate E2].
    injection E0 as <-. injection E1 as <-. injection E2 as <-.
    cbn [List.length Nat.min firstn] in Edf. subst df.
    eexists. eexists. eexists. cbn. repeat split; reflexivity.
Qed.

Lemma C6_data_from_row_one_witness :
  frame_of (read_uploaded_excel
              Sample2.py_float
              {| width := 3;
                 rows := [Text "Flow"; Blank]
                           :: map reading_row
                                [(of_Z 10, of_Z 20, of_Z 30);
                                 (of_Z 11, of_Z 21, of_Z 31)] |}
              true (Some "D1"))
  = Ok [("Flow_orig", [of_Z 10; of_Z 11]); ("Head_orig", [of_Z 20; of_Z 21]);
        ("Power_orig_kW", [of_Z 30; of_Z 31])]
  /\ frame_of (read_uploaded_excel Sample2.py_float Sample.ragged true
                                   (Some "D1"))
     = frame_of (read_uploaded_excel
                   Sample2.py_float
                   {| width := 4;
                      rows := [Num (of_Z 7); Blank]
                                :: tl (rows Sample.ragged) |}
                   true None)
  /\ exists fl hd pw,
      getitem (value_or [] (upload_branch Sample2.py_float Sample.headless))
              "Flow_input"
      = Ok (of_Z 1 :: fl)
      /\ getitem (value_or [] (upload_branch Sample2.py_float Sample.headless))
                 "Head_m"
         = Ok (of_Z 2 :: hd)
      /\ getitem (value_or [] (upload_branch Sample2.py_float Sample.headless))
                 "Power_input_kW"
         = Ok (of_Z 3 :: pw).
Proof.
  destruct (C6_data_from_row_one Sample2.py_float) as (_ & H2 & H3 & H4).
  refine (conj _ (conj _ _)).
  - apply (H2 3%nat [Text "Flow"; Blank]
              [(of_Z 10, of_Z 20, of_Z 30); (of_Z 11, of_Z 21, of_Z 31)]
              true (Some "D1")); [lia | reflexivity].
  - apply H3; [reflexivity |]. intros c Hc. reflexivity.
  - apply (H4 3%nat (of_Z 1) (of_Z 2) (of_Z 3) [Sample.row 4 5 6]);
      reflexivity.
Defined.

(** C7, as stated, does not hold: a repeated target does not get columns
    of its own in the table the engine returns.  With the targets 180,
    180, 160 the table has the three base columns and two groups, eight
    columns short of the three groups the list has entries for. *)
Lemma C7_duplicates_counterexample :
  exists t',
    apply_affinity Sample.pow Sample.repr 0%nat (of_Z 200)
                   [of_Z 180; of_Z 180; of_Z 160] [Sample.baseline]
    = (Ok 1%nat, [Sample.baseline; t'])
    /\ columns t'
       = ["Flow_orig"; "Head_orig"; "Power_orig_kW";
          "Flow_D180.0"; "Head_D180.0"; "Power_kW_D180.0";
          "Flow_D160.0"; "Head_D160.0"; "Power_kW_D160.0"]
    /\ List.length (columns t')
       <> (3 + 3 * List.length [of_Z 180; of_Z 180; of_Z 160])%nat.
Proof.
  eexists. split; [vm_compute; reflexivity |].
  split; [reflexivity | cbn; lia].
Qed.

Lemma flat_map_groups (float_repr : float -> string) (l : list float) :
  flat_map (group_labels false) (map float_repr l)
  = flat_map (fun D => [("Flow_D" ++ float_repr D)%string;
                        ("Head_D" ++ float_repr D)%string;
                        ("Power_kW_D" ++ float_repr D)%string]) l.
Proof.
  induction l as [| D l IH]; cbn; [reflexivity |].
  rewrite IH. reflexivity.
Qed.

Lemma flat_map_groups_length (rs : list string) :
  List.length (flat_map (group_labels false) rs) = (3 * List.length rs)%nat.
Proof.
  induction rs as [| r rs IH]; cbn; [reflexivity |].
  rewrite IH. lia.
Qed.

(** C7, amended.  The table [apply_affinity] returns has, after the base
    columns, one group of three columns per distinct text of a target,
    in the order of first occurrence: a repeated target overwrites its
    own columns.  So the table has as many groups as the list has
    distinct texts, and one group per entry when no text repeats.  The
    sheet [app_streamlit.py] offers for download selects the columns
    once per entry of the list, so it has one group per entry, repeated
    ones included.  The per-diameter export of [app_streamlit1.py]
    makes, after the sheet "original", one [to_excel] call per entry of
    the list, in order, under the sheet name of that entry. *)
Theorem C7_groups_per_target
        (libm_pow : float -> float -> float) (float_repr : float -> string)
        (np_round : Z -> float -> float)
        (h : heap) (df df_out : ref) (t : DataFrame)
        (D_orig : float) (new_dias : list float) (decimals : Z) :
  nth_error h df = Some t ->
  columns t = ["Flow_orig"; "Head_orig"; "Power_orig_kW"] ->
  ltb zero D_orig = true ->
  forallb (pow_ok libm_pow D_orig) new_dias = true ->
  (exists out h' t',
      apply_affinity libm_pow float_repr df D_orig new_dias h = (Ok out, h')
      /\ nth_error h' out = Some t'
      /\ columns t'
         = columns t
           ++ flat_map (group_labels false)
                       (first_occurrences (map float_repr new_dias))
      /\ List.length (columns t')
         = (3 + 3 * List.length (first_occurrences (map float_repr new_dias)))%nat
      /\ (NoDup (map float_repr new_dias) ->
          columns t' = wide_columns float_repr new_dias))
  /\ (exists sheet h',
         generate libm_pow float_repr np_round df D_orig new_dias h
         = (Ok sheet, h')
         /\ columns sheet = wide_columns float_repr new_dias
         /\ List.length (columns sheet)
            = (3 + 3 * List.length new_dias)%nat)
  /\ (exists sheets h',
         build_excel_bytes libm_pow float_repr np_round
                           df df_out D_orig new_dias true decimals h
         = (Ok (("original", df_round np_round decimals t) :: sheets), h')
         /\ map (fun w => Ok (fst w)) sheets
            = map (sheet_name float_repr) new_dias
         /\ List.length sheets = List.length new_dias).
Proof.
  intros Hnth Hcols Hpos Hpow.
  pose proof (ltb_zero_nonzero _ Hpos) as Hz.
  destruct t as [| [k1 fl] [| [k2 hd] [| [k3 pw] [| ? ?]]]];
    try discriminate Hcols.
  cbn in Hcols. injection Hcols as -> -> ->.
  set (t := [("Flow_orig", fl); ("Head_orig", hd); ("Power_orig_kW", pw)]) in *.
  assert (Hfl : getitem t "Flow_orig" = Ok fl) by reflexivity.
  assert (Hhd : getitem t "Head_orig" = Ok hd) by reflexivity.
  assert (Hpw : getitem t "Power_orig_kW" = Ok pw) by reflexivity.
  split; [| split].
  - eexists. eexists. eexists.
    split; [apply (apply_affinity_run libm_pow float_repr h df t D_orig
                                      new_dias fl hd pw); assumption |].
    split; [apply nth_error_last |].
    assert (Hc : columns (final_table libm_pow float_repr false D_orig
                                      fl hd pw new_dias t)
                 = columns t
                   ++ flat_map (group_labels false)
                               (first_occurrences (map float_repr new_dias)))
      by (apply columns_final_groups; reflexivity).
    split; [exact Hc |]. split.
    + rewrite Hc, length_app, flat_map_groups_length. reflexivity.
    + intros Hnd. rewrite Hc, first_occurrences_nodup by exact Hnd.
      rewrite flat_map_groups. reflexivity.
  - destruct (generate_run libm_pow float_repr np_round h df t D_orig
                           new_dias fl hd pw Hnth Hfl Hhd Hpw Hz Hpow)
      as (sheet & h' & Erun & Ecols).
    exists sheet, h'. split; [exact Erun |]. split; [exact Ecols |].
    rewrite Ecols. unfold wide_columns.
    rewrite length_app, <- flat_map_groups, flat_map_groups_length,
      length_map.
    reflexivity.
  - destruct (build_excel_bytes_per_sheet_run
                libm_pow float_repr np_round h df df_out t D_orig new_dias
                decimals fl hd pw Hnth Hfl Hhd Hpw Hz Hpow)
      as (sheets & h' & Erun & Enames).
    exists sheets, h'. split; [exact Erun |]. split; [exact Enames |].
    apply (f_equal (@List.length _)) in Enames.
    rewrite !length_map in Enames. exact Enames.
Qed.

Lemma C7_groups_per_target_witness :
  (exists out h' t',
      apply_affinity Sample.pow Sample.repr 0%nat (of_Z 200)
                     [of_Z 180; of_Z 180; of_Z 160] [Sample.baseline]
      = (Ok out, h')
      /\ nth_error h' out = Some t'
      /\ List.length (columns t') = 9%nat)
  /\ (exists sheet h',
         generate Sample.pow Sample.repr Sample.round 0%nat (of_Z 200)
                  [of_Z 180; of_Z 180; of_Z 160] [Sample.baseline]
         = (Ok sheet, h')
         /\ List.length (columns sheet) = 12%nat)
  /\ (exists sheets h',
         build_excel_bytes Sample.pow Sample.repr Sample.round
                           0%nat 0%nat (of_Z 200)
                           [of_Z 180; of_Z 180; of_Z 160] true 4
                           [Sample.baseline]
         = (Ok (("original", df_round Sample.round 4 Sample.baseline)
                  :: sheets), h')
         /\ map fst sheets = ["D180"; "D180"; "D160"]).
Proof.
  destruct (C7_groups_per_target
              Sample.pow Sample.repr Sample.round [Sample.baseline]
              0%nat 0%nat Sample.baseline (of_Z 200)
              [of_Z 180; of_Z 180; of_Z 160] 4
              eq_refl eq_refl eq_refl eq_refl)
    as ((out & h1 & t' & E1 & N1 & _ & L1 & _)
        & (sheet & h2 & E2 & _ & L2)
        & (sheets & h3 & E3 & M3 & _)).
  refine (conj _ (conj _ _)).
  - exists out, h1, t'. auto.
  - exists sheet, h2. auto.
  - exists sheets, h3. split; [exact E3 |].
    vm_compute in M3.
    destruct sheets as [| [n1 s1] [| [n2 s2] [| [n3 s3] [| ? ?]]]];
      try discriminate M3.
    cbn in M3. injection M3 as -> -> ->. reflexivity.
Defined.

(** C8.  Identity ratio, in the three variants.  For a baseline of
    finite values and a finite diameter [D] greater than zero, converting
    with [D] as the original diameter and [[D]] as the targets returns
    the flow, head and power unchanged. *)
Theorem C8_identity_ratio
        (libm_pow : float -> float -> float) (float_repr : float -> string)
        (v : variant) (h : heap) (df : ref) (t : DataFrame)
        (D : float) (fl hd pw : Series) :
  nth_error h df = Some t ->
  getitem t (flow_label v) = Ok fl ->
  getitem t (head_label v) = Ok hd ->
  getitem t (power_label v) = Ok pw ->
  is_pos_finite D = true ->
  finite_values fl = true ->
  finite_values hd = true ->
  finite_values pw = true ->
  exists out h' t',
    engine libm_pow float_repr v df D [D] h = (Ok out, h')
    /\ nth_error h' out = Some t'
    /\ getitem t' ("Flow_D" ++ float_repr D)%string = Ok fl
    /\ getitem t' ("Head_D" ++ float_repr D)%string = Ok hd
    /\ getitem t' ("Power_kW_D" ++ float_repr D)%string = Ok pw.
Proof.
  intros Hnth Hfl Hhd Hpw HD Vfl Vhd Vpw.
  destruct D as [| | | s m e]; try discriminate.
  destruct s; [discriminate |].
  set (D := S754_finite false m e).
  assert (Hratio : div D D = one) by apply div_self.
  pose proof (float_pow_one libm_pow 2) as H2.
  pose proof (float_pow_one libm_pow 3) as H3.
  assert (Hpow : forallb (pow_ok libm_pow D) [D] = true).
  { cbn. unfold pow_ok. rewrite Hratio, H2, H3. reflexivity. }
  assert (Hvals : derived libm_pow float_repr (has_efficiency v) D fl hd pw D
                  = [(("Flow_D" ++ float_repr D)%string, fl);
                     (("Head_D" ++ float_repr D)%string, hd);
                     (("Power_kW_D" ++ float_repr D)%string, pw)]
                    ++ (if has_efficiency v
                        then [(("Efficiency_D" ++ float_repr D)%string,
                               efficiency fl hd pw)]
                        else [])).
  { unfold derived. rewrite Hratio, H2, H3. cbn [value_or].
    rewrite !series_mul_one by assumption. reflexivity. }
  eexists. eexists. eexists.
  split; [apply (engine_run libm_pow float_repr v h df t D [D] fl hd pw);
          try assumption; reflexivity |].
  split; [apply nth_error_last |].
  unfold final_table. cbn [fold_left].
  pose proof (getitem_derived_flow libm_pow float_repr (has_efficiency v)
                                   D fl hd pw D t) as Cf.
  pose proof (getitem_derived_head libm_pow float_repr (has_efficiency v)
                                   D fl hd pw D t) as Ch.
  pose proof (getitem_derived_power libm_pow float_repr (has_efficiency v)
                                    D fl hd pw D t) as Cp.
  rewrite Hratio in Cf. rewrite Hratio, H2 in Ch. rewrite Hratio, H3 in Cp.
  cbn [value_or] in Ch, Cp.
  rewrite series_mul_one in Cf, Ch, Cp by assumption.
  auto.
Qed.

Lemma C8_identity_ratio_witness :
  exists out h' t',
    engine Sample.pow Sample.repr App3 0%nat (of_Z 180) [of_Z 180]
           [Sample.baseline3] = (Ok out, h')
    /\ nth_error h' out = Some t'
    /\ getitem t' "Flow_D180.0" = Ok [of_Z 100]
    /\ getitem t' "Head_D180.0" = Ok [of_Z 20]
    /\ getitem t' "Power_kW_D180.0" = Ok [of_Z 5].
Proof.
  apply (C8_identity_ratio Sample.pow Sample.repr App3 [Sample.baseline3]
                           0%nat Sample.baseline3 (of_Z 180)
                           [of_Z 100] [of_Z 20] [of_Z 5]);
    reflexivity.
Defined.

(** C9.  Zero power in [app_streamlit3.py].  Whatever the powers are,
    the engine returns its table under the conditions of C1 alone; for
    every target of the list it holds an efficiency column, and every
    sample whose baseline power is zero has an efficiency that is not
    finite (an infinity or NaN).  The baseline efficiency of such a
    sample, the column ["Efficiency_%"] of the manual and upload
    branches, is not finite either. *)
Theorem C9_zero_power_not_finite
        (libm_pow : float -> float -> float) (float_repr : float -> string)
        (h : heap) (df : ref) (t : DataFrame)
        (D_orig : float) (new_dias : list float) (fl hd pw : Series) :
  nth_error h df = Some t ->
  getitem t "Flow_input" = Ok fl ->
  getitem t "Head_m" = Ok hd ->
  getitem t "Power_input_kW" = Ok pw ->
  List.length fl = List.length pw ->
  List.length hd = List.length pw ->
  ltb zero D_orig = true ->
  forallb (pow_ok libm_pow D_orig) new_dias = true ->
  (exists out h' t',
      apply_affinity3 libm_pow float_repr df D_orig new_dias h = (Ok out, h')
      /\ nth_error h' out = Some t'
      /\ forall D, In D new_dias ->
          exists eff,
            getitem t' ("Efficiency_D" ++ float_repr D)%string = Ok eff
            /\ forall i p, nth_error pw i = Some p -> is_zero p = true ->
                exists e, nth_error eff i = Some e /\ is_finite e = false)
  /\ (forall i p, nth_error pw i = Some p -> is_zero p = true ->
        exists e, nth_error (efficiency fl hd pw) i = Some e
                  /\ is_finite e = false)
  /\ (forall manual_data,
         getitem (manual_branch manual_data) "Efficiency_%"
         = Ok (efficiency
                 (map (fun r => fst (fst r)) (filter nonzero_row manual_data))
                 (map (fun r => snd (fst r)) (filter nonzero_row manual_data))
                 (map snd (filter nonzero_row manual_data)))).
Proof.
  intros Hnth Hfl Hhd Hpw Lfl Lhd Hpos Hpow.
  pose proof (ltb_zero_nonzero _ Hpos) as Hz.
  assert (Hrow : forall i p, nth_error pw i = Some p ->
                             exists f h0, nth_error fl i = Some f
                                          /\ nth_error hd i = Some h0).
  { intros i p Hp.
    assert (Hi : (i < List.length pw)%nat)
      by (apply nth_error_Some; rewrite Hp; discriminate).
    destruct (nth_error fl i) as [f |] eqn:Ef;
      [| apply nth_error_None in Ef; lia].
    destruct (nth_error hd i) as [h0 |] eqn:Eh;
      [| apply nth_error_None in Eh; lia].
    eauto. }
  split; [| split].
  - eexists. eexists. eexists.
    split; [apply (apply_affinity3_run libm_pow float_repr h df t D_orig
                                       new_dias fl hd pw); assumption |].
    split; [apply nth_error_last |].
    intros D HD.
    destruct (getitem_final_some_group
                libm_pow float_repr true D_orig fl hd pw new_dias t D
                ("Efficiency_D" ++ float_repr D)%string HD)
      as (D' & HD' & E' & G); [cbn; auto |].
    rewrite G, <- E', getitem_derived_eff.
    eexists. split; [reflexivity |].
    intros i p Hp Zp.
    destruct (Hrow i p Hp) as (f & h0 & Hf & Hh).
    eexists. split.
    + apply efficiency_nth.
      * apply map_nth_error with (f := fun x => mul x (div D' D_orig)).
        exact Hf.
      * apply map_nth_error
          with (f := fun x => mul x (value_or nan
                                       (float_pow libm_pow (div D' D_orig) 2))).
        exact Hh.
      * apply map_nth_error
          with (f := fun x => mul x (value_or nan
                                       (float_pow libm_pow (div D' D_orig) 3))).
        exact Hp.
    + apply efficiency_not_finite. exact Zp.
  - intros i p Hp Zp.
    destruct (Hrow i p Hp) as (f & h0 & Hf & Hh).
    eexists. split; [apply efficiency_nth; eassumption |].
    apply (efficiency_not_finite _ p zero). exact Zp.
  - intros manual_data. reflexivity.
Qed.

Lemma C9_zero_power_not_finite_witness :
  exists t',
    apply_affinity3 Sample.pow Sample.repr 0%nat (of_Z 200) [of_Z 100]
                    [Sample.zero_power3]
    = (Ok 1%nat, [Sample.zero_power3; t'])
    /\ exists e, getitem t' "Efficiency_D100.0" = Ok [e]
                 /\ is_finite e = false.
Proof.
  destruct (C9_zero_power_not_finite
              Sample.pow Sample.repr [Sample.zero_power3] 0%nat
              Sample.zero_power3 (of_Z 200) [of_Z 100]
              [of_Z 100] [of_Z 20] [zero])
    as ((out & h' & t' & Erun & Eout & Hcols) & _ & _);
    try reflexivity.
  vm_compute in Erun. injection Erun as <- <-.
  vm_compute in Eout. injection Eout as <-.
  eexists. split; [reflexivity |].
  exists (S754_infinity false). split; reflexivity.
Defined.

(** C10.  The engine does not mutate its input, in the three variants.
    Whatever the call does (return or raise), the frame the caller
    passed and every other frame of the store are as they were before
    the call; a returned table is another object than the input, and its
    baseline columns flow, head and power are those of the input. *)
Theorem C10_input_not_mutated
        (libm_pow : float -> float -> float) (float_repr : float -> string)
        (v : variant) (h : heap) (df : ref) (t : DataFrame)
        (D_orig : float) (new_dias : list float) :
  nth_error h df = Some t ->
  exists r h',
    engine libm_pow float_repr v df D_orig new_dias h = (r, h')
    /\ nth_error h' df = Some t
    /\ (forall r0 t0, nth_error h r0 = Some t0 -> nth_error h' r0 = Some t0)
    /\ forall out, r = Ok out ->
        out <> df
        /\ exists t', nth_error h' out = Some t'
                      /\ getitem t' (flow_label v) = getitem t (flow_label v)
                      /\ getitem t' (head_label v) = getitem t (head_label v)
                      /\ getitem t' (power_label v) = getitem t (power_label v).
Proof.
  intros Hnth.
  destruct (engine_frame libm_pow float_repr v h df t D_orig new_dias Hnth)
    as (r & t' & E & Hout & K).
  assert (Hold : forall r0 t0, nth_error h r0 = Some t0 ->
                               nth_error (h ++ [t']) r0 = Some t0).
  { intros r0 t0 H0. rewrite nth_error_app1; [exact H0 |].
    apply nth_error_Some. rewrite H0. discriminate. }
  exists r, (h ++ [t']). split; [exact E |].
  split; [apply Hold; exact Hnth |].
  split; [exact Hold |].
  intros out Hr. apply Hout in Hr. subst out.
  split.
  - intros Heq.
    assert (Hlt : (df < List.length h)%nat)
      by (apply nth_error_Some; rewrite Hnth; discriminate).
    lia.
  - exists t'. split; [apply nth_error_last |].
    destruct (base_labels_not_derived v) as (Bf & Bh & Bp).
    repeat split; apply K; assumption.
Qed.

Lemma C10_input_not_mutated_witness :
  exists r h',
    engine Sample.pow Sample.repr App1 0%nat (of_Z 200) [of_Z 100]
           [Sample.baseline] = (r, h')
    /\ nth_error h' 0%nat = Some Sample.baseline.
Proof.
  destruct (C10_input_not_mutated
              Sample.pow Sample.repr App1 [Sample.baseline] 0%nat
              Sample.baseline (of_Z 200) [of_Z 100] eq_refl)
    as (r & h' & E & Hin & _).
  exists r, h'. split; assumption.
Defined.

(** * Further properties of the scripts *)

(** X1.  An address written the spreadsheet way, a column letter from A
    to Z in either case followed by the row number counted from 1, is
    read as the position of that cell: row and column counted from 0. *)
Theorem X1_address_round_trip (lower : bool) (row col : Z) :
  0 <= row -> 0 <= col < 26 ->
  (String.length (Py.str_of_int (row + 1)) <= Py.int_max_str_digits)%nat ->
  cell_position (cell_address lower row col) = Ok (row, col).
Proof.
  intros Hr Hc Hlen. unfold cell_address in *.
  destruct (row + 1) as [| p | p] eqn:E; try lia.
  rewrite str_of_int_pos in *.
  rewrite <- (string_of_list_ascii_of_string
                (NilEmpty.string_of_uint (Pos.to_uint p))).
  rewrite (cell_position_letter_digits lower col (Zpos p)).
  - f_equal. f_equal. lia.
  - exact Hc.
  - apply digits_are_digits.
  - apply int_of_digits_to_uint.
    rewrite string_length_chars. exact Hlen.
Qed.

Lemma X1_address_round_trip_witness :
  cell_address true 9 1 = "b10"
  /\ cell_position (cell_address true 9 1) = Ok (9, 1)
  /\ cell_position (cell_address false 0 25) = Ok (0, 25).
Proof.
  refine (conj eq_refl (conj _ _)).
  - apply (X1_address_round_trip true 9 1);
      [lia | lia | apply Nat.leb_le; reflexivity].
  - apply (X1_address_round_trip false 0 25);
      [lia | lia | apply Nat.leb_le; reflexivity].
Defined.

(** X2.  Row number 0 is not rejected: it is position -1, which the
    frame counts from the end.  On a grid that has rows, an address
    made of a column letter of the grid and the row number 0 gives what
    the last row of that column holds: its number unless it is NaN, what
    [float] reads in its text, and nothing for a blank cell, for a text
    [float] rejects and for any other object. *)
Theorem X2_row_zero_reads_last_row
        (py_float : string -> result float)
        (g : grid) (lower : bool) (col : Z) :
  rows g <> [] -> 0 <= col < 26 -> col < Z.of_nat (width g) ->
  read_orig_value py_float g (Some (cell_address lower (-1) col))
  = number_in py_float
              (cell_at g (List.length (rows g) - 1) (Z.to_nat col)).
Proof.
  intros Hrows Hc Hw.
  assert (Hp : cell_position (cell_address lower (-1) col) = Ok (-1, col)).
  { unfold cell_address.
    change (Py.str_of_int (-1 + 1)) with (string_of_list_ascii ["0"%char]).
    rewrite (cell_position_letter_digits lower col 0);
      [reflexivity | exact Hc | reflexivity | reflexivity]. }
  unfold read_orig_value. unfold cell_address in *.
  rewrite Hp. cbn [rbind fst snd]. unfold iat.
  set (nr := Z.of_nat (List.length (rows g))).
  assert (Hnr : 1 <= nr).
  { subst nr. destruct (rows g); [contradiction | cbn; lia]. }
  replace ((- nr <=? -1)%Z && (-1 <? nr)%Z
           && (- Z.of_nat (width g) <=? col)%Z
           && (col <? Z.of_nat (width g))%Z) with true.
  2:{ symmetry. repeat (apply andb_true_iff; split);
      first [apply Z.leb_le | apply Z.ltb_lt]; lia. }
  cbn [rbind].
  replace (-1 mod nr) with (nr - 1).
  2:{ apply Z.mod_unique with (q := -1); lia. }
  rewrite (Z.mod_small col) by lia.
  replace (Z.to_nat (nr - 1)) with (List.length (rows g) - 1)%nat
    by (subst nr; lia).
  destruct (cell_at g (List.length (rows g) - 1) (Z.to_nat col))
    as [| x | t |]; cbn [isna negb to_float rbind number_in];
    try reflexivity.
  - destruct (is_nan x); reflexivity.
  - destruct (py_float t); reflexivity.
Qed.

Lemma X2_row_zero_reads_last_row_witness :
  read_orig_value Sample2.py_float Sample.headless (Some "C0")
  = Some (of_Z 6).
Proof.
  apply (X2_row_zero_reads_last_row Sample2.py_float Sample.headless false 2);
    [discriminate | lia | cbn; lia].
Defined.

(** X3.  The frame [read_uploaded_excel] returns, in either mode, has
    exactly the columns Flow_orig, Head_orig, Power_orig_kW, all three of
    one length, at most the number of rows below the first.  In
    auto-detect mode a value of the frame is NaN only where a cell of
    its column, below the first row, holds a text that [float] reads as
    NaN: such a text is not dropped as a blank cell is.  In fixed-range
    mode the length is five, or the number of rows below the first if
    the grid has fewer.  The original diameter returned is the one the
    cell gives, in both modes. *)
Theorem X3_read_frame_shape
        (py_float : string -> result float)
        (g : grid) (mode : bool) (oc : option string)
        (df : DataFrame) (orig : option float) :
  read_uploaded_excel py_float g mode oc = Ok (df, orig) ->
  orig = read_orig_value py_float g oc
  /\ exists fl hd pw,
      df = baseline_frame fl hd pw
      /\ List.length fl = List.length pw
      /\ List.length hd = List.length pw
      /\ (List.length pw <= List.length (rows g) - 1)%nat
      /\ if mode
         then forall c col x,
             In (c, col) [(0%nat, fl); (1%nat, hd); (2%nat, pw)] ->
             In x col -> is_nan x = true ->
             exists r t, (1 <= r < List.length (rows g))%nat
                         /\ cell_at g r c = Text t
                         /\ py_float t = Ok x
         else List.length pw = Nat.min 5 (List.length (rows g) - 1).
Proof.
  intros H.
  destruct (read_frame_columns py_float g mode oc df orig H)
    as (Ho & xs0 & xs1 & xs2 & Hcols & Hdf).
  split; [exact Ho |].
  pose proof (Hcols 0%nat xs0 ltac:(cbn; auto)) as E0.
  pose proof (Hcols 1%nat xs1 ltac:(cbn; auto)) as E1.
  pose proof (Hcols 2%nat xs2 ltac:(cbn; auto)) as E2.
  destruct mode.
  - cbv zeta in Hdf. subst df.
    destruct (astype_dropna py_float _ _ E0) as [L0 _].
    destruct (astype_dropna py_float _ _ E1) as [L1 _].
    destruct (astype_dropna py_float _ _ E2) as [L2 _].
    rewrite length_skipn, column_cells_length in L0, L1, L2.
    eexists. eexists. eexists. split; [reflexivity |].
    rewrite !length_firstn.
    split; [lia |]. split; [lia |]. split; [lia |].
    intros c col x Hc Hx Hnan.
    destruct (read_frame_cells py_float g true oc _ _ _ orig H c col x Hc Hx)
      as (r & Hr & Hna & Ex).
    destruct (nan_from_text py_float _ x (Hna eq_refl) Ex Hnan)
      as (t & Et & Ept).
    exists r, t. auto.
  - subst df.
    apply map_result_length in E0, E1, E2.
    rewrite length_firstn, length_skipn, column_cells_length in E0, E1, E2.
    eexists. eexists. eexists. split; [reflexivity |].
    repeat split; lia.
Qed.

Lemma X3_read_frame_shape_witness :
  frame_of (read_uploaded_excel Sample2.py_float Sample.with_nan_text true
                                None)
  = Ok (baseline_frame [of_Z 10; nan; of_Z 12] (map of_Z [20; 21; 22])
                       (map of_Z [30; 31; 32]))
  /\ exists r t,
      cell_at Sample.with_nan_text r 0 = Text t
      /\ Sample2.py_float t = Ok nan.
Proof.
  split; [reflexivity |].
  destruct (X3_read_frame_shape
              Sample2.py_float Sample.with_nan_text true None
              (baseline_frame [of_Z 10; nan; of_Z 12] (map of_Z [20; 21; 22])
                              (map of_Z [30; 31; 32]))
              None eq_refl)
    as (_ & fl & hd & pw & E & _ & _ & _ & N).
  injection E as <- _ _.
  destruct (N 0%nat [of_Z 10; nan; of_Z 12] nan) as (r & t & _ & Ht & Hp);
    [cbn; auto | cbn; auto | reflexivity |].
  exists r, t. split; [exact Ht | exact Hp].
Defined.

(** X4.  The baseline the upload branch of [app_streamlit3.py] builds
    has the columns Flow_input, Head_m, Power_input_kW and Efficiency_%,
    all four of one length, at most the number of rows of the grid.  A
    flow, head or power in it is NaN only where a cell of its column
    holds a text that [float] reads as NaN. *)
Theorem X4_upload_branch_shape
        (py_float : string -> result float) (g : grid) (df : DataFrame) :
  upload_branch py_float g = Ok df ->
  exists fl hd pw,
    df = [("Flow_input", fl); ("Head_m", hd); ("Power_input_kW", pw);
          ("Efficiency_%", efficiency fl hd pw)]
    /\ rectangular (List.length pw) df
    /\ (List.length pw <= List.length (rows g))%nat
    /\ forall c col x,
        In (c, col) [(0%nat, fl); (1%nat, hd); (2%nat, pw)] ->
        In x col -> is_nan x = true ->
        exists r t, (r < List.length (rows g))%nat
                    /\ cell_at g r c = Text t
                    /\ py_float t = Ok x.
Proof.
  intros H.
  destruct (upload_branch_columns py_float g df H)
    as (xs0 & xs1 & xs2 & Hcols & Hdf).
  cbv zeta in Hdf. subst df.
  pose proof (Hcols 0%nat xs0 ltac:(cbn; auto)) as E0.
  pose proof (Hcols 1%nat xs1 ltac:(cbn; auto)) as E1.
  pose proof (Hcols 2%nat xs2 ltac:(cbn; auto)) as E2.
  destruct (astype_dropna py_float _ _ E0) as [L0 F0].
  destruct (astype_dropna py_float _ _ E1) as [L1 F1].
  destruct (astype_dropna py_float _ _ E2) as [L2 F2].
  rewrite column_cells_length in L0, L1, L2.
  eexists. eexists. eexists. split; [reflexivity |].
  split; [| split].
  - unfold rectangular. repeat constructor; cbn [snd];
      rewrite ?efficiency_length, !length_firstn; lia.
  - rewrite length_firstn. lia.
  - assert (Hsrc : forall c xs x,
               (forall y, In y xs ->
                          exists v, In v (column_cells g c)
                                    /\ isna v = false
                                    /\ to_float py_float v = Ok y) ->
               In x xs -> is_nan x = true ->
               exists r t, (r < List.length (rows g))%nat
                           /\ cell_at g r c = Text t
                           /\ py_float t = Ok x).
    { intros c xs x F Hx Hnan.
      destruct (F x Hx) as (v & Hv & Hna & Ev).
      destruct (in_column_cells g c v Hv) as (r & Hr & ->).
      destruct (nan_from_text py_float _ x Hna Ev Hnan) as (t & Et & Ept).
      exists r, t. auto. }
    intros c col x Hc Hx Hnan.
    destruct Hc as [[= <- <-] | [[= <- <-] | [[= <- <-] | []]]];
      apply in_firstn in Hx; eauto.
Qed.

Lemma X4_upload_branch_shape_witness :
  exists df,
    upload_branch Sample2.py_float Sample.headless = Ok df
    /\ rectangular 2 df.
Proof.
  destruct (upload_branch Sample2.py_float Sample.headless)
    as [df |] eqn:E; [| discriminate E].
  destruct (X4_upload_branch_shape _ _ _ E) as (fl & hd & pw & Hdf & R & _).
  exists df. split; [reflexivity |].
  vm_compute in E. injection E as E. rewrite Hdf in E.
  injection E as _ _ Epw _. subst pw. exact R.
Defined.

(** X5.  The manual branch of [app_streamlit3.py] keeps the rows in
    which some value is not zero, in the order entered, and drops the
    others: a row of three zeros, of either sign, is never a sample, and
    every other row entered is one.  The four columns of its frame have
    one length, the number of rows kept. *)
Theorem X5_manual_branch_rows (manual_data : list (float * float * float)) :
  let kept := filter (fun row => negb (all_zero row)) manual_data in
  manual_branch manual_data
  = [("Flow_input", map (fun r => fst (fst r)) kept);
     ("Head_m", map (fun r => snd (fst r)) kept);
     ("Power_input_kW", map snd kept);
     ("Efficiency_%",
      efficiency (map (fun r => fst (fst r)) kept)
                 (map (fun r => snd (fst r)) kept) (map snd kept))]
  /\ rectangular (List.length kept) (manual_branch manual_data)
  /\ (List.length kept <= List.length manual_data)%nat
  /\ (forall row, In row kept <-> In row manual_data /\ all_zero row = false).
Proof.
  intros kept.
  assert (Hrow : forall row, nonzero_row row = negb (all_zero row)).
  { intros [[f h] p]. unfold nonzero_row, all_zero.
    assert (Hz : forall x, eqb x zero = is_zero x).
    { intros x. destruct x as [s | s | | s m e]; try reflexivity;
        destruct s; reflexivity. }
    rewrite !Hz. destruct (is_zero f), (is_zero h), (is_zero p); reflexivity. }
  assert (Hk : filter nonzero_row manual_data = kept).
  { subst kept. apply filter_ext. exact Hrow. }
  unfold manual_branch. rewrite Hk.
  split; [reflexivity |]. split; [| split].
  - unfold rectangular. repeat constructor; cbn [snd];
      rewrite ?efficiency_length, !length_map; lia.
  - subst kept. apply filter_length_le.
  - intros row. subst kept. rewrite filter_In.
    destruct (all_zero row); cbn; intuition discriminate.
Qed.

(** X6.  The engines keep a frame rectangular.  When every column of
    the input has [n] rows and the call returns, every column of the
    returned table has [n] rows: the base columns, each target's flow,
    head and power, and in [app_streamlit3.py] its efficiency. *)
Theorem X6_engine_keeps_rows
        (libm_pow : float -> float -> float) (float_repr : float -> string)
        (v : variant) (h : heap) (df : ref) (t : DataFrame) (n : nat)
        (D_orig : float) (new_dias : list float) (fl hd pw : Series) :
  nth_error h df = Some t ->
  rectangular n t ->
  getitem t (flow_label v) = Ok fl ->
  getitem t (head_label v) = Ok hd ->
  getitem t (power_label v) = Ok pw ->
  is_zero D_orig = false ->
  forallb (pow_ok libm_pow D_orig) new_dias = true ->
  exists out h' t',
    engine libm_pow float_repr v df D_orig new_dias h = (Ok out, h')
    /\ nth_error h' out = Some t'
    /\ rectangular n t'.
Proof.
  intros Hnth R Hfl Hhd Hpw Hz Hpow.
  eexists. eexists. eexists.
  split; [apply (engine_run libm_pow float_repr v h df t D_orig new_dias
                            fl hd pw); assumption |].
  split; [apply nth_error_last |].
  apply final_table_rectangular; [exact R | ..];
    eapply getitem_rectangular; eassumption.
Qed.

Lemma X6_engine_keeps_rows_witness :
  exists out h' t',
    engine Sample.pow Sample.repr App3 0%nat (of_Z 200) [of_Z 100; of_Z 180]
           [Sample.baseline3] = (Ok out, h')
    /\ nth_error h' out = Some t'
    /\ rectangular 1 t'.
Proof.
  apply (X6_engine_keeps_rows Sample.pow Sample.repr App3 [Sample.baseline3]
                              0%nat Sample.baseline3 1 (of_Z 200)
                              [of_Z 100; of_Z 180]
                              [of_Z 100] [of_Z 20] [of_Z 5]);
    try reflexivity.
  repeat constructor.
Defined.

(** X7.  The edge cases of the engines.  With an empty list of targets
    the call returns a copy of its input, whatever the original diameter
    is, zero included.  With a target to convert, an original diameter
    of zero raises [ZeroDivisionError], and a frame without its flow
    column raises [KeyError]; in both cases the copy is still equal to
    the input when the exception leaves. *)
Theorem X7_engine_edge_cases
        (libm_pow : float -> float -> float) (float_repr : float -> string)
        (v : variant) (h : heap) (df : ref) (t : DataFrame)
        (D_orig D : float) (rest : list float) :
  nth_error h df = Some t ->
  engine libm_pow float_repr v df D_orig [] h = (Ok (List.length h), h ++ [t])
  /\ (is_zero D_orig = true ->
      engine libm_pow float_repr v df D_orig (D :: rest) h
      = (Raise ZeroDivisionError, h ++ [t]))
  /\ (is_zero D_orig = false ->
      getitem t (flow_label v) = Raise KeyError ->
      engine libm_pow float_repr v df D_orig (D :: rest) h
      = (Raise KeyError, h ++ [t])).
Proof.
  intros Hnth. split; [| split].
  - destruct v; cbn [engine]; unfold apply_affinity, apply_affinity3;
      unfold bind at 1; unfold df_copy; rewrite Hnth; reflexivity.
  - intros Hz.
    destruct v; cbn [engine]; unfold apply_affinity, apply_affinity3;
      unfold bind at 1; unfold df_copy; rewrite Hnth;
      cbn [for_each]; cbv [bind lift Py.truediv]; rewrite Hz; reflexivity.
  - intros Hz Hk.
    destruct v; cbn [engine flow_label] in *;
      unfold apply_affinity, apply_affinity3;
      unfold bind at 1; unfold df_copy; rewrite Hnth;
      cbn [for_each]; cbv [bind lift Py.truediv]; rewrite Hz;
      rewrite run_getitem, Hk; reflexivity.
Qed.

Lemma X7_engine_edge_cases_witness :
  engine Sample.pow Sample.repr App 0%nat zero [of_Z 100] [Sample.baseline]
  = (Raise ZeroDivisionError, [Sample.baseline; Sample.baseline])
  /\ engine Sample.pow Sample.repr App 0%nat (of_Z 200) [of_Z 100]
            [Sample.baseline3]
     = (Raise KeyError, [Sample.baseline3; Sample.baseline3]).
Proof.
  split.
  - destruct (X7_engine_edge_cases Sample.pow Sample.repr App
                [Sample.baseline] 0%nat Sample.baseline zero (of_Z 100) []
                eq_refl) as (_ & H & _).
    apply H. reflexivity.
  - destruct (X7_engine_edge_cases Sample.pow Sample.repr App
                [Sample.baseline3] 0%nat Sample.baseline3 (of_Z 200)
                (of_Z 100) [] eq_refl) as (_ & _ & H).
    apply H; reflexivity.
Defined.

(** X8.  On a frame that has the base columns and with an original
    diameter that is not zero, the engines fail in one way only: the
    call returns exactly when, for every target, the square and the cube
    of the ratio exist, and raises [OverflowError] otherwise.  Either
    way only the copy was written. *)
Theorem X8_engine_overflow_only
        (libm_pow : float -> float -> float) (float_repr : float -> string)
        (v : variant) (h : heap) (df : ref) (t : DataFrame)
        (D_orig : float) (new_dias : list float) (fl hd pw : Series) :
  nth_error h df = Some t ->
  getitem t (flow_label v) = Ok fl ->
  getitem t (head_label v) = Ok hd ->
  getitem t (power_label v) = Ok pw ->
  is_zero D_orig = false ->
  exists t',
    engine libm_pow float_repr v df D_orig new_dias h
    = (if forallb (pow_ok libm_pow D_orig) new_dias
       then Ok (List.length h) else Raise OverflowError,
       h ++ [t']).
Proof.
  intros Hnth Hfl Hhd Hpw Hz.
  destruct (engine_outcome_run libm_pow float_repr v h df t D_orig new_dias
                               fl hd pw Hnth Hfl Hhd Hpw Hz)
    as (t' & E & _).
  exists t'. exact E.
Qed.

Lemma X8_engine_overflow_only_witness :
  exists t',
    engine Sample.pow Sample.repr App 0%nat (of_Z 1)
           [of_Z 2; of_Z (10 ^ 200); of_Z 3] [Sample.baseline]
    = (Raise OverflowError, [Sample.baseline; t']).
Proof.
  apply (X8_engine_overflow_only Sample.pow Sample.repr App [Sample.baseline]
                                 0%nat Sample.baseline (of_Z 1)
                                 [of_Z 2; of_Z (10 ^ 200); of_Z 3]
                                 [of_Z 100] [of_Z 20] [of_Z 5]);
    reflexivity.
Defined.

(** X9.  A target repeated at the end of the list changes nothing: the
    engine returns the same table, value for value, as without the
    repetition. *)
Theorem X9_repeated_target_idempotent
        (libm_pow : float -> float -> float) (float_repr : float -> string)
        (v : variant) (h : heap) (df : ref) (t : DataFrame)
        (D_orig D : float) (new_dias : list float) (fl hd pw : Series) :
  nth_error h df = Some t ->
  getitem t (flow_label v) = Ok fl ->
  getitem t (head_label v) = Ok hd ->
  getitem t (power_label v) = Ok pw ->
  is_zero D_orig = false ->
  forallb (pow_ok libm_pow D_orig) new_dias = true ->
  labels_distinct float_repr new_dias ->
  In D new_dias ->
  engine libm_pow float_repr v df D_orig (new_dias ++ [D]) h
  = engine libm_pow float_repr v df D_orig new_dias h.
Proof.
  intros Hnth Hfl Hhd Hpw Hz Hpow Hd HD.
  assert (Hpow' : forallb (pow_ok libm_pow D_orig) (new_dias ++ [D]) = true).
  { rewrite forallb_app, Hpow. cbn. rewrite andb_true_r.
    rewrite forallb_forall in Hpow. apply Hpow. exact HD. }
  rewrite (engine_run libm_pow float_repr v h df t D_orig (new_dias ++ [D])
                      fl hd pw) by assumption.
  rewrite (engine_run libm_pow float_repr v h df t D_orig new_dias
                      fl hd pw) by assumption.
  rewrite final_table_repeat by assumption. reflexivity.
Qed.

Lemma X9_repeated_target_idempotent_witness :
  engine Sample.pow Sample.repr App3 0%nat (of_Z 200)
         ([of_Z 100; of_Z 180] ++ [of_Z 100]) [Sample.baseline3]
  = engine Sample.pow Sample.repr App3 0%nat (of_Z 200)
           [of_Z 100; of_Z 180] [Sample.baseline3].
Proof.
  apply (X9_repeated_target_idempotent
           Sample.pow Sample.repr App3 [Sample.baseline3] 0%nat
           Sample.baseline3 (of_Z 200) (of_Z 100) [of_Z 100; of_Z 180]
           [of_Z 100] [of_Z 20] [of_Z 5]);
    try reflexivity.
  - intros D1 D2 [<- | [<- | []]] [<- | [<- | []]] E;
      try reflexivity; vm_compute in E; discriminate E.
  - left. reflexivity.
Defined.

(** X10.  What the per-diameter export of [app_streamlit1.py] writes.
    The sheet "original" is the input rounded.  The sheet of a target
    [D] is a copy of the input to which the three columns of [D] are
    added: these are the engine's values rounded to [decimals] places,
    while the flow, head and power columns of that sheet are the input's
    as they are, not rounded. *)
Theorem X10_per_sheet_tables
        (libm_pow : float -> float -> float) (float_repr : float -> string)
        (np_round : Z -> float -> float)
        (h : heap) (df_orig df_out : ref) (t : DataFrame)
        (D_orig : float) (new_dias : list float) (decimals : Z)
        (fl hd pw : Series) :
  nth_error h df_orig = Some t ->
  getitem t "Flow_orig" = Ok fl ->
  getitem t "Head_orig" = Ok hd ->
  getitem t "Power_orig_kW" = Ok pw ->
  is_zero D_orig = false ->
  forallb (pow_ok libm_pow D_orig) new_dias = true ->
  exists tables h',
    build_excel_bytes libm_pow float_repr np_round
                      df_orig df_out D_orig new_dias true decimals h
    = (Ok (("original", df_round np_round decimals t)
             :: combine (map (fun D => value_or "" (sheet_name float_repr D))
                             new_dias) tables), h')
    /\ List.length tables = List.length new_dias
    /\ forall i D r2 r3 sheet,
        nth_error new_dias i = Some D ->
        nth_error tables i = Some sheet ->
        float_pow libm_pow (div D D_orig) 2 = Ok r2 ->
        float_pow libm_pow (div D D_orig) 3 = Ok r3 ->
        getitem sheet "Flow_orig" = Ok fl
        /\ getitem sheet "Head_orig" = Ok hd
        /\ getitem sheet "Power_orig_kW" = Ok pw
        /\ getitem sheet ("Flow_D" ++ float_repr D)%string
           = Ok (map (fun flow => np_round decimals (mul flow (div D D_orig))) fl)
        /\ getitem sheet ("Head_D" ++ float_repr D)%string
           = Ok (map (fun head => np_round decimals (mul head r2)) hd)
        /\ getitem sheet ("Power_kW_D" ++ float_repr D)%string
           = Ok (map (fun power => np_round decimals (mul power r3)) pw).
Proof.
  intros Hnth Hfl Hhd Hpw Hz Hpow.
  pose proof (build_excel_bytes_sheets libm_pow float_repr np_round h df_orig
                df_out t D_orig new_dias decimals fl hd pw
                Hnth Hfl Hhd Hpw Hz Hpow) as E.
  eexists (map (sheet_table libm_pow float_repr np_round decimals D_orig
                            fl hd pw t) new_dias), _.
  split; [| split].
  - rewrite E. f_equal. f_equal. f_equal.
    clear. induction new_dias as [| D l IH]; [reflexivity |].
    cbn [map combine]. f_equal. exact IH.
  - apply length_map.
  - intros i D r2 r3 sheet HD Hs E2 E3.
    rewrite nth_error_map, HD in Hs. cbn in Hs. injection Hs as <-.
    unfold sheet_table. rewrite E2, E3. cbn [value_or set_all fold_left fst snd].
    unfold series_round, series_mul_scalar. rewrite !map_map.
    repeat split;
      rewrite ?getitem_setitem_same;
      rewrite ?getitem_setitem_other by tag_neq;
      rewrite ?getitem_setitem_same; auto.
Qed.

Lemma X10_per_sheet_tables_witness :
  exists tables h',
    build_excel_bytes Sample.pow Sample.repr Sample.round
                      0%nat 0%nat (of_Z 200) [of_Z 100; of_Z 180] true 2
                      [Sample.baseline]
    = (Ok (("original", df_round Sample.round 2 Sample.baseline)
             :: combine ["D100"; "D180"] tables), h')
    /\ List.length tables = 2%nat.
Proof.
  destruct (X10_per_sheet_tables
              Sample.pow Sample.repr Sample.round [Sample.baseline]
              0%nat 0%nat Sample.baseline (of_Z 200) [of_Z 100; of_Z 180] 2
              [of_Z 100] [of_Z 20] [of_Z 5]
              eq_refl eq_refl eq_refl eq_refl eq_refl eq_refl)
    as (tables & h' & E & L & _).
  exists tables, h'. split; [exact E | exact L].
Defined.

(** X11.  The name of a diameter's sheet always exists, whatever the
    float is, starts with the letter D and has at most 31 characters. *)
Theorem X11_sheet_name_short (float_repr : float -> string) (D : float) :
  exists name,
    sheet_name float_repr D = Ok name
    /\ (String.length name <= 31)%nat
    /\ PyStr.startswith "D" name = true.
Proof.
  unfold sheet_name.
  assert (H : exists body,
             (if Py.is_integer D
              then (let? n := Py.int_of_float D in Ok (Py.str_of_int n))%result
              else Ok (float_repr D)) = Ok body).
  { destruct (Py.is_integer D) eqn:E; [| eauto].
    destruct D as [s | s | | s m e]; cbn in E; try discriminate;
      cbn; eauto. }
  destruct H as (body & ->). cbn [rbind].
  eexists. split; [reflexivity |]. split.
  - apply substring_length.
  - cbn. destruct (ascii_dec "D" "D"); [| contradiction].
    destruct (substring 0 30 body); reflexivity.
Qed.

(** X12.  The preview of [app_streamlit1.py] never falls into its
    [except] branch on a table the engine returned for a frame of the
    reader.  Its flow chart holds Flow_orig and the flow column of every
    distinct target, its head and power charts likewise, and no chart
    column has more than ten rows. *)
Theorem X12_preview_charts
        (libm_pow : float -> float -> float) (float_repr : float -> string)
        (h : heap) (df : ref) (D_orig : float) (new_dias : list float)
        (fl hd pw : Series) :
  nth_error h df = Some (baseline_frame fl hd pw) ->
  is_zero D_orig = false ->
  forallb (pow_ok libm_pow D_orig) new_dias = true ->
  exists out h' t' c1 c2 c3,
    apply_affinity libm_pow float_repr df D_orig new_dias h = (Ok out, h')
    /\ nth_error h' out = Some t'
    /\ preview_charts t' = Some (c1, c2, c3)
    /\ columns c1
       = "Flow_orig"
         :: map (String.append "Flow_D")
                (first_occurrences (map float_repr new_dias))
    /\ columns c2
       = "Head_orig"
         :: map (String.append "Head_D")
                (first_occurrences (map float_repr new_dias))
    /\ columns c3
       = "Power_orig_kW"
         :: map (String.append "Power_kW_D")
                (first_occurrences (map float_repr new_dias))
    /\ Forall (fun kv => (List.length (snd kv) <= 10)%nat) (c1 ++ c2 ++ c3).
Proof.
  intros Hnth Hz Hpow.
  set (t := baseline_frame fl hd pw) in *.
  set (T := final_table libm_pow float_repr false D_orig fl hd pw new_dias t).
  assert (Hcols : columns T
                  = columns t
                    ++ flat_map (group_labels false)
                                (first_occurrences (map float_repr new_dias)))
    by (apply columns_final_groups; reflexivity).
  assert (Hchart : forall base tag,
             In base (columns t) ->
             In tag ["Flow_D"; "Head_D"; "Power_kW_D"] ->
             exists c,
               chart_frame (df_head 10 T) base tag = Ok c
               /\ columns c
                  = base :: map (String.append tag)
                                (first_occurrences (map float_repr new_dias))
               /\ Forall (fun kv => (List.length (snd kv) <= 10)%nat) c).
  { intros base tag Hb Ht. unfold chart_frame.
    rewrite columns_df_head, Hcols, filter_app, filter_groups by exact Ht.
    replace (filter (PyStr.startswith tag) (columns t)) with (@nil string)
      by (destruct Ht as [<- | [<- | [<- | []]]]; reflexivity).
    cbn [app].
    assert (Hsel : is_ok (select (df_head 10 T)
                            (base :: map (String.append tag)
                                         (first_occurrences
                                            (map float_repr new_dias))))
                   = true).
    { apply select_present. intros k Hk. apply getitem_in_columns.
      rewrite columns_df_head, Hcols. apply in_or_app.
      destruct Hk as [<- | Hk]; [left; exact Hb | right].
      apply in_map_iff in Hk. destruct Hk as (r & <- & Hr).
      apply in_flat_map. exists r. split; [exact Hr |].
      destruct Ht as [<- | [<- | [<- | []]]]; cbn; auto. }
    destruct (select (df_head 10 T) _) as [c |] eqn:E; [| discriminate].
    exists c. split; [reflexivity |]. split.
    - apply (select_columns _ _ _ E).
    - apply (select_forall _ _ _ _ (df_head_rows 10 T) E). }
  destruct (Hchart "Flow_orig" "Flow_D") as (c1 & E1 & C1 & R1);
    [cbn; auto | cbn; auto |].
  destruct (Hchart "Head_orig" "Head_D") as (c2 & E2 & C2 & R2);
    [cbn; auto | cbn; auto |].
  destruct (Hchart "Power_orig_kW" "Power_kW_D") as (c3 & E3 & C3 & R3);
    [cbn; auto | cbn; auto |].
  exists (List.length h), (h ++ [T]), T, c1, c2, c3.
  split; [apply (apply_affinity_run libm_pow float_repr h df t D_orig
                                    new_dias fl hd pw);
          try assumption; reflexivity |].
  split; [apply nth_error_last |].
  split; [unfold preview_charts; rewrite E1, E2, E3; reflexivity |].
  split; [exact C1 |]. split; [exact C2 |]. split; [exact C3 |].
  rewrite !Forall_app. auto.
Qed.

Lemma X12_preview_charts_witness :
  exists out h' t' c1 c2 c3,
    apply_affinity Sample.pow Sample.repr 0%nat (of_Z 200)
                   [of_Z 180; of_Z 180; of_Z 160] [Sample.baseline]
    = (Ok out, h')
    /\ nth_error h' out = Some t'
    /\ preview_charts t' = Some (c1, c2, c3)
    /\ columns c1 = ["Flow_orig"; "Flow_D180.0"; "Flow_D160.0"].
Proof.
  destruct (X12_preview_charts
              Sample.pow Sample.repr [Sample.baseline] 0%nat (of_Z 200)
              [of_Z 180; of_Z 180; of_Z 160] [of_Z 100] [of_Z 20] [of_Z 5]
              eq_refl eq_refl eq_refl)
    as (out & h' & t' & c1 & c2 & c3 & E & N & P & C1 & _).
  exists out, h', t', c1, c2, c3. auto.
Defined.

(** X13.  The list of target diameters read back from what was typed.
    When each entry is the text of a number with any white space before
    and after it, and the entries are joined by commas, the parsing of
    the three scripts gives exactly these numbers, in the order typed.
    It holds for the empty list too: an empty field gives no diameter. *)
Theorem X13_diameters_round_trip
        (float_repr : float -> string) (py_float : string -> result float)
        (es : list (list ascii * float * list ascii)) :
  Forall well_padded es ->
  Forall (fun e => readable float_repr py_float (snd (fst e))) es ->
  parse_new_dias py_float
    (string_of_list_ascii (PyStr.join ","%char (map (padded float_repr) es)))
  = Ok (map (fun e => snd (fst e)) es).
Proof.
  intros Hw Hr.
  rewrite parse_pieces.
  2:{ apply Forall_map. rewrite Forall_forall in *. intros e He.
      apply (padded_no_comma float_repr py_float); auto. }
  induction es as [| e es IH]; [reflexivity |].
  apply Forall_cons_iff in Hw. destruct Hw as [We Ws].
  apply Forall_cons_iff in Hr. destruct Hr as [Re Rs].
  destruct (padded_strip float_repr py_float e We Re) as [E B].
  cbn [map filter]. rewrite B. cbn [negb map_result].
  rewrite E, string_of_list_ascii_of_string.
  destruct e as [[l D] r]. cbn [fst snd] in *.
  destruct Re as (_ & _ & _ & ->).
  rewrite (IH Ws Rs). reflexivity.
Qed.

Lemma X13_diameters_round_trip_witness :
  parse_new_dias Sample2.py_float " 180.0,160.0 ,140.0"%string
  = Ok [of_Z 180; of_Z 160; of_Z 140].
Proof.
  refine (X13_diameters_round_trip
            Sample.repr Sample2.py_float
            [([" "%char], of_Z 180, []); ([], of_Z 160, [" "%char]);
             ([], of_Z 140, [])] _ _).
  - repeat constructor.
  - repeat constructor; cbn [fst snd]; vm_compute;
      try discriminate; try reflexivity; intuition discriminate.
Defined.

(** X14.  Entries of the diameter list that are empty or white space are
    skipped: the field parses as it does with these entries taken out.
    One entry that is not blank and that [float] rejects makes the whole
    parsing fail, wherever it stands in the list. *)
Theorem X14_blank_skipped_bad_rejected
        (py_float : string -> result float) (ps : list (list ascii)) :
  Forall (fun p => ~ In ","%char p) ps ->
  parse_new_dias py_float (string_of_list_ascii (PyStr.join ","%char ps))
  = parse_new_dias py_float
      (string_of_list_ascii
         (PyStr.join ","%char (filter (fun p => negb (is_blank p)) ps)))
  /\ forall p e,
      In p ps -> is_blank p = false ->
      py_float (string_of_list_ascii (PyStr.strip p)) = Raise e ->
      exists e',
        parse_new_dias py_float
          (string_of_list_ascii (PyStr.join ","%char ps)) = Raise e'.
Proof.
  intros Hall.
  assert (Hkept : Forall (fun p => ~ In ","%char p)
                         (filter (fun p => negb (is_blank p)) ps)).
  { rewrite Forall_forall in *. intros p Hp.
    apply filter_In in Hp. apply Hall, Hp. }
  assert (Hidem : filter (fun p => negb (is_blank p))
                         (filter (fun p => negb (is_blank p)) ps)
                  = filter (fun p => negb (is_blank p)) ps).
  { clear. induction ps as [| p ps IH]; [reflexivity |].
    cbn [filter]. destruct (negb (is_blank p)) eqn:E; [| exact IH].
    cbn [filter]. rewrite E, IH. reflexivity. }
  rewrite (parse_pieces py_float ps Hall). split.
  - rewrite (parse_pieces py_float _ Hkept), Hidem. reflexivity.
  - intros p e Hp Hb He.
    apply (map_result_fails _ _ p e); [| exact He].
    apply filter_In. split; [exact Hp |]. rewrite Hb. reflexivity.
Qed.

Lemma X14_blank_skipped_bad_rejected_witness :
  parse_new_dias Sample2.py_float "180.0, ,x1,,160.0"%string
  = parse_new_dias Sample2.py_float "180.0,x1,160.0"%string
  /\ exists e',
      parse_new_dias Sample2.py_float "180.0, ,x1,,160.0"%string = Raise e'.
Proof.
  destruct (X14_blank_skipped_bad_rejected
              Sample2.py_float
              (map list_ascii_of_string
                   ["180.0"; " "; "x1"; ""; "160.0"]%string))
    as [E F].
  - repeat constructor; vm_compute; intuition discriminate.
  - split; [exact E |].
    apply (F (list_ascii_of_string "x1") ValueError);
      [vm_compute; auto | reflexivity | reflexivity].
Defined.

(** X15.  A run of [app_streamlit.py], whatever is on its widgets.  It
    ends with one of its messages, waiting for the button, with the
    file, or with an OverflowError of the engine: never with a KeyError,
    an IndexError or a division by zero.  Nothing is computed before the
    button is pressed, so a run without it cannot raise.  When the file
    is offered, the button was pressed, at least three diameters were
    parsed, the original diameter is not [<= 0], and the only sheet has
    the base columns followed by three columns per diameter typed. *)
Theorem X15_app_streamlit_outcomes
        (libm_pow : float -> float -> float) (float_repr : float -> string)
        (np_round : Z -> float -> float) (py_float : string -> result float)
        (i : inputs) (h : heap) :
  exists r h',
    app_streamlit libm_pow float_repr np_round py_float i h = (r, h')
    /\ engine_outcome r
    /\ (button i = false -> is_ok r = true)
    /\ forall sheets, r = Ok (Download sheets) ->
        button i = true
        /\ exists g df orig_cell_value new_dias sheet,
            uploaded i = Some g
            /\ read_uploaded_excel
                 py_float g (detect_range i)
                 (if orig_from_cell_checkbox i then Some (orig_cell_addr i)
                  else None) = Ok (df, orig_cell_value)
            /\ le_zero (resolve_orig i orig_cell_value) = false
            /\ parse_new_dias py_float (new_dias_input i) = Ok new_dias
            /\ (min_new <= List.length new_dias)%nat
            /\ sheets = [("Sheet1", sheet)]
            /\ columns sheet = wide_columns float_repr new_dias.
Proof.
  unfold app_streamlit.
  destruct (uploaded i) as [g |];
    [| exists (Ok Info), h; cbn; repeat split; auto; discriminate].
  destruct (read_uploaded_excel _ _ _ _) as [[df v] | e] eqn:R;
    [| exists (Ok ReadFailed), h; cbn; repeat split; auto; discriminate].
  unfold bind at 1. unfold alloc. cbn beta iota.
  destruct (parse_new_dias py_float (new_dias_input i)) as [new_dias | e];
    [| eexists _, _; split; [reflexivity |];
       cbn; repeat split; auto; discriminate].
  destruct (List.length new_dias <? min_new)%nat eqn:L;
    [eexists _, _; split; [reflexivity |];
     cbn; repeat split; auto; discriminate |].
  destruct (le_zero (resolve_orig i v)) eqn:Z;
    [eexists _, _; split; [reflexivity |];
     cbn; repeat split; auto; discriminate |].
  destruct (button i) eqn:B;
    [| eexists _, _; split; [reflexivity |];
       cbn; repeat split; auto; discriminate].
  destruct (read_frame_baseline _ _ _ _ _ _ R) as (fl & hd & pw & ->).
  destruct (generate_outcome libm_pow float_repr np_round (h ++ [baseline_frame fl hd pw])
              (List.length h) (baseline_frame fl hd pw)
              (resolve_orig i v) new_dias fl hd pw
              (nth_error_last _ _) eq_refl eq_refl eq_refl
              (le_zero_nonzero _ Z))
    as (r & h' & E & O & S).
  unfold bind. rewrite E.
  destruct r as [sheet | e].
  - eexists _, _. split; [reflexivity |].
    split; [exact I |]. split; [discriminate |].
    intros sheets [= <-]. split; [reflexivity |].
    exists g, (baseline_frame fl hd pw), v, new_dias, sheet.
    destruct (S sheet eq_refl) as [_ C].
    apply Nat.ltb_ge in L. auto 10.
  - eexists _, _. split; [reflexivity |].
    split; [exact O |]. split; [discriminate |]. discriminate.
Qed.

(** X16.  A run of [app_streamlit1.py], whatever is on its widgets.  It
    ends with a message, waiting, with the workbook, or with an
    OverflowError of the engine, and with nothing else.  The workbook
    has the sheet "original" and then one sheet per diameter typed,
    named as [sheet_name] names them, when the per-diameter export is
    chosen; it has the single sheet "converted", with the base columns
    and the columns of each distinct diameter, when it is not.  As the
    engine runs before the button, a run that ends waiting for the
    button gives the workbook once the button is pressed. *)
Theorem X16_app_streamlit1_outcomes
        (libm_pow : float -> float -> float) (float_repr : float -> string)
        (np_round : Z -> float -> float) (py_float : string -> result float)
        (i : inputs) (h : heap) :
  exists r h',
    app_streamlit1 libm_pow float_repr np_round py_float i h = (r, h')
    /\ engine_outcome r
    /\ (forall sheets, r = Ok (Download sheets) ->
        button i = true
        /\ exists new_dias,
            parse_new_dias py_float (new_dias_input i) = Ok new_dias
            /\ (MIN_DIAS <= List.length new_dias)%nat
            /\ if export_per_sheet i
               then map (fun w => Ok (fst w)) sheets
                    = Ok "original"%string
                         :: map (sheet_name float_repr) new_dias
               else exists t,
                   sheets = [("converted"%string, t)]
                   /\ columns t
                      = ["Flow_orig"; "Head_orig"; "Power_orig_kW"]%string
                        ++ flat_map (group_labels false)
                             (first_occurrences (map float_repr new_dias)))
    /\ (r = Ok Waiting ->
        exists sheets h'',
          app_streamlit1 libm_pow float_repr np_round py_float
                         (with_button true i) h
          = (Ok (Download sheets), h'')).
Proof.
  unfold app_streamlit1 at 1.
  destruct (uploaded i) as [g |] eqn:U;
    [| exists (Ok Info), h; cbn; repeat split; auto; discriminate].
  destruct (read_uploaded_excel _ _ _ _) as [[df v] | e] eqn:R;
    [| exists (Ok ReadFailed), h; cbn; repeat split; auto; discriminate].
  unfold bind at 1. unfold alloc. cbn beta iota.
  destruct (parse_new_dias py_float (new_dias_input i))
    as [new_dias | e] eqn:Pn;
    [| eexists _, _; split; [reflexivity |];
       cbn; repeat split; auto; discriminate].
  destruct (List.length new_dias <? MIN_DIAS)%nat eqn:L;
    [eexists _, _; split; [reflexivity |];
     cbn; repeat split; auto; discriminate |].
  destruct (le_zero (resolve_orig i v)) eqn:Z;
    [eexists _, _; split; [reflexivity |];
     cbn; repeat split; auto; discriminate |].
  destruct (read_frame_baseline _ _ _ _ _ _ R) as (fl & hd & pw & ->).
  set (t := baseline_frame fl hd pw) in *.
  set (D_orig := resolve_orig i v) in *.
  pose proof (le_zero_nonzero _ Z) as Hz.
  destruct (apply_affinity_outcome libm_pow float_repr (h ++ [t])
              (List.length h) t D_orig new_dias fl hd pw
              (nth_error_last _ _) eq_refl eq_refl eq_refl Hz)
    as (t' & E & T).
  unfold bind at 1. rewrite E.
  destruct (forallb (pow_ok libm_pow D_orig) new_dias) eqn:P;
    [| eexists _, _; split; [reflexivity |];
       cbn; repeat split; auto; discriminate].
  specialize (T eq_refl). cbn beta iota.
  assert (Hpress : exists sheets h'',
             bind (build_excel_bytes libm_pow float_repr np_round
                     (List.length h) (List.length (h ++ [t])) D_orig new_dias
                     (export_per_sheet i) (decimals i))
                  (fun sheets => ret (Download sheets)) ((h ++ [t]) ++ [t'])
             = (Ok (Download sheets), h'')
             /\ if export_per_sheet i
                then map (fun w => Ok (fst w)) sheets
                     = Ok "original"%string
                          :: map (sheet_name float_repr) new_dias
                else exists t0,
                    sheets = [("converted"%string, t0)]
                    /\ columns t0
                       = ["Flow_orig"; "Head_orig"; "Power_orig_kW"]%string
                         ++ flat_map (group_labels false)
                              (first_occurrences (map float_repr new_dias))).
  { destruct (export_per_sheet i).
    - destruct (build_excel_bytes_per_sheet_run
                  libm_pow float_repr np_round ((h ++ [t]) ++ [t'])
                  (List.length h) (List.length (h ++ [t])) t D_orig new_dias
                  (decimals i) fl hd pw
                  (nth_error_before_last _ _ _) eq_refl eq_refl eq_refl Hz P)
        as (sheets & h'' & B & N).
      eexists _, h''. unfold bind. rewrite B. split; [reflexivity |].
      cbn [map fst]. f_equal. exact N.
    - eexists _, _. unfold bind.
      rewrite build_excel_bytes_wide_run. split; [reflexivity |].
      eexists. split; [reflexivity |].
      rewrite columns_df_round, T.
      apply columns_final_groups. reflexivity. }
  destruct Hpress as (sheets & h'' & B & S).
  destruct (button i) eqn:Bt.
  - exists (Ok (Download sheets)), h''.
    split; [exact B |]. split; [exact I |].
    split; [| discriminate].
    intros sheets' [= <-]. split; [reflexivity |].
    exists new_dias. apply Nat.ltb_ge in L. auto.
  - eexists _, _. split; [reflexivity |]. split; [exact I |].
    split; [discriminate |].
    intros _. exists sheets, h''.
    unfold app_streamlit1.
    cbn [with_button uploaded orig_from_cell_checkbox orig_cell_addr
         manual_orig new_dias_input detect_range export_per_sheet decimals
         button].
    rewrite U, R.
    unfold bind at 1. unfold alloc. cbn beta iota.
    rewrite Pn, L.
    change (resolve_orig (with_button true i) v) with D_orig.
    rewrite Z.
    unfold bind at 1. rewrite E. cbn beta iota. exact B.
Qed.

(** X17.  A run of [app_streamlit3.py] when [float] raises nothing but
    ValueError on a text, as Python's does.  It ends idle, with one of
    its messages, with its results, or with an OverflowError of the
    engine, and with nothing else: no chart fails to find its column.
    The results have one set of chart series per diameter typed, each
    read from the columns of that diameter in the result table, and the
    single sheet "Results": the rounded result table, whose columns are
    the four of the baseline and four per distinct diameter. *)
Theorem X17_app_streamlit3_outcomes
        (libm_pow : float -> float -> float) (float_repr : float -> string)
        (np_round : Z -> float -> float) (py_float : string -> result float)
        (i : inputs3) (h : heap) :
  (forall s e, py_float s = Raise e -> e = ValueError) ->
  exists r h',
    app_streamlit3 libm_pow float_repr np_round py_float i h = (r, h')
    /\ engine_outcome r
    /\ forall charts sheets, r = Ok (Results3 charts sheets) ->
        exists new_dias t,
          parse_new_dias py_float (new_dias_input3 i) = Ok new_dias
          /\ new_dias <> []
          /\ le_zero (orig_dia3 i) = false
          /\ sheets = [("Results"%string, df_round np_round (decimals3 i) t)]
          /\ columns t
             = ["Flow_input"; "Head_m"; "Power_input_kW";
                "Efficiency_%"]%string
               ++ flat_map (group_labels true)
                    (first_occurrences (map float_repr new_dias))
          /\ Forall2
               (fun D c =>
                  let '(f, hd, e, p) := c in
                  getitem t ("Flow_D" ++ float_repr D)%string = Ok f
                  /\ getitem t ("Head_D" ++ float_repr D)%string = Ok hd
                  /\ getitem t ("Efficiency_D" ++ float_repr D)%string = Ok e
                  /\ getitem t ("Power_kW_D" ++ float_repr D)%string = Ok p)
               new_dias charts.
Proof.
  intros Hv. unfold app_streamlit3.
  destruct (baseline3 py_float i) as [[df | e] |] eqn:Bl;
    [| exists (Ok ReadFailed3), h; cbn; repeat split; auto; discriminate
     | exists (Ok Idle3), h; cbn; repeat split; auto; discriminate].
  unfold bind at 1. unfold alloc. cbn beta iota.
  destruct (le_zero (orig_dia3 i)) eqn:Z;
    [eexists _, _; split; [reflexivity |];
     cbn; repeat split; auto; discriminate |].
  destruct (parse_new_dias py_float (new_dias_input3 i))
    as [new_dias | e] eqn:Pn.
  2:{ rewrite (parse_raises_value py_float _ _ Hv Pn).
      eexists _, _. split; [reflexivity |].
      cbn; repeat split; auto; discriminate. }
  destruct new_dias as [| D0 l0];
    [eexists _, _; split; [reflexivity |];
     cbn; repeat split; auto; discriminate |].
  cbn beta iota.
  assert (Hne : D0 :: l0 <> []) by discriminate.
  set (new_dias := D0 :: l0) in *. clearbody new_dias.
  destruct (baseline3_frame py_float i df Bl) as (fl & hd & pw & eff & Hdf).
  destruct (apply_affinity3_outcome libm_pow float_repr (h ++ [df])
              (List.length h) df (orig_dia3 i) new_dias fl hd pw
              (nth_error_last _ _)
              ltac:(rewrite Hdf; reflexivity)
              ltac:(rewrite Hdf; reflexivity)
              ltac:(rewrite Hdf; reflexivity)
              (le_zero_nonzero _ Z))
    as (t' & E & T).
  unfold bind at 1. rewrite E.
  destruct (forallb (pow_ok libm_pow (orig_dia3 i)) new_dias) eqn:P;
    [| eexists _, _; split; [reflexivity |];
       cbn; repeat split; auto; discriminate].
  specialize (T eq_refl). cbn beta iota.
  destruct (chart_series_run float_repr (h ++ [df]) t' new_dias)
    as (charts & C & F).
  { intros D k HD Hk. rewrite T.
    apply (getitem_final_present libm_pow float_repr true _ _ _ _ _ _ D);
      assumption. }
  unfold bind at 1. rewrite C. cbn beta iota.
  unfold bind at 1. rewrite build_excel_bytes3_run. cbn beta iota.
  eexists _, _. split; [reflexivity |]. split; [exact I |].
  intros charts' sheets' [= <- <-].
  exists new_dias, t'.
  refine (conj eq_refl (conj Hne (conj eq_refl (conj eq_refl (conj _ F))))).
  rewrite T, columns_final_groups by (rewrite Hdf; reflexivity).
  rewrite Hdf. reflexivity.
Qed.

Lemma X17_app_streamlit3_outcomes_witness :
  exists r h',
    app_streamlit3 Sample.pow Sample.repr Sample.round Sample2.py_float
                   (Sample2.widgets3 false None "100.0, 120.0"%string) []
    = (r, h')
    /\ engine_outcome r.
Proof.
  destruct (X17_app_streamlit3_outcomes
              Sample.pow Sample.repr Sample.round Sample2.py_float
              (Sample2.widgets3 false None "100.0, 120.0"%string) []
              py_float_sample_raises)
    as (r & h' & E & O & _).
  exists r, h'. split; [exact E | exact O].
Defined.

(** X18.  [build_excel_bytes] of [app_streamlit1.py] never changes a
    frame that existed before the call: in either mode, for any
    arguments and whatever its outcome, an exception included, every
    object of the store is after the call what it was before.  The call
    writes only to the frames it creates, the rounded frames and the
    copy it makes of the input for each diameter. *)
Theorem X18_export_keeps_frames
        (libm_pow : float -> float -> float) (float_repr : float -> string)
        (np_round : Z -> float -> float)
        (h : heap) (df_orig df_out : ref)
        (D_orig : float) (new_dias : list float) (per_sheet : bool)
        (decimals : Z) :
  exists r h',
    build_excel_bytes libm_pow float_repr np_round
                      df_orig df_out D_orig new_dias per_sheet decimals h
    = (r, h')
    /\ forall r0 t0, nth_error h r0 = Some t0 -> nth_error h' r0 = Some t0.
Proof.
  apply (keeps_all (fun _ => True)).
  set (n := List.length h).
  unfold build_excel_bytes, df_round_new. destruct per_sheet.
  - eapply keeps_bind; [apply keeps_new |]. intros rounded _.
    eapply keeps_bind; [apply keeps_value |]. intros orig _.
    eapply keeps_bind; [| intros sheets _; apply keeps_ret; exact I].
    apply keeps_map_py. intros D.
    eapply keeps_bind; [apply keeps_lift |]. intros ratio _.
    eapply keeps_bind; [apply keeps_copy |]. intros temp Htemp.
    cbv beta in Htemp.
    eapply keeps_bind; [apply keeps_getitem |]. intros flow _.
    eapply keeps_bind; [apply keeps_setitem, Htemp |]. intros _ _.
    eapply keeps_bind; [apply keeps_getitem |]. intros head _.
    eapply keeps_bind; [apply keeps_lift |]. intros r2 _.
    eapply keeps_bind; [apply keeps_setitem, Htemp |]. intros _ _.
    eapply keeps_bind; [apply keeps_getitem |]. intros power _.
    eapply keeps_bind; [apply keeps_lift |]. intros r3 _.
    eapply keeps_bind; [apply keeps_setitem, Htemp |]. intros _ _.
    eapply keeps_bind; [apply keeps_lift |]. intros name _.
    eapply keeps_bind; [apply keeps_value |]. intros t _.
    apply keeps_ret. exact I.
  - eapply keeps_bind; [apply keeps_new |]. intros rounded _.
    eapply keeps_bind; [apply keeps_value |]. intros out _.
    apply keeps_ret. exact I.
Qed.
